(** * Query transformation and batch extraction: a shallow embedding

    The development follows [processors/query_processor.py] and
    [processors/data_processor.py].  Python [str] values are Rocq strings
    whose characters are the code points 0..255; integers are [Z];
    dictionaries are [gmap]s; calls that may raise return an [outcome]. *)

From Stdlib Require Import ZArith Lia List Ascii String Bool.
From stdpp Require Import gmap strings pretty.

Local Open Scope string_scope.

(** ** Characters and strings *)

Module Str.

Definition code (c : ascii) : N := N_of_ascii c.

Definition between (lo hi : N) (c : ascii) : bool :=
  ((lo <=? code c) && (code c <=? hi))%N.

Definition is_upper : ascii -> bool := between 65 90.
Definition is_lower : ascii -> bool := between 97 122.
Definition is_digit : ascii -> bool := between 48 57.

Definition to_lower (c : ascii) : ascii :=
  if is_upper c then ascii_of_N (code c + 32) else c.

(** [str.upper] on the letters a-z.  The remaining code points below 256
    are mapped by Python to characters outside A-Z (or, for 223, to "SS"),
    so no membership test for an upper-case keyword without S is affected
    by leaving them in place. *)
Definition to_upper (c : ascii) : ascii :=
  if is_lower c then ascii_of_N (code c - 32) else c.

Fixpoint upper (s : string) : string :=
  match s with
  | EmptyString => EmptyString
  | String c s' => String (to_upper c) (upper s')
  end.

(** [\s] of a [str] pattern, on code points below 256. *)
Definition is_space (c : ascii) : bool :=
  between 9 13 c || between 28 32 c
  || (code c =? 133)%N || (code c =? 160)%N.

(** [\w] of a [str] pattern, on code points below 256. *)
Definition is_word (c : ascii) : bool :=
  is_digit c || is_upper c || (code c =? 95)%N || is_lower c
  || (code c =? 170)%N || between 178 179 c || (code c =? 181)%N
  || between 185 186 c || between 188 190 c || between 192 214 c
  || between 216 246 c || between 248 255 c.

Definition newline : ascii := ascii_of_N 10.
Definition not_newline (c : ascii) : bool := negb (Ascii.eqb c newline).
Definition backslash : ascii := ascii_of_N 92.
Definition nl : string := String newline EmptyString.

Definition chars (s : string) : list ascii := list_ascii_of_string s.
Definition of_chars (l : list ascii) : string := string_of_list_ascii l.

(** [prefix_of p s]: [s.startswith(p)]. *)
Fixpoint prefix_of (p s : list ascii) : bool :=
  match p, s with
  | [], _ => true
  | a :: p', b :: s' => if Ascii.eqb a b then prefix_of p' s' else false
  | _ :: _, [] => false
  end.

(** [find p s]: index of the first occurrence of [p] in [s]. *)
Fixpoint find (p s : list ascii) : option nat :=
  if prefix_of p s then Some 0
  else match s with
       | [] => None
       | _ :: s' => option_map S (find p s')
       end.

(** [sub in s] *)
Definition contains (sub s : string) : bool :=
  match find (chars sub) (chars s) with Some _ => true | None => false end.

(** [s.replace(old, new)] for a non-empty [old]: the occurrences are
    replaced from left to right without overlap. *)
Fixpoint replace_chars (fuel : nat) (old new s : list ascii) : list ascii :=
  match fuel with
  | O => s
  | S fuel' =>
      match find old s with
      | None => s
      | Some i =>
          firstn i s ++ new
            ++ replace_chars fuel' old new (skipn (i + List.length old) s)
      end
  end.

Definition replace (s old new : string) : string :=
  of_chars (replace_chars (S (String.length s)) (chars old) (chars new) (chars s)).

(** [sep.join(xs)] *)
Fixpoint join (sep : string) (xs : list string) : string :=
  match xs with
  | [] => ""
  | [x] => x
  | x :: xs' => x +:+ sep +:+ join sep xs'
  end.

(** [s.strip()]: leading and trailing whitespace removed. *)
Fixpoint lstrip_chars (s : list ascii) : list ascii :=
  match s with
  | c :: s' => if is_space c then lstrip_chars s' else s
  | [] => []
  end.

Definition strip (s : string) : string :=
  of_chars (rev (lstrip_chars (rev (lstrip_chars (chars s))))).

(** [s.isspace()] *)
Definition isspace (s : string) : bool :=
  match chars s with
  | [] => false
  | l => forallb is_space l
  end.

(** [sub] occurs in [s], as a proposition. *)
Definition occurs (sub s : string) : Prop :=
  exists pre post, s = pre +:+ sub +:+ post.

End Str.

(** ** Regular expressions

    The fragment of Python's [re] that the query processor uses: literals,
    [.], [\s], [\w], concatenation, greedy and lazy [*] and [+], capture
    groups (a group without number is plain nesting), under the flags
    [IGNORECASE] and [DOTALL].  Matching is the
    backtracking search of [re]: alternatives are tried in priority order
    and the first complete match wins.  Every starred expression of the
    processor consumes at least one character per iteration, so the
    treatment of empty iterations does not arise. *)

Module Re.

Inductive regex : Type :=
| Eps
| Lit (c : ascii)
| Dot
| Space
| Word
| Cat (r1 r2 : regex)
| Star (greedy : bool) (r : regex)
| Plus (greedy : bool) (r : regex)
| Grp (i : nat) (r : regex).

Record flags : Type := { ignorecase : bool; dotall : bool }.

(** group number -> captured text, most recent binding first *)
Definition captures : Type := list (nat * list ascii).

Record rmatch : Type :=
  { m_start : nat; m_end : nat; m_groups : captures }.

Definition cont : Type := list ascii -> nat -> captures -> option (nat * captures).

Definition one (ok : ascii -> bool) (s : list ascii) (p : nat)
    (cs : captures) (k : cont) : option (nat * captures) :=
  match s with
  | c :: s' => if ok c then k s' (S p) cs else None
  | [] => None
  end.

Definition lit_ok (fl : flags) (a c : ascii) : bool :=
  if ignorecase fl then Ascii.eqb (Str.to_lower a) (Str.to_lower c)
  else Ascii.eqb a c.

Definition dot_ok (fl : flags) (c : ascii) : bool :=
  dotall fl || negb (Ascii.eqb c Str.newline).

(** The iterations of a starred expression [body]: greedy tries one more
    iteration before the continuation, lazy the continuation first. *)
Fixpoint iterate
    (body : list ascii -> nat -> captures -> cont -> option (nat * captures))
    (greedy : bool) (k : cont) (fuel : nat)
    (s : list ascii) (p : nat) (cs : captures) : option (nat * captures) :=
  match fuel with
  | O => k s p cs
  | S fuel' =>
      let more (_ : unit) :=
        body s p cs
          (fun s' p' cs' =>
             if (p <? p')%nat then iterate body greedy k fuel' s' p' cs' else None) in
      if greedy then
        match more tt with Some x => Some x | None => k s p cs end
      else
        match k s p cs with Some x => Some x | None => more tt end
  end.

Fixpoint run (fl : flags) (r : regex) (s : list ascii) (p : nat)
    (cs : captures) (k : cont) {struct r} : option (nat * captures) :=
  match r with
  | Eps => k s p cs
  | Lit a => one (lit_ok fl a) s p cs k
  | Dot => one (dot_ok fl) s p cs k
  | Space => one Str.is_space s p cs k
  | Word => one Str.is_word s p cs k
  | Cat r1 r2 => run fl r1 s p cs (fun s' p' cs' => run fl r2 s' p' cs' k)
  | Star g r' => iterate (run fl r') g k (S (List.length s)) s p cs
  | Plus g r' =>
      run fl r' s p cs
        (fun s' p' cs' => iterate (run fl r') g k (S (List.length s')) s' p' cs')
  | Grp i r' =>
      run fl r' s p cs
        (fun s' p' cs' => k s' p' ((i, firstn (p' - p) s) :: cs'))
  end.

(** A match anchored at position [p] of the subject, [s] being the
    subject from [p] on. *)
Definition match_at (fl : flags) (r : regex) (s : list ascii) (p : nat)
    : option rmatch :=
  match run fl r s p [] (fun _ p' cs' => Some (p', cs')) with
  | Some (e, cs) => Some {| m_start := p; m_end := e; m_groups := cs |}
  | None => None
  end.

(** The leftmost match at or after position [p]. *)
Fixpoint search_from (fl : flags) (r : regex) (s : list ascii) (p : nat)
    : option rmatch :=
  match match_at fl r s p with
  | Some m => Some m
  | None =>
      match s with
      | [] => None
      | _ :: s' => search_from fl r s' (S p)
      end
  end.

(** [re.search(pattern, subject, flags)] *)
Definition search (fl : flags) (r : regex) (subject : string) : option rmatch :=
  search_from fl r (Str.chars subject) 0.

(** [re.finditer]: the matches from left to right without overlap; after
    an empty match the scan moves on by one character. *)
Fixpoint finditer_from (fuel : nat) (fl : flags) (r : regex)
    (s : list ascii) (p : nat) : list rmatch :=
  match fuel with
  | O => []
  | S fuel' =>
      match search_from fl r s p with
      | None => []
      | Some m =>
          let e := if (m_start m <? m_end m)%nat then m_end m else S (m_end m) in
          m :: finditer_from fuel' fl r (skipn (e - p) s) e
      end
  end.

Definition finditer (fl : flags) (r : regex) (subject : string) : list rmatch :=
  finditer_from (S (String.length subject)) fl r (Str.chars subject) 0.

(** [m.group(i)]: [None] when the group took no part in the match. *)
Definition group (m : rmatch) (i : nat) : option string :=
  match List.find (fun b => Nat.eqb (fst b) i) (m_groups m) with
  | Some (_, t) => Some (Str.of_chars t)
  | None => None
  end.

(** The text of a group that the pattern always sets. *)
Definition group_text (m : rmatch) (i : nat) : string :=
  match group m i with Some t => t | None => "" end.

(** *** Replacement templates

    [parse_template] of [re]: a backslash followed by digits is a group
    reference or an octal escape, [\g<n>] is a group reference, the
    escapes [\a \b \f \n \r \t \v \\] stand for their character, a
    backslash before another ASCII letter is an error, and a backslash
    before any other character stays in the output together with that
    character.  The processor's patterns have no named groups. *)

Inductive titem : Type :=
| TLit (c : ascii)
| TGroup (i : nat).

Definition is_octal (c : ascii) : bool := Str.between 48 55 c.
Definition digit_val (c : ascii) : nat := N.to_nat (Str.code c - 48).
Definition is_letter (c : ascii) : bool := Str.is_upper c || Str.is_lower c.

Definition escape_char (c : ascii) : option ascii :=
  match Str.code c with
  | 97%N => Some (ascii_of_N 7)     (* \a *)
  | 98%N => Some (ascii_of_N 8)     (* \b *)
  | 102%N => Some (ascii_of_N 12)   (* \f *)
  | 110%N => Some (ascii_of_N 10)   (* \n *)
  | 114%N => Some (ascii_of_N 13)   (* \r *)
  | 116%N => Some (ascii_of_N 9)    (* \t *)
  | 118%N => Some (ascii_of_N 11)   (* \v *)
  | 92%N => Some Str.backslash
  | _ => None
  end.

(** digits of a [\g<...>] name up to the closing bracket *)
Fixpoint group_name (t : list ascii) (acc : nat) (seen : bool)
    : option (nat * list ascii) :=
  match t with
  | [] => None
  | c :: t' =>
      if Ascii.eqb c ">"%char then (if seen then Some (acc, t') else None)
      else if Str.is_digit c then group_name t' (10 * acc + digit_val c) true
      else None
  end.

(** A text without backslash stands for itself in a template. *)
Definition plain (l : list ascii) : bool :=
  forallb (fun c => negb (Ascii.eqb c Str.backslash)) l.

Fixpoint parse_template (fuel : nat) (groups : nat) (t : list ascii)
    : option (list titem) :=
  match fuel with
  | O => match t with [] => Some [] | _ => None end
  | S fuel' =>
      let lit c rest := option_map (cons (TLit c)) (parse_template fuel' groups rest) in
      let grp i rest :=
        if (i <=? groups)%nat
        then option_map (cons (TGroup i)) (parse_template fuel' groups rest)
        else None in
      match t with
      | [] => Some []
      | c :: t1 =>
          if negb (Ascii.eqb c Str.backslash) then lit c t1
          else
            match t1 with
            | [] => None
            | d :: t2 =>
                if Ascii.eqb d "g"%char then
                  match t2 with
                  | lt :: t3 =>
                      if Ascii.eqb lt "<"%char then
                        match group_name t3 0 false with
                        | Some (i, rest) => grp i rest
                        | None => None
                        end
                      else None
                  | [] => None
                  end
                else if Ascii.eqb d "0"%char then
                  match t2 with
                  | o1 :: t3 =>
                      if is_octal o1 then
                        match t3 with
                        | o2 :: t4 =>
                            if is_octal o2
                            then lit (ascii_of_nat ((8 * digit_val o1 + digit_val o2) mod 256)) t4
                            else lit (ascii_of_nat (digit_val o1)) t3
                        | [] => lit (ascii_of_nat (digit_val o1)) t3
                        end
                      else lit (ascii_of_nat 0) t2
                  | [] => lit (ascii_of_nat 0) t2
                  end
                else if Str.is_digit d then
                  match t2 with
                  | d2 :: t3 =>
                      if Str.is_digit d2 then
                        match t3 with
                        | d3 :: t4 =>
                            if is_octal d && is_octal d2 && is_octal d3 then
                              let v := 64 * digit_val d + 8 * digit_val d2 + digit_val d3 in
                              if (255 <? v)%nat then None else lit (ascii_of_nat v) t4
                            else grp (10 * digit_val d + digit_val d2) t3
                        | [] => grp (10 * digit_val d + digit_val d2) t3
                        end
                      else grp (digit_val d) t2
                  | [] => grp (digit_val d) t2
                  end
                else
                  match escape_char d with
                  | Some e => lit e t2
                  | None =>
                      if is_letter d then None
                      else option_map (fun r => TLit c :: TLit d :: r)
                             (parse_template fuel' groups t2)
                  end
            end
      end
  end.

(** An unmatched group expands to the empty string. *)
Fixpoint expand (items : list titem) (whole : list ascii) (cs : captures)
    : list ascii :=
  match items with
  | [] => []
  | TLit c :: rest => c :: expand rest whole cs
  | TGroup i :: rest =>
      (match i with
       | O => whole
       | _ => match List.find (fun b => Nat.eqb (fst b) i) cs with
              | Some (_, t) => t
              | None => []
              end
       end) ++ expand rest whole cs
  end.

Fixpoint sub_from (fuel : nat) (fl : flags) (r : regex) (items : list titem)
    (s : list ascii) (p : nat) : list ascii :=
  match fuel with
  | O => s
  | S fuel' =>
      match search_from fl r s p with
      | None => s
      | Some m =>
          let whole := firstn (m_end m - m_start m) (skipn (m_start m - p) s) in
          let e := if (m_start m <? m_end m)%nat then m_end m else S (m_end m) in
          firstn (m_start m - p) s ++ expand items whole (m_groups m)
            ++ firstn (e - m_end m) (skipn (m_end m - p) s)
            ++ sub_from fuel' fl r items (skipn (e - p) s) e
      end
  end.

(** [re.sub(pattern, repl, subject, flags)] for a pattern with [groups]
    capture groups; [None] when the template is rejected, which [re]
    reports before it looks for a match. *)
Definition sub (fl : flags) (r : regex) (groups : nat) (repl subject : string)
    : option string :=
  match parse_template (String.length repl) groups (Str.chars repl) with
  | None => None
  | Some items =>
      Some (Str.of_chars
              (sub_from (S (String.length subject)) fl r items (Str.chars subject) 0))
  end.

End Re.

(** ** The patterns of the query processor

    The comments show each pattern with blanks between its parts; the
    blanks are not part of the pattern. *)

Module Pat.
Import Re.

Fixpoint lits (s : string) : regex :=
  match s with
  | EmptyString => Eps
  | String c EmptyString => Lit c
  | String c s' => Cat (Lit c) (lits s')
  end.

Fixpoint seq (rs : list regex) : regex :=
  match rs with
  | [] => Eps
  | [r] => r
  | r :: rs' => Cat r (seq rs')
  end.

Definition ws1 : regex := Plus true Space.     (* \s+ *)
Definition ws0 : regex := Star true Space.     (* \s* *)
Definition ident : regex := Plus true Word.    (* \w+ *)
Definition lazy_any : regex := Star false Dot. (* .*? *)
Definition any : regex := Star true Dot.       (* .* *)
Definition lpar : regex := Lit "("%char.
Definition rpar : regex := Lit ")"%char.

(** re.IGNORECASE | re.DOTALL *)
Definition IS : flags := {| ignorecase := true; dotall := true |}.
(** re.IGNORECASE *)
Definition I : flags := {| ignorecase := true; dotall := false |}.

(** [_has_with_clause]: WITH \s+ \w+ \s+ AS \s* \( *)
Definition has_with_pattern : regex :=
  seq [lits "WITH"; ws1; ident; ws1; lits "AS"; ws0; lpar].

(** WITH \s+ (\w+) \s+ AS \s* \( *)
Definition with_pattern : regex :=
  seq [lits "WITH"; ws1; Grp 1 ident; ws1; lits "AS"; ws0; lpar].

(** WITH \s+ (\w+) \s+ AS \s* \( (.*?) \) *)
Definition cte_pattern : regex :=
  seq [lits "WITH"; ws1; Grp 1 ident; ws1; lits "AS"; ws0; lpar;
       Grp 2 lazy_any; rpar].

(** WITH \s+ (\w+) \s+ AS \s* \( (.*?) \) \s* (SELECT .* ) *)
Definition single_cte_pattern : regex :=
  seq [lits "WITH"; ws1; Grp 1 ident; ws1; lits "AS"; ws0; lpar;
       Grp 2 lazy_any; rpar; ws0; Grp 3 (Cat (lits "SELECT") any)].

(** WITH \s+ (\w+) \s+ AS \s* \( (.*?) \)
    (?: \s* , \s* (\w+) \s+ AS \s* \( (.*?) \) )* \s* (SELECT .* ) *)
Definition flexible_cte_pattern : regex :=
  seq [lits "WITH"; ws1; Grp 1 ident; ws1; lits "AS"; ws0; lpar;
       Grp 2 lazy_any; rpar;
       Star true
         (seq [ws0; Lit ","%char; ws0; Grp 3 ident; ws1; lits "AS"; ws0; lpar;
               Grp 4 lazy_any; rpar]);
       ws0; Grp 5 (Cat (lits "SELECT") any)].

(** ( WITH \s+ \w+ \s+ AS \s* \( .*? \) ) \s* (SELECT .* ) *)
Definition hoist_pattern : regex :=
  seq [Grp 1 (seq [lits "WITH"; ws1; ident; ws1; lits "AS"; ws0; lpar;
                   lazy_any; rpar]);
       ws0; Grp 2 (Cat (lits "SELECT") any)].

(** SELECT \s+ (.*?) \s+ FROM \s+ *)
Definition select_from_pattern : regex :=
  seq [lits "SELECT"; ws1; Grp 1 lazy_any; ws1; lits "FROM"; ws1].

(** WHERE \s+ ( .* ) *)
Definition where_pattern : regex :=
  seq [lits "WHERE"; ws1; Grp 1 any].

(** The keyword of [where_pattern], as [str.upper] shows it. *)
Definition keyword : list ascii := Str.chars "WHERE".

End Pat.

(** ** Results of calls that may raise *)

Inductive exn : Type :=
| CsvGenerationException (msg : string)   (* Exceptions.CsvGenerationException *)
| RuntimeError (msg : string)
| ZeroDivisionError
| ReError                                 (* re.error: rejected template *)
| OtherError (msg : string).              (* any other subclass of Exception *)

Inductive outcome (A : Type) : Type :=
| Ok (a : A)
| Raise (e : exn).
Arguments Ok {A} a.
Arguments Raise {A} e.

Definition bind {A B} (x : outcome A) (f : A -> outcome B) : outcome B :=
  match x with Ok a => f a | Raise e => Raise e end.

Notation "'let!' x ':=' c1 'in' c2" := (bind c1 (fun x => c2))
  (at level 10, x name, c1 at level 100, c2 at level 200).

(** [try: body except Exception: handler] *)
Definition try_except {A} (body : outcome A) (handler : exn -> outcome A) : outcome A :=
  match body with Ok a => Ok a | Raise e => handler e end.

Definition of_option {A} (e : exn) (x : option A) : outcome A :=
  match x with Some a => Ok a | None => Raise e end.

(** ** Data model *)

(** [core.models.QueryConfig], with the attributes the processors read. *)
Record QueryConfig : Type := {
  name : string;
  description : string;
  sql : string;
  timestamp_column : option string;
  primary_key : string;
  target_table : string;
  is_incremental : bool;
  order_by_column : string;
  database_name : string
}.

(** The dictionary built by [_analyze_with_structure]. *)
Record Analysis : Type := {
  has_with : bool;
  cte_count : nat;
  cte_names : list string;
  main_query : string;
  is_complex : bool
}.

(** [core.models.ProcessingResult] *)
Record ProcessingResult : Type := {
  query_name : string;
  batch_count : Z;
  row_count : Z;
  total_size_bytes : Z;
  total_size_formatted : string
}.

(** [app_config.databases]: database name -> configured type. *)
Abbreviation AppConfig := (gmap string string).

(** ** Timestamps

    A [datetime] is its wall-clock reading, counted in microseconds from
    0001-01-01T00:00:00, together with the UTC offset of its [tzinfo]
    (in microseconds), absent for a naive value.  Arithmetic that leaves
    the years 1..9999 raises [OverflowError]. *)

Module Datetime.

Record datetime : Type := { wall : Z; tzinfo : option Z }.

(** 9999-12-31T23:59:59.999999 *)
Definition max_wall : Z := 3652059 * 86400 * 1000000 - 1.

(** timezone(timedelta(hours=9)) *)
Definition JST : Z := 9 * 3600 * 1000000.

Definition shift (w delta : Z) : outcome Z :=
  let w' := (w + delta)%Z in
  if ((0 <=? w') && (w' <=? max_wall))%Z then Ok w'
  else Raise (OtherError "OverflowError").

(** [d.replace(tzinfo=tz)] *)
Definition replace_tzinfo (d : datetime) (tz : Z) : datetime :=
  {| wall := wall d; tzinfo := Some tz |}.

(** [d.replace(microsecond=0)] *)
Definition replace_microsecond_0 (d : datetime) : datetime :=
  {| wall := (wall d - wall d mod 1000000)%Z; tzinfo := tzinfo d |}.

(** [d.astimezone(tz)] for an aware [d] of offset [off]: the UTC reading
    [d - off] is taken first, then moved to [tz]. *)
Definition astimezone (d : datetime) (off tz : Z) : outcome datetime :=
  let! utc := shift (wall d) (- off) in
  let! w := shift utc tz in
  Ok {| wall := w; tzinfo := Some tz |}.

(** The instant of an aware value, as a UTC reading. *)
Definition instant (d : datetime) (off : Z) : Z := (wall d - off)%Z.

End Datetime.

(** ** The database, as the processors see it

    [acquire t name] stands for [get_engine(name).connect()] at moment [t];
    [execute k text params] is the statement number [k] that a function
    sends over the connection, with the bound [last_run_time] if any.
    Every call may raise, and the outcome may differ from call to call. *)

Module Db.

Inductive cell : Type :=
| CInt (z : Z)
| CStr (s : string)
| CDatetime (d : Datetime.datetime)
| CObject.                              (* any other value *)

Definition row : Type := list cell.

Record Cursor : Type := {
  fetchone : outcome (option row);
  fetchall : outcome (list row);
  scalar : outcome (option cell);
  close : outcome unit
}.

Record Connection : Type := {
  execute : nat -> string -> option string -> outcome Cursor;
  release : outcome unit                (* __exit__ of the with block *)
}.

Definition Database : Type := nat -> string -> outcome Connection.

(** [with connection: body]: the connection is released on both ways
    out, and a failing release replaces the outcome of the body. *)
Definition with_connection {A} (c : Connection) (body : outcome A) : outcome A :=
  match body with
  | Ok a => let! _ := release c in Ok a
  | Raise e => match release c with Ok _ => Raise e | Raise e' => Raise e' end
  end.

Fixpoint digits_value (acc : Z) (prev_digit : bool) (s : list ascii) : option Z :=
  match s with
  | [] => if prev_digit then Some acc else None
  | c :: s' =>
      if Str.is_digit c
      then digits_value (10 * acc + Z.of_N (Str.code c - 48)) true s'
      else if (Ascii.eqb c "_"%char && prev_digit)%bool
           then match s' with
                | d :: _ => if Str.is_digit d then digits_value acc false s' else None
                | [] => None
                end
           else None
  end.

(** [int(v)]: an integer is itself; a string is a decimal literal with an
    optional sign, blanks around it and single underscores between its
    digits; anything else raises. *)
Definition py_int (v : cell) : outcome Z :=
  match v with
  | CInt z => Ok z
  | CStr s =>
      let body := rev (Str.lstrip_chars (rev (Str.lstrip_chars (Str.chars s)))) in
      let parsed :=
        match body with
        | c :: rest =>
            if Ascii.eqb c "-"%char then option_map Z.opp (digits_value 0 false rest)
            else if Ascii.eqb c "+"%char then digits_value 0 false rest
            else digits_value 0 false body
        | [] => None
        end in
      of_option (OtherError "ValueError") parsed
  | _ => Raise (OtherError "TypeError")
  end.

End Db.

(** ** The query processor: SQL synthesis *)

Module QueryProcessor.

Definition lower_char (c : ascii) : ascii :=
  if Str.is_upper c || Str.between 192 214 c || Str.between 216 222 c
  then ascii_of_N (Str.code c + 32) else c.

Fixpoint lower (s : string) : string :=
  match s with
  | EmptyString => EmptyString
  | String c s' => String (lower_char c) (lower s')
  end.

Definition _get_database_type (app_config : option AppConfig)
    (database_name : string) : string :=
  match app_config with
  | None => "mssql"
  | Some cfg =>
      match cfg !! database_name with
      | None => "mssql"
      | Some ty => lower ty
      end
  end.

Definition is_mysql (database_type : string) : bool :=
  String.eqb database_type "mysql".

Definition _has_with_clause (sql : string) : bool :=
  match Re.search Pat.IS Pat.has_with_pattern sql with
  | Some _ => true
  | None => false
  end.

Definition no_analysis : Analysis :=
  {| has_with := false; cte_count := 0; cte_names := [];
     main_query := ""; is_complex := false |}.

(** [sql[i:]] *)
Definition slice_from (i : nat) (s : string) : string :=
  Str.of_chars (skipn i (Str.chars s)).

(** A non-empty group: the truth value of [match.group(i)]. *)
Definition truthy (g : option string) : bool :=
  match g with
  | Some (String _ _) => true
  | _ => false
  end.

Definition _analyze_with_structure (sql : string) : Analysis :=
  let with_matches := Re.finditer Pat.IS Pat.with_pattern sql in
  match with_matches with
  | [] => no_analysis
  | _ :: _ =>
      if (1 <? List.length with_matches)%nat then
        let cte_matches := Re.finditer Pat.IS Pat.cte_pattern sql in
        let names := List.map (fun m => Re.group_text m 1) cte_matches in
        match List.last (List.map Some cte_matches) None with
        | Some m =>
            {| has_with := true; cte_count := List.length with_matches;
               cte_names := names;
               main_query := Str.strip (slice_from (Re.m_end m) sql);
               is_complex := true |}
        | None =>
            (* cte_matches[-1] raises IndexError; the handler resets the flag *)
            {| has_with := true; cte_count := List.length with_matches;
               cte_names := names; main_query := ""; is_complex := false |}
        end
      else
        match Re.search Pat.IS Pat.single_cte_pattern sql with
        | Some m =>
            {| has_with := true; cte_count := List.length with_matches;
               cte_names := [Re.group_text m 1];
               main_query := Re.group_text m 3;
               is_complex := false |}
        | None =>
            match Re.search Pat.IS Pat.flexible_cte_pattern sql with
            | Some m =>
                {| has_with := true; cte_count := List.length with_matches;
                   cte_names :=
                     Re.group_text m 1 ::
                     (if truthy (Re.group m 3) then [Re.group_text m 3] else []);
                   main_query :=
                     (if truthy (Re.group m 5) then Re.group_text m 5
                      else Re.group_text m 3);
                   is_complex := truthy (Re.group m 3) |}
            | None =>
                {| has_with := true; cte_count := List.length with_matches;
                   cte_names := []; main_query := ""; is_complex := false |}
            end
        end
  end.

Definition indent (n : nat) : string := Str.of_chars (repeat " "%char n).

Definition _get_limit_clause (database_type : string) : string :=
  if is_mysql database_type then "LIMIT 1" else "TOP 1".

Definition _adjust_parameter_placeholder (sql database_type : string) : string := sql.

Definition _get_column_quote (database_type : string) : string :=
  if is_mysql database_type then "`" else "[".

Definition _get_column_quote_close (database_type : string) : string :=
  if is_mysql database_type then "`" else "]".

Definition re_sub (r : Re.regex) (groups : nat) (repl subject : string) : outcome string :=
  of_option ReError (Re.sub Pat.IS r groups repl subject).

Definition _create_with_count_query (sql database_type : string) : outcome string :=
  let analysis := _analyze_with_structure sql in
  if negb (has_with analysis) then
    Ok ("SELECT COUNT(*) as record_count FROM (" +:+ sql +:+ ") as subquery")
  else
    match Re.search Pat.IS Pat.hoist_pattern sql with
    | Some m =>
        let with_clause := Re.group_text m 1 in
        let main_select := Re.group_text m 2 in
        Ok (Str.nl +:+ indent 12 +:+ with_clause +:+ Str.nl
            +:+ indent 12 +:+ "SELECT COUNT(*) as record_count FROM ("
            +:+ main_select +:+ ") as subquery" +:+ Str.nl
            +:+ indent 12)
    | None =>
        re_sub Pat.select_from_pattern 1 "SELECT COUNT(*) as record_count FROM " sql
    end.

Definition _create_with_header_query (sql database_type limit_clause : string)
    : outcome string :=
  let analysis := _analyze_with_structure sql in
  if negb (has_with analysis) then
    if is_mysql database_type
    then Ok ("SELECT * FROM (" +:+ sql +:+ ") as subquery " +:+ limit_clause)
    else Ok ("SELECT " +:+ limit_clause +:+ " * FROM (" +:+ sql +:+ ") as subquery")
  else
    match Re.search Pat.IS Pat.hoist_pattern sql with
    | Some m =>
        let with_clause := Re.group_text m 1 in
        let main_select := Re.group_text m 2 in
        if is_mysql database_type then
          Ok (Str.nl +:+ indent 16 +:+ with_clause +:+ Str.nl
              +:+ indent 16 +:+ "SELECT * FROM (" +:+ main_select
              +:+ ") as subquery " +:+ limit_clause +:+ Str.nl
              +:+ indent 16)
        else
          Ok (Str.nl +:+ indent 16 +:+ with_clause +:+ Str.nl
              +:+ indent 16 +:+ "SELECT " +:+ limit_clause +:+ " * FROM ("
              +:+ main_select +:+ ") as subquery" +:+ Str.nl
              +:+ indent 16)
    | None =>
        if is_mysql database_type then
          let! header_sql :=
            re_sub Pat.select_from_pattern 1
              "SELECT \1 FROM " sql in
          Ok (header_sql +:+ " " +:+ limit_clause)
        else
          re_sub Pat.select_from_pattern 1
            ("SELECT " +:+ limit_clause +:+ " \1 FROM ") sql
    end.

(** The row window of a batch: WHERE rn > offset AND rn <= offset + batch_size *)
Definition row_window (offset batch_size : Z) : string :=
  "WHERE rn > " +:+ pretty offset +:+ " AND rn <= " +:+ pretty (offset + batch_size)%Z.

(** The batch statement around a body that has no WITH clause to hoist. *)
Definition numbered_batch (select_columns order_column body : string)
    (offset batch_size : Z) : string :=
  Str.nl +:+ indent 16 +:+ "SELECT " +:+ select_columns +:+ " FROM (" +:+ Str.nl
  +:+ indent 20 +:+ "SELECT *, ROW_NUMBER() OVER (ORDER BY " +:+ order_column
  +:+ " ASC) as rn " +:+ Str.nl
  +:+ indent 20 +:+ "FROM (" +:+ body +:+ ") as subquery" +:+ Str.nl
  +:+ indent 16 +:+ ") as numbered " +:+ Str.nl
  +:+ indent 16 +:+ row_window offset batch_size +:+ Str.nl
  +:+ indent 16.

Definition _create_with_batch_query (sql database_type select_columns order_column : string)
    (offset batch_size : Z) : outcome string :=
  let analysis := _analyze_with_structure sql in
  if negb (has_with analysis) then
    if is_mysql database_type
    then Ok (numbered_batch select_columns order_column sql offset batch_size)
    else Ok (numbered_batch select_columns order_column sql offset batch_size)
  else
    match Re.search Pat.IS Pat.hoist_pattern sql with
    | Some m =>
        let with_clause := Re.group_text m 1 in
        let main_select := Re.group_text m 2 in
        Ok (Str.nl +:+ indent 12 +:+ with_clause +:+ Str.nl
            +:+ indent 12 +:+ "SELECT " +:+ select_columns +:+ " FROM (" +:+ Str.nl
            +:+ indent 16 +:+ "SELECT *, ROW_NUMBER() OVER (ORDER BY " +:+ order_column
            +:+ " ASC) as rn " +:+ Str.nl
            +:+ indent 16 +:+ "FROM (" +:+ main_select +:+ ") as subquery" +:+ Str.nl
            +:+ indent 12 +:+ ") as numbered " +:+ Str.nl
            +:+ indent 12 +:+ row_window offset batch_size +:+ Str.nl
            +:+ indent 12)
    | None =>
        let! batch_sql :=
          re_sub Pat.select_from_pattern 1
            ("SELECT \1, ROW_NUMBER() OVER (ORDER BY "
             +:+ order_column +:+ " ASC) as rn FROM ") sql in
        Ok (Str.nl +:+ indent 12 +:+ "SELECT " +:+ select_columns +:+ " FROM ("
            +:+ batch_sql +:+ ") as numbered " +:+ Str.nl
            +:+ indent 12 +:+ row_window offset batch_size +:+ Str.nl
            +:+ indent 12)
    end.

(** One header between the quotes of the dialect. *)
Definition quote_column (database_type h : string) : string :=
  _get_column_quote database_type +:+ h +:+ _get_column_quote_close database_type.

(** The quoted column list of the outer projection. *)
Definition quoted_columns (database_type : string) (headers : list string) : list string :=
  List.map (quote_column database_type) headers.

Definition create_batch_query (app_config : option AppConfig) (query_config : QueryConfig)
    (batch_size offset : Z) (headers : list string) : outcome string :=
  let base_sql := sql query_config in
  let database_type := _get_database_type app_config (database_name query_config) in
  let adjusted_sql := _adjust_parameter_placeholder base_sql database_type in
  let select_columns := Str.join ", " (quoted_columns database_type headers) in
  let order_column := order_by_column query_config in
  let analysis := _analyze_with_structure (sql query_config) in
  if has_with analysis then
    _create_with_batch_query adjusted_sql database_type select_columns order_column
      offset batch_size
  else
    if is_mysql database_type
    then Ok (numbered_batch select_columns order_column adjusted_sql offset batch_size)
    else Ok (numbered_batch select_columns order_column adjusted_sql offset batch_size).

(** The count statement that [get_record_count] executes. *)
Definition count_sql_of (app_config : option AppConfig) (query_config : QueryConfig)
    : outcome string :=
  let database_type := _get_database_type app_config (database_name query_config) in
  let adjusted_sql := _adjust_parameter_placeholder (sql query_config) database_type in
  let analysis := _analyze_with_structure (sql query_config) in
  if has_with analysis then _create_with_count_query adjusted_sql database_type
  else Ok ("SELECT COUNT(*) as record_count FROM (" +:+ adjusted_sql +:+ ") as subquery").

(** The probe statement that [get_headers] executes. *)
Definition header_sql_of (app_config : option AppConfig) (query_config : QueryConfig)
    : outcome string :=
  let database_type := _get_database_type app_config (database_name query_config) in
  let limit_clause := _get_limit_clause database_type in
  let adjusted_sql := _adjust_parameter_placeholder (sql query_config) database_type in
  let analysis := _analyze_with_structure (sql query_config) in
  if has_with analysis then _create_with_header_query adjusted_sql database_type limit_clause
  else if is_mysql database_type
       then Ok ("SELECT * FROM (" +:+ adjusted_sql +:+ ") as subquery " +:+ limit_clause)
       else Ok ("SELECT " +:+ limit_clause +:+ " * FROM (" +:+ adjusted_sql +:+ ") as subquery").

(** *** Statements sent to the database *)

Import Db.

(** The parameters bound to a statement. *)
Definition bound_params (query_config : QueryConfig) (last_run_time : string)
    : option string :=
  if is_incremental query_config && bool_decide (is_Some (timestamp_column query_config))
  then Some last_run_time else None.

(** [record_count = result.scalar(); result.close()], then
    [int(record_count)] unless it is [None]. *)
Definition read_count (result : Cursor) : outcome (option Z) :=
  let! record_count := scalar result in
  let! _ := close result in
  match record_count with
  | Some v => let! n := py_int v in Ok (Some n)
  | None => Ok None
  end.

(** A count attempt that fails or yields no value. *)
Definition counts_nothing (attempt : outcome Cursor) : Prop :=
  forall n : Z, (let! result := attempt in read_count result) <> Ok (Some n).

Definition execute_batch (db : Database) (t : nat) (batch_query last_run_time : string)
    (query_config : QueryConfig) : outcome (list row) :=
  let! connection := db t (database_name query_config) in
  with_connection connection
    (let! result := execute connection 0 batch_query
                      (bound_params query_config last_run_time) in
     let! rows := fetchall result in
     let! _ := close result in
     Ok rows).

Definition _get_record_count_with_fallback (app_config : option AppConfig)
    (db : Database) (t : nat) (query_config : QueryConfig) (last_run_time : string)
    : outcome Z :=
  try_except
    (let! connection := db t (database_name query_config) in
     let database_type := _get_database_type app_config (database_name query_config) in
     let limit_clause := _get_limit_clause database_type in
     with_connection connection
       (let adjusted_sql :=
          _adjust_parameter_placeholder (sql query_config) database_type in
        let analysis := _analyze_with_structure (sql query_config) in
        let params := bound_params query_config last_run_time in
        let! test_sql :=
          if has_with analysis
          then _create_with_header_query adjusted_sql database_type limit_clause
          else if is_mysql database_type
               then Ok ("SELECT * FROM (" +:+ adjusted_sql +:+ ") as subquery "
                        +:+ limit_clause)
               else Ok ("SELECT " +:+ limit_clause +:+ " * FROM (" +:+ adjusted_sql
                        +:+ ") as subquery") in
        let! test_result := execute connection 0 test_sql params in
        let! first := fetchone test_result in
        let! _ := close test_result in
        match first with
        | Some _ =>
            (* method 1: the count statement *)
            let! counted :=
              try_except
                (let! count_sql := _create_with_count_query adjusted_sql database_type in
                 let! result := execute connection 1 count_sql params in
                 read_count result)
                (fun _ => Ok None) in
            match counted with
            | Some n => Ok n
            | None =>
                (* method 2: a sample of 1000 rows, then the count again *)
                let! recounted :=
                  try_except
                    (let! test_count_sql :=
                       if has_with analysis
                       then _create_with_header_query adjusted_sql database_type "TOP 1000"
                       else Ok ("SELECT TOP 1000 * FROM (" +:+ adjusted_sql
                                +:+ ") as subquery") in
                     let! sample := execute connection 2 test_count_sql params in
                     let! test_rows := fetchall sample in
                     let! _ := close sample in
                     match test_rows with
                     | _ :: _ =>
                         let! count_sql :=
                           _create_with_count_query adjusted_sql database_type in
                         let! result := execute connection 3 count_sql params in
                         read_count result
                     | [] => Ok None
                     end)
                    (fun _ => Ok None) in
                match recounted with
                | Some n => Ok n
                | None => Ok 1%Z
                end
            end
        | None => Ok 0%Z
        end))
    (fun _ => Ok 0%Z).

(** [fromisoformat] is [datetime.fromisoformat], which raises on a text
    it cannot read. *)
Definition get_max_system_date (fromisoformat : string -> outcome Datetime.datetime)
    (db : Database) (t : nat) (database_name : string) : outcome (option cell) :=
  try_except
    (let! connection := db t database_name in
     with_connection connection
       (let! result := execute connection 0
                         "SELECT MAX(SystemDate) FROM HistoryMainline" None in
        let! max_date := scalar result in
        let! _ := close result in
        match max_date with
        | Some (CStr s) => let! d := fromisoformat s in Ok (Some (CDatetime d))
        | Some v => Ok (Some v)
        | None => Ok None
        end))
    (fun _ => Ok None).

(** *** Date ranges *)

(** Values of the SYSTEMDATE dictionary. *)
Inductive pyval : Type :=
| PNone
| PBool (b : bool)
| PStr (s : string).

Definition nonempty (s : string) : bool :=
  match s with EmptyString => false | String _ _ => true end.

(** The truth value of [d.get(key)] *)
Definition truth (v : option pyval) : bool :=
  match v with
  | Some (PBool b) => b
  | Some (PStr s) => nonempty s
  | _ => false
  end.

(** The text of a configured date, when it is set. *)
Definition date_text (v : option pyval) : option string :=
  match v with
  | Some (PStr s) => if nonempty s then Some s else None
  | Some (PBool true) => Some "True"
  | _ => None
  end.

Definition start_of (systemdate_config : gmap string pyval)
    (last_run_time : option string) : string :=
  match date_text (systemdate_config !! "start_date") with
  | Some s => s
  | None =>
      match last_run_time with
      | Some t => if nonempty t then t else "1900-01-01 00:00:00"
      | None => "1900-01-01 00:00:00"
      end
  end.

(** [now_text] is datetime.now(JST).strftime("%Y-%m-%d %H:%M:%S"). *)
Definition end_of (systemdate_config : gmap string pyval) (now_text : string) : string :=
  match date_text (systemdate_config !! "end_date") with
  | Some s => s
  | None => now_text
  end.

Definition placeholder : string := ":last_run_time".

(** The replacement text of the raw f-string: the backslashes before the
    quotes belong to it. *)
Definition where_template (start_date_str end_date_str : string) : string :=
  "WHERE \1 AND SystemDate BETWEEN \'" +:+ start_date_str +:+ "\' AND \'"
  +:+ end_date_str +:+ "\'".

(** What the template puts after the condition. *)
Definition range_text (start_date_str end_date_str : string) : string :=
  " AND SystemDate BETWEEN \'" +:+ start_date_str +:+ "\' AND \'" +:+ end_date_str +:+ "\'".

Definition apply_systemdate_range (sql : string) (systemdate_config : gmap string pyval)
    (last_run_time : option string) (now_text : string) : string :=
  if negb (truth (systemdate_config !! "enabled")) then sql
  else
    let start_date_str := start_of systemdate_config last_run_time in
    let end_date_str := end_of systemdate_config now_text in
    if Str.contains "WHERE" (Str.upper sql) then
      if Str.contains placeholder sql then
        Str.replace sql placeholder ("'" +:+ start_date_str +:+ "'")
      else
        match Re.sub Pat.I Pat.where_pattern 1
                (where_template start_date_str end_date_str) sql with
        | Some sql' => sql'
        | None => sql            (* re.error, caught: the text is returned as it was *)
        end
    else
      sql +:+ " WHERE SystemDate BETWEEN '" +:+ start_date_str +:+ "' AND '"
      +:+ end_date_str +:+ "'".

(** *** Query definitions as objects

    A query definition is a mutable object; the store maps references to
    objects.  [default_database_name] is what the constructor of
    [core.models.QueryConfig] gives to [database_name] when the argument
    is left out, [None] when the constructor then raises. *)

Abbreviation store := (gmap positive QueryConfig).

Definition truthy_column (c : option string) : bool :=
  match c with Some s => nonempty s | None => false end.

Definition process_query_with_systemdate_range
    (default_database_name : option string)
    (h : store) (query_config : positive) (systemdate_config : gmap string pyval)
    (last_run_time : option string) (now_text : string) : store * positive :=
  match h !! query_config, default_database_name with
  | Some q, Some dbn =>
      let modified_config := fresh (dom h) in
      let h1 :=
        <[modified_config :=
            {| name := name q; description := description q; sql := sql q;
               timestamp_column := timestamp_column q; primary_key := primary_key q;
               target_table := target_table q; is_incremental := is_incremental q;
               order_by_column := order_by_column q; database_name := dbn |}]> h in
      if is_incremental q && truthy_column (timestamp_column q) then
        (alter (fun m =>
                  {| name := name m; description := description m;
                     sql := apply_systemdate_range (sql q) systemdate_config
                              last_run_time now_text;
                     timestamp_column := timestamp_column m;
                     primary_key := primary_key m; target_table := target_table m;
                     is_incremental := is_incremental m;
                     order_by_column := order_by_column m;
                     database_name := database_name m |})
               modified_config h1,
         modified_config)
      else (h1, modified_config)
  | _, _ => (h, query_config)      (* the handler returns the original object *)
  end.

End QueryProcessor.

(** ** The data processor: the batch loop and the watermark *)

Module DataProcessor.

Import Db.

(** The collaborators of the loop.  The number given to a call is the
    iteration of the loop that makes it. *)
Record Collaborators : Type := {
  check_execution_apply : nat -> outcome bool;
  create_csv_data : nat -> list string -> list row -> list string -> outcome string;
  upload_batch : nat -> string -> string -> string -> Z -> outcome Z;
  format_file_size : Z -> string;
  metadata_path : string;
  execution_apply_file : string
}.

(** [self.query_processor], once initialised. *)
Record Processor : Type := {
  app_config : option AppConfig;
  database : Database
}.

Definition exclude_columns_config : gmap string (list string) :=
  {[ "ResourceStatusHistory" := ["TxnDate"] ]}.

(** The counters of the loop. *)
Record counters : Type := {
  offset : Z;
  batch_number : Z;
  processed_rows : Z;
  query_total_size : Z
}.

Definition start : counters :=
  {| offset := 0; batch_number := 0; processed_rows := 0; query_total_size := 0 |}.

(** [f"{n:04d}"] *)
Definition format_04d (n : Z) : string :=
  let pad (w : nat) (s : string) :=
    Str.of_chars (repeat "0"%char (w - String.length s)) +:+ s in
  if (n <? 0)%Z then "-" +:+ pad 3%nat (pretty (- n)%Z) else pad 4%nat (pretty n).

(** The statements under [try] in one iteration: the counters as they
    stand when the block is left, and how it is left ([Ok true]: go on,
    [Ok false]: [break] on an empty batch). *)
Definition try_block (env : Collaborators) (qp : Processor) (data_path : string)
    (query_config : QueryConfig) (headers : list string) (last_run_time : string)
    (batch_size : Z) (timestamp_dir : string) (record_count : Z)
    (exclude_columns : list string)
    (i : nat) (st : counters) (batch_query : string) : counters * outcome bool :=
  match QueryProcessor.execute_batch (database qp) i batch_query last_run_time
          query_config with
  | Raise e => (st, Raise e)
  | Ok [] => (st, Ok false)
  | Ok (r :: rows') =>
      let rows := r :: rows' in
      let st1 := {| offset := offset st; batch_number := batch_number st + 1;
                    processed_rows := processed_rows st;
                    query_total_size := query_total_size st |} in
      match create_csv_data env i headers rows exclude_columns with
      | Raise e => (st1, Raise e)
      | Ok csv_data =>
          let batch_filename :=
            name query_config +:+ "_" +:+ format_04d (batch_number st1) +:+ ".csv" in
          let gcs_path := data_path +:+ "/" +:+ timestamp_dir +:+ "/" +:+ batch_filename in
          match upload_batch env i gcs_path csv_data (name query_config)
                  (batch_number st1) with
          | Raise e => (st1, Raise e)
          | Ok batch_size_bytes =>
              let st2 := {| offset := offset st1; batch_number := batch_number st1;
                            processed_rows := processed_rows st1 + Z.of_nat (List.length rows);
                            query_total_size := query_total_size st1 + batch_size_bytes |} in
              (* progress_pct = (processed_rows / record_count) * 100 *)
              if (record_count =? 0)%Z then (st2, Raise ZeroDivisionError)
              else
                ({| offset := offset st2 + batch_size; batch_number := batch_number st2;
                    processed_rows := processed_rows st2;
                    query_total_size := query_total_size st2 |}, Ok true)
          end
      end
  end.

(** The loop [while True]; [None] when the fuel runs out first. *)
Fixpoint batch_loop (fuel : nat) (env : Collaborators) (qp : Processor)
    (data_path : string) (query_config : QueryConfig) (headers : list string)
    (last_run_time : string) (batch_size : Z) (timestamp_dir : string)
    (record_count : Z) (exclude_columns : list string)
    (i : nat) (st : counters) : option (outcome counters) :=
  match fuel with
  | O => None
  | S fuel' =>
      match check_execution_apply env i with
      | Raise e => Some (Raise e)
      | Ok false =>
          Some (Raise (CsvGenerationException
                         ("Executable file not found : " +:+ metadata_path env
                          +:+ "/" +:+ execution_apply_file env)))
      | Ok true =>
          match QueryProcessor.create_batch_query (app_config qp) query_config
                  batch_size (offset st) headers with
          | Raise e => Some (Raise e)
          | Ok batch_query =>
              match try_block env qp data_path query_config headers last_run_time
                      batch_size timestamp_dir record_count exclude_columns
                      i st batch_query with
              | (st', Ok true) =>
                  batch_loop fuel' env qp data_path query_config headers last_run_time
                    batch_size timestamp_dir record_count exclude_columns (S i) st'
              | (st', Ok false) => Some (Ok st')
              | (_, Raise (CsvGenerationException m)) =>
                  Some (Raise (CsvGenerationException m))
              | (st', Raise _) => Some (Ok st')
              end
          end
      end
  end.

Section Iterations.

Variables (env : Collaborators) (qp : Processor) (data_path : string)
  (query_config : QueryConfig) (headers : list string) (last_run_time : string)
  (batch_size : Z) (timestamp_dir : string) (record_count : Z).

(** self.exclude_columns_config.get(query_name, []) *)
Definition excluded : list string :=
  default [] (exclude_columns_config !! name query_config).

(** [reaches i st]: the loop enters iteration [i] with the counters [st]. *)
Inductive reaches : nat -> counters -> Prop :=
| reaches_start : reaches 0 start
| reaches_next i st batch_query st' :
    reaches i st ->
    check_execution_apply env i = Ok true ->
    QueryProcessor.create_batch_query (app_config qp) query_config batch_size
      (offset st) headers = Ok batch_query ->
    try_block env qp data_path query_config headers last_run_time batch_size
      timestamp_dir record_count excluded i st batch_query = (st', Ok true) ->
    reaches (S i) st'.

End Iterations.

Definition result_of (env : Collaborators) (query_config : QueryConfig) (st : counters)
    : ProcessingResult :=
  {| query_name := name query_config;
     batch_count := batch_number st;
     row_count := processed_rows st;
     total_size_bytes := query_total_size st;
     total_size_formatted := format_file_size env (query_total_size st) |}.

Definition _process_batches (fuel : nat) (env : Collaborators)
    (query_processor : option Processor) (data_path : string)
    (query_config : QueryConfig) (headers : list string) (last_run_time : string)
    (batch_size : Z) (timestamp_dir : string) (record_count : Z)
    : option (outcome ProcessingResult) :=
  match query_processor with
  | None => Some (Raise (RuntimeError "Query processor not initialized"))
  | Some qp =>
      (* expected_batches = (record_count + batch_size - 1) // batch_size *)
      if (batch_size =? 0)%Z then Some (Raise ZeroDivisionError)
      else
        let exclude_columns := excluded query_config in
        match batch_loop fuel env qp data_path query_config headers last_run_time
                batch_size timestamp_dir record_count exclude_columns 0 start with
        | None => None
        | Some (Raise e) => Some (Raise e)
        | Some (Ok st) => Some (Ok (result_of env query_config st))
        end
  end.

(** The end of [process_all_queries]: the next watermark.  [now] is
    datetime.now(JST) as read before the history table is queried. *)
Definition update_run_time (fromisoformat : string -> outcome Datetime.datetime)
    (qp : Processor) (t : nat) (now : Datetime.datetime) : outcome Datetime.datetime :=
  let current_run_time := Datetime.replace_microsecond_0 now in
  let! max_system_date :=
    QueryProcessor.get_max_system_date fromisoformat (database qp) t "main_db" in
  match max_system_date with
  | Some (CDatetime d) =>
      match Datetime.tzinfo d with
      | None => Ok (Datetime.replace_tzinfo d Datetime.JST)
      | Some off => Datetime.astimezone d off Datetime.JST
      end
  | Some _ => Raise (OtherError "AttributeError")
  | None => Ok current_run_time
  end.

End DataProcessor.

(** ** Reading the row window

    The row numbers that WHERE rn > offset AND rn <= offset + batch_size
    lets through. *)

Definition in_window (offset batch_size rn : Z) : Prop :=
  (offset < rn /\ rn <= offset + batch_size)%Z.

(** ** Sample inputs *)

Module Sample.
Import Db DataProcessor QueryProcessor.

Definition orders : QueryConfig :=
  {| name := "Orders"; description := "orders changed since the last run";
     sql := "SELECT a, b FROM T WHERE ts > :last_run_time";
     timestamp_column := Some "ts"; primary_key := "a"; target_table := "T";
     is_incremental := true; order_by_column := "a"; database_name := "main_db" |}.

Definition full_load : QueryConfig :=
  {| name := "Items"; description := "all items";
     sql := "SELECT a FROM T WHERE a > 1";
     timestamp_column := None; primary_key := "a"; target_table := "T";
     is_incremental := false; order_by_column := "a"; database_name := "main_db" |}.

Definition numbered_orders : QueryConfig :=
  {| name := "Orders"; description := ""; sql := "SELECT id, rn FROM Orders";
     timestamp_column := None; primary_key := "id"; target_table := "Orders";
     is_incremental := false; order_by_column := "id"; database_name := "main_db" |}.

Definition two_ctes : string :=
  "WITH X AS (SELECT 1), Y AS (SELECT 2) SELECT * FROM Y".

Definition enabled_range : gmap string pyval :=
  {[ "enabled" := PBool true;
     "start_date" := PStr "2024-01-01 00:00:00";
     "end_date" := PStr "2024-02-01 00:00:00" ]}.

Definition join_query : string :=
  "SELECT a FROM T JOIN U ON U.ts > :last_run_time".

(** A cursor over one row. *)
Definition one_row : Cursor :=
  {| fetchone := Ok (Some [CInt 7]); fetchall := Ok [[CInt 7]];
     scalar := Ok (Some (CInt 7)); close := Ok tt |}.

(** A connection that answers the first statement and fails afterwards. *)
Definition probe_only : Connection :=
  {| execute := fun k _ _ =>
       match k with
       | O => Ok one_row
       | _ => Raise (OtherError "statement failed")
       end;
     release := Ok tt |}.

Definition probe_only_db : Database := fun _ _ => Ok probe_only.

Definition unreachable_db : Database := fun _ _ => Raise (OtherError "connection refused").

Definition two_rows : Cursor :=
  {| fetchone := Ok (Some [CInt 1]); fetchall := Ok [[CInt 1]; [CInt 2]];
     scalar := Ok (Some (CInt 1)); close := Ok tt |}.

(** A database that serves the first batch and is gone for the second. *)
Definition lost_after_first : Database :=
  fun t _ =>
    match t with
    | O => Ok {| execute := fun _ _ _ => Ok two_rows; release := Ok tt |}
    | _ => Raise (OtherError "connection lost")
    end.

Definition sink : Collaborators :=
  {| check_execution_apply := fun _ => Ok true;
     create_csv_data := fun _ _ _ _ => Ok "a,b";
     upload_batch := fun _ _ _ _ _ => Ok 10%Z;
     format_file_size := fun n => pretty n +:+ " B";
     metadata_path := "metadata";
     execution_apply_file := "execution_apply" |}.

Definition lossy : Processor := {| app_config := None; database := lost_after_first |}.

Definition after_first_batch : counters :=
  {| offset := 2; batch_number := 1; processed_rows := 2; query_total_size := 10 |}.

(** 2024-01-01T00:00:00 on the wall clock, and the same reading in UTC. *)
Definition new_year : Datetime.datetime :=
  {| Datetime.wall := 63839664000000000; Datetime.tzinfo := None |}.
Definition new_year_utc : Datetime.datetime :=
  {| Datetime.wall := 63839664000000000; Datetime.tzinfo := Some 0%Z |}.
Definition a_moment : Datetime.datetime :=
  {| Datetime.wall := 63839664000123456; Datetime.tzinfo := Some Datetime.JST |}.

Definition history (d : Datetime.datetime) : Processor :=
  {| app_config := None;
     database := fun _ _ =>
       Ok {| execute := fun _ _ _ =>
               Ok {| fetchone := Ok None; fetchall := Ok [];
                     scalar := Ok (Some (CDatetime d)); close := Ok tt |};
             release := Ok tt |} |}.

Definition down : Processor := {| app_config := None; database := unreachable_db |}.

Definition no_iso (_ : string) : outcome Datetime.datetime :=
  Raise (OtherError "ValueError").

End Sample.

(** ** Patterns without capture groups *)

Module Shape.
Import Re.

Fixpoint groupless (r : regex) : bool :=
  match r with
  | Grp _ _ => false
  | Cat r1 r2 => groupless r1 && groupless r2
  | Star _ r' | Plus _ r' => groupless r'
  | _ => true
  end.

End Shape.

(** ** The query processor: counts and headers *)

Module Counts.
Import Db QueryProcessor.

(** [get_record_count]: the handler logs and raises again. *)
Definition get_record_count (app_config : option AppConfig) (db : Database) (t : nat)
    (query_config : QueryConfig) (last_run_time : string) : outcome Z :=
  try_except
    (let! connection := db t (database_name query_config) in
     with_connection connection
       (let! count_sql := count_sql_of app_config query_config in
        let! result := execute connection 0 count_sql
                         (bound_params query_config last_run_time) in
        let! record_count := scalar result in
        let! _ := close result in
        match record_count with
        | Some v => py_int v
        | None => Ok 0%Z
        end))
    (fun e => Raise e).

Definition _retry_record_count (app_config : option AppConfig) (db : Database) (t : nat)
    (query_config : QueryConfig) (last_run_time : string) : outcome Z :=
  try_except
    (let! connection := db t (database_name query_config) in
     with_connection connection
       (let params := bound_params query_config last_run_time in
        let! test_sql := header_sql_of app_config query_config in
        let! test_result := execute connection 0 test_sql params in
        let! first := fetchone test_result in
        let! _ := close test_result in
        match first with
        | Some _ =>
            let! count_sql := count_sql_of app_config query_config in
            let! result := execute connection 1 count_sql params in
            let! record_count := scalar result in
            let! _ := close result in
            match record_count with
            | Some v => py_int v
            | None => Ok 0%Z
            end
        | None => Ok 0%Z
        end))
    (fun _ => Ok 0%Z).

(** [get_headers]; [keys] is the method keys() of a result, which names
    the columns of the statement. *)
Definition get_headers (keys : Cursor -> outcome (list string))
    (app_config : option AppConfig) (db : Database) (t : nat)
    (query_config : QueryConfig) (last_run_time : string) : outcome (list string) :=
  try_except
    (let! connection := db t (database_name query_config) in
     with_connection connection
       (let! header_sql := header_sql_of app_config query_config in
        let! header_result := execute connection 0 header_sql
                                (bound_params query_config last_run_time) in
        let! headers := keys header_result in
        let! _ := close header_result in
        Ok headers))
    (fun e => Raise e).

End Counts.

(** ** The batches of one query, iteration by iteration *)

Module Batches.
Import Db QueryProcessor DataProcessor.

Section Served.

Variables (env : Collaborators) (qp : Processor) (data_path : string)
  (query_config : QueryConfig) (headers : list string) (last_run_time : string)
  (batch_size : Z) (timestamp_dir : string).

(** What the statement of iteration [j] brings: the window starts at
    [j * batch_size]. *)
Definition batch_at (j : nat) : outcome (list row) :=
  let! batch_query :=
    create_batch_query (app_config qp) query_config batch_size
      (Z.of_nat j * batch_size) headers in
  execute_batch (database qp) j batch_query last_run_time query_config.

(** The object that receives batch number [n]. *)
Definition file_of (n : Z) : string :=
  data_path +:+ "/" +:+ timestamp_dir +:+ "/" +:+ name query_config +:+ "_"
  +:+ format_04d n +:+ ".csv".

(** The upload of iteration [j]: the rows go to file number [j + 1]. *)
Definition upload_at (j : nat) (rows : list row) : outcome Z :=
  let! csv_data := create_csv_data env j headers rows (excluded query_config) in
  upload_batch env j (file_of (Z.of_nat j + 1)) csv_data (name query_config)
    (Z.of_nat j + 1).

(** Iteration [j] completes a batch. *)
Definition completes (j : nat) : Prop :=
  check_execution_apply env j = Ok true
  /\ exists r rows n, batch_at j = Ok (r :: rows) /\ upload_at j (r :: rows) = Ok n.

Definition rows_of (j : nat) : list row :=
  match batch_at j with Ok rows => rows | Raise _ => [] end.

Definition bytes_of (j : nat) : Z :=
  match upload_at j (rows_of j) with Ok n => n | Raise _ => 0%Z end.

(** The sum of [f 0 .. f (k - 1)]. *)
Fixpoint total (f : nat -> Z) (k : nat) : Z :=
  match k with
  | O => 0%Z
  | S k' => (total f k' + f k')%Z
  end.

(** The counters after [k] completed batches. *)
Definition after (k : nat) : counters :=
  {| offset := Z.of_nat k * batch_size; batch_number := Z.of_nat k;
     processed_rows := total (fun j => Z.of_nat (List.length (rows_of j))) k;
     query_total_size := total bytes_of k |}.

End Served.

End Batches.

(** ** The configuration manager

    The local YAML file and the configuration kept in the bucket are
    dictionaries; they are given with the sections that the class reads. *)

Module ConfigManager.
Import QueryProcessor.

Inductive value : Type :=
| VNone
| VBool (b : bool)
| VInt (z : Z)
| VStr (s : string).

#[global] Instance value_eq_dec : EqDecision value.
Proof. solve_decision. Defined.

(** [self._raw_config]: STORAGE, and DATABASES in the order of the file. *)
Record RawConfig : Type := {
  STORAGE : option (gmap string value);
  DATABASES : option (list (string * gmap string value))
}.

(** The SETTINGS dictionary, with the keys that the run reads. *)
Record Settings : Type := {
  batch_size : option Z;
  enable_table_filtering : option bool;
  target_tables : option (list string)
}.

Definition no_settings : Settings :=
  {| batch_size := None; enable_table_filtering := None; target_tables := None |}.

(** What [load_config_from_gcs] returns. *)
Record GcsConfig : Type := {
  SETTINGS : option Settings;
  SYSTEMDATE : option (gmap string pyval);
  QUERIES : option (list (gmap string value))
}.

(** The manager: [load_config_from_gcs] of its GCS manager, if it has
    one, answers the call number [loads]; [_gcs_config] is the cache. *)
Record Manager : Type := {
  gcs_manager : option (nat -> outcome GcsConfig);
  _raw_config : RawConfig;
  _gcs_config : option GcsConfig;
  loads : nat
}.

Definition ConfigError : exn := OtherError "ConfigError".

(** [except ConfigError] *)
Definition is_ConfigError (e : exn) : bool :=
  match e with
  | OtherError c => String.eqb c "ConfigError"
  | _ => false
  end.

Definition _load_gcs_config (self : Manager) : Manager * outcome GcsConfig :=
  match gcs_manager self with
  | None => (self, Raise ConfigError)
  | Some load_config_from_gcs =>
      match _gcs_config self with
      | Some cached => (self, Ok cached)
      | None =>
          let self' (c : option GcsConfig) :=
            {| gcs_manager := gcs_manager self; _raw_config := _raw_config self;
               _gcs_config := c; loads := S (loads self) |} in
          match load_config_from_gcs (loads self) with
          | Ok c => (self' (Some c), Ok c)
          | Raise _ => (self' None, Raise ConfigError)
          end
      end
  end.

(** [d.get(k)] *)
Definition get (d : gmap string value) (k : string) : value :=
  default VNone (d !! k).

Definition get_gcs_config (self : Manager) : gmap string value :=
  let storage_config := default ∅ (STORAGE (_raw_config self)) in
  let result : gmap string value :=
    <["bucket_name" := get storage_config "TARGET_BUCKET"]>
    (<["metadata_path" := get storage_config "METADATA_PATH"]>
    (<["metadata_name" := get storage_config "METADATA_NAME"]>
    (<["data_path" := get storage_config "DATA_PATH"]>
    (<["config_path" := get storage_config "CONFIG_PATH"]>
    (<["config_name" := get storage_config "CONFIG_NAME"]> ∅))))) in
  filter (fun kv => kv.2 <> VNone) result.

(** [databases_config[database_name]] *)
Fixpoint item {A} (d : list (string * A)) (k : string) : option A :=
  match d with
  | [] => None
  | (k', v) :: d' => if String.eqb k' k then Some v else item d' k
  end.

Definition get_database_config (self : Manager) (database_name : string)
    : outcome (gmap string value) :=
  let databases_config := default [] (DATABASES (_raw_config self)) in
  match item databases_config database_name with
  | None => Raise (OtherError "ValueError")
  | Some db_config =>
      Ok (<["db_user" := get db_config "USER"]>
         (<["db_pass" := get db_config "PASSWORD"]>
         (<["db_name" := get db_config "NAME"]>
         (<["db_host" := get db_config "HOST"]>
         (<["db_port" := get db_config "PORT"]>
         (<["db_type" := default (VStr "mssql") (db_config !! "TYPE")]> ∅))))))
  end.

Definition get_all_database_names (self : Manager) : list string :=
  List.map fst (default [] (DATABASES (_raw_config self))).

Definition get_settings_config (self : Manager) : Manager * outcome Settings :=
  match _load_gcs_config self with
  | (self', Ok gcs_config) => (self', Ok (default no_settings (SETTINGS gcs_config)))
  | (self', Raise e) => (self', if is_ConfigError e then Ok no_settings else Raise e)
  end.

Definition get_systemdate_config (self : Manager)
    : Manager * outcome (gmap string pyval) :=
  match _load_gcs_config self with
  | (self', Ok gcs_config) =>
      let systemdate_config := default ∅ (SYSTEMDATE gcs_config) in
      if negb (truth (systemdate_config !! "enabled")) then (self', Ok ∅)
      else (self', Ok systemdate_config)
  | (self', Raise e) => (self', if is_ConfigError e then Ok ∅ else Raise e)
  end.

(** [[QueryConfig( **query ) for query in queries_data]]: the first
    constructor call that raises ends the comprehension. *)
Fixpoint construct (new_query : gmap string value -> outcome QueryConfig)
    (queries_data : list (gmap string value)) : outcome (list QueryConfig) :=
  match queries_data with
  | [] => Ok []
  | query :: rest =>
      let! q := new_query query in
      let! qs := construct new_query rest in
      Ok (q :: qs)
  end.

(** [new_query] is the constructor of [core.models.QueryConfig] applied
    to the keywords of one entry. *)
Definition get_queries_config (new_query : gmap string value -> outcome QueryConfig)
    (self : Manager) : Manager * outcome (list QueryConfig) :=
  match _load_gcs_config self with
  | (self', Ok gcs_config) =>
      (self', construct new_query (default [] (QUERIES gcs_config)))
  | (self', Raise e) => (self', if is_ConfigError e then Ok [] else Raise e)
  end.

End ConfigManager.

(** ** The data processor: one query, and the run over all queries *)

Module Run.
Import Db QueryProcessor DataProcessor ConfigManager Counts.

Definition ConfigurationError : exn := OtherError "ConfigurationError".

Definition load_queries_config (new_query : gmap string value -> outcome QueryConfig)
    (config_manager : option Manager)
    : option Manager * outcome (list QueryConfig * Settings) :=
  match config_manager with
  | None => (None, Raise ConfigurationError)
  | Some cm =>
      match get_queries_config new_query cm with
      | (cm1, Raise _) => (Some cm1, Raise ConfigurationError)
      | (cm1, Ok queries) =>
          match get_settings_config cm1 with
          | (cm2, Raise _) => (Some cm2, Raise ConfigurationError)
          | (cm2, Ok settings) => (Some cm2, Ok (queries, settings))
          end
      end
  end.

(** The object that [process_query_with_systemdate_range] returns for a
    query definition [q]. *)
Definition ranged (default_database_name : option string) (q : QueryConfig)
    (systemdate_config : gmap string pyval) (last_run_time : option string)
    (now_text : string) : QueryConfig :=
  let '(h, r) :=
    process_query_with_systemdate_range default_database_name {[ 1%positive := q ]}
      1%positive systemdate_config last_run_time now_text in
  default q (h !! r).

(** The processor at the later calls of one query: the count is call 0,
    the headers are call 1, the batches follow. *)
Definition later (n : nat) (qp : Processor) : Processor :=
  {| app_config := app_config qp; database := fun i => database qp (n + i)%nat |}.

Definition process_query (fuel : nat) (keys : Cursor -> outcome (list string))
    (env : Collaborators) (query_processor : option Processor)
    (config_manager : option Manager) (default_database_name : option string)
    (now_text data_path : string) (query_config : QueryConfig)
    (last_run_time : string) (batch_size : Z) (timestamp : string)
    : option (option Manager * outcome (option ProcessingResult)) :=
  match query_processor with
  | None => Some (config_manager, Raise (RuntimeError "Query processor not initialized"))
  | Some qp =>
      let query_name := name query_config in
      match config_manager with
      | None => Some (None, Raise (OtherError "AttributeError"))
      | Some cm =>
          match get_systemdate_config cm with
          | (cm1, Raise e) => Some (Some cm1, Raise e)
          | (cm1, Ok systemdate_config) =>
              let query_config :=
                if bool_decide (systemdate_config = ∅) then query_config
                else ranged default_database_name query_config systemdate_config
                       (Some last_run_time) now_text in
              match get_record_count (app_config qp) (database qp) 0 query_config
                      last_run_time with
              | Raise e => Some (Some cm1, Raise e)
              | Ok record_count =>
                  if (record_count =? 0)%Z then
                    Some (Some cm1,
                          Ok (Some {| query_name := query_name; batch_count := 0;
                                      row_count := 0; total_size_bytes := 0;
                                      total_size_formatted := format_file_size env 0 |}))
                  else
                    match get_headers keys (app_config qp) (database qp) 1 query_config
                            last_run_time with
                    | Raise e => Some (Some cm1, Raise e)
                    | Ok [] => Some (Some cm1, Ok None)
                    | Ok headers =>
                        match _process_batches fuel env (Some (later 2 qp)) data_path
                                query_config headers last_run_time batch_size timestamp
                                record_count with
                        | None => None
                        | Some (Raise e) => Some (Some cm1, Raise e)
                        | Some (Ok result) => Some (Some cm1, Ok (Some result))
                        end
                    end
              end
          end
      end
  end.

(** [queries_to_process] *)
Definition queries_to_process (settings : Settings) (queries : list QueryConfig)
    : list QueryConfig :=
  let enable_table_filtering := default false (enable_table_filtering settings) in
  let target_tables := default [] (target_tables settings) in
  if enable_table_filtering && negb (bool_decide (target_tables = [])) then
    List.filter (fun q => bool_decide (target_table q ∈ target_tables)) queries
  else queries.

(** What the run has done so far: the names and results collected, and
    the directories asked of [create_directory_structure]. *)
Record progress : Type := {
  uploaded_queries : list string;
  processing_results : list ProcessingResult;
  directories : list (string * string)
}.

(** The loop over the queries.  The query number [j] sees the
    collaborators [envs j] and the database [dbs j]. *)
Fixpoint query_loop (fuel : nat) (keys : Cursor -> outcome (list string))
    (envs : nat -> Collaborators) (app_config : option AppConfig) (dbs : nat -> Database)
    (default_database_name : option string) (now_texts : nat -> string)
    (data_path last_run_time : string) (batch_size : Z) (timestamp_dir : string)
    (j : nat) (queries : list QueryConfig) (config_manager : option Manager)
    (done : progress) : option (option Manager * outcome progress) :=
  match queries with
  | [] => Some (config_manager, Ok done)
  | query_config :: rest =>
      match process_query fuel keys (envs j)
              (Some {| app_config := app_config; database := dbs j |})
              config_manager default_database_name (now_texts j) data_path query_config
              last_run_time batch_size timestamp_dir with
      | None => None
      | Some (cm, Raise e) => Some (cm, Raise e)
      | Some (cm, Ok None) =>
          query_loop fuel keys envs app_config dbs default_database_name now_texts
            data_path last_run_time batch_size timestamp_dir (S j) rest cm done
      | Some (cm, Ok (Some result)) =>
          let done' :=
            {| uploaded_queries := uploaded_queries done ++ [name query_config];
               processing_results := processing_results done ++ [result];
               directories :=
                 if (row_count result =? 0)%Z
                 then directories done
                      ++ [(data_path +:+ "/" +:+ timestamp_dir, name query_config)]
                 else directories done |} in
          query_loop fuel keys envs app_config dbs default_database_name now_texts
            data_path last_run_time batch_size timestamp_dir (S j) rest cm done'
      end
  end.

(** What the collected lists keep true: one name per result, and one
    directory per result without rows. *)
Definition consistent (path : string) (done : progress) : Prop :=
  uploaded_queries done = List.map query_name (processing_results done)
  /\ directories done
     = List.map (fun r => (path, query_name r))
         (List.filter (fun r => (row_count r =? 0)%Z) (processing_results done)).

Definition nothing_done : progress :=
  {| uploaded_queries := []; processing_results := []; directories := [] |}.

(** [process_all_queries].  [initialize] and [set_query_processor] are
    the calls on the GCS manager; [history] is the database asked for
    the watermark, [now] the clock read before that, [timestamp_dir]
    the directory named after the clock at the start.  The test of the
    type of [last_run_time] passes for a string, and the dictionary of
    [load_queries_config] has its two keys, so neither raises here.  The
    two lists of the result come with the directories that were asked
    for on the way. *)
Definition process_all_queries (fuel : nat) (keys : Cursor -> outcome (list string))
    (initialize set_query_processor : outcome unit)
    (envs : nat -> Collaborators) (app_config : option AppConfig) (dbs : nat -> Database)
    (history : Database) (fromisoformat : string -> outcome Datetime.datetime)
    (new_query : gmap string value -> outcome QueryConfig)
    (default_database_name : option string) (now_texts : nat -> string)
    (data_path timestamp_dir : string) (now : Datetime.datetime) (config_manager : option Manager)
    (force_full_load : bool) (lookback_minutes : Z) (last_run_time : string)
    : option (outcome (progress * Datetime.datetime)) :=
  match initialize with
  | Raise e => Some (Raise e)
  | Ok _ =>
      match load_queries_config new_query config_manager with
      | (_, Raise e) => Some (Raise e)
      | (cm, Ok (queries, settings)) =>
          match set_query_processor with
          | Raise e => Some (Raise e)
          | Ok _ =>
              match batch_size settings with
              | None => Some (Raise (OtherError "KeyError"))
              | Some batch_size =>
                  match query_loop fuel keys envs app_config dbs default_database_name
                          now_texts data_path last_run_time batch_size timestamp_dir
                          0 (queries_to_process settings queries) cm nothing_done with
                  | None => None
                  | Some (_, Raise e) => Some (Raise e)
                  | Some (_, Ok done) =>
                      match update_run_time fromisoformat
                              {| app_config := app_config; database := history |} 0 now with
                      | Raise e => Some (Raise e)
                      | Ok t => Some (Ok (done, t))
                      end
                  end
              end
          end
      end
  end.

End Run.

(** ** Further sample inputs *)

Module Cases.
Import Db DataProcessor QueryProcessor ConfigManager Run.

Definition no_rows : Cursor :=
  {| fetchone := Ok None; fetchall := Ok []; scalar := Ok None; close := Ok tt |}.

(** A database with two rows in all: the first call finds them, the
    later calls find nothing. *)
Definition one_batch_db : Database :=
  fun t _ =>
    Ok {| execute := fun _ _ _ =>
            Ok (match t with O => Sample.two_rows | _ => no_rows end);
          release := Ok tt |}.

Definition one_batch : Processor := {| app_config := None; database := one_batch_db |}.

(** A database for one query with two rows: the count and the probe
    are the first two calls, the third call fetches the rows, and the
    later calls find nothing. *)
Definition three_calls_db : Database :=
  fun t _ =>
    Ok {| execute := fun _ _ _ =>
            Ok (match t with
                | O | 1%nat | 2%nat => Sample.two_rows
                | _ => no_rows
                end);
          release := Ok tt |}.

Definition three_calls : Processor :=
  {| app_config := None; database := three_calls_db |}.

(** A database that has two more rows at every call. *)
Definition endless_db : Database :=
  fun _ _ => Ok {| execute := fun _ _ _ => Ok Sample.two_rows; release := Ok tt |}.

Definition endless : Processor := {| app_config := None; database := endless_db |}.

(** A database whose every statement answers with one row and the
    scalar 7. *)
Definition counting_db : Database :=
  fun _ _ => Ok {| execute := fun _ _ _ => Ok Sample.one_row; release := Ok tt |}.

(** A database without rows. *)
Definition empty_db : Database :=
  fun _ _ => Ok {| execute := fun _ _ _ => Ok no_rows; release := Ok tt |}.

Definition no_data : Processor := {| app_config := None; database := empty_db |}.

(** The same database under the name main_db only, and under every name. *)
Definition main_only : Processor :=
  {| app_config := None;
     database := fun t n =>
       if String.eqb n "main_db" then empty_db t n
       else Raise (OtherError "unknown database") |}.

Definition column_names (_ : Cursor) : outcome (list string) := Ok ["a"].

Definition two_settings : Settings :=
  {| batch_size := Some 2%Z; enable_table_filtering := Some true;
     target_tables := Some ["T"] |}.

Definition stored (range : option (gmap string pyval)) : GcsConfig :=
  {| SETTINGS := Some two_settings; SYSTEMDATE := range; QUERIES := Some [∅] |}.

Definition local_file : RawConfig :=
  {| STORAGE := Some {[ "TARGET_BUCKET" := VStr "bucket"; "DATA_PATH" := VNone ]};
     DATABASES := Some [("main_db", {[ "HOST" := VStr "db.example" ]})] |}.

(** A manager whose bucket answers every call. *)
Definition manager (range : option (gmap string pyval)) : Manager :=
  {| gcs_manager := Some (fun _ => Ok (stored range)); _raw_config := local_file;
     _gcs_config := None; loads := 0 |}.

(** A bucket that cannot be read at the first call. *)
Definition flaky (n : nat) : outcome GcsConfig :=
  match n with
  | O => Raise (OtherError "ServiceUnavailable")
  | S _ => Ok (stored None)
  end.

(** Every entry of QUERIES describes the query of all items. *)
Definition items (_ : gmap string value) : outcome QueryConfig := Ok Sample.full_load.

(** A run over an empty database, and a run over one that cannot be
    reached. *)
Definition run_over (dbs : nat -> Database) (config_manager : Manager)
    : option (outcome (progress * Datetime.datetime)) :=
  process_all_queries 3 column_names (Ok tt) (Ok tt) (fun _ => Sample.sink) None dbs
    (database (Sample.history Sample.new_year)) Sample.no_iso items (Some "main_db")
    (fun _ => "2024-03-01 00:00:00") "data" "20240301/000000" Sample.a_moment
    (Some config_manager) false 0 "2024-01-01 00:00:00".

Definition single_cte : string := "WITH X AS (SELECT 1) SELECT * FROM X".

End Cases.

(** * Supporting facts

    Strings and occurrences, replacement templates, the synthesis of the
    batch statement, the fallback count, the watermark query, the batch
    loop, and the substitution at WHERE. *)

Module StrFacts.

Lemma app_assoc (a b c : string) : (a +:+ b) +:+ c = a +:+ b +:+ c.
Proof.
  induction a as [|x a IH]; [reflexivity|].
  change (String x ((a +:+ b) +:+ c) = String x (a +:+ b +:+ c)). now rewrite IH.
Qed.

Lemma app_nil_r (a : string) : a +:+ "" = a.
Proof.
  induction a as [|x a IH]; [reflexivity|].
  change (String x (a +:+ "") = String x a). now rewrite IH.
Qed.

Lemma occurs_here (sub post : string) : Str.occurs sub (sub +:+ post).
Proof. exists "", post. reflexivity. Qed.

Lemma occurs_skip (a sub t : string) : Str.occurs sub t -> Str.occurs sub (a +:+ t).
Proof.
  intros (pre & post & ->). exists (a +:+ pre), post. now rewrite app_assoc.
Qed.

Lemma occurs_mid (pre sub post : string) : Str.occurs sub (pre +:+ sub +:+ post).
Proof. apply occurs_skip, occurs_here. Qed.

Ltac occ := first [apply occurs_here | apply occurs_skip; occ].

End StrFacts.

Import QueryProcessor.

Lemma numbered_batch_window cols oc body off bs :
  Str.occurs (row_window off bs) (numbered_batch cols oc body off bs).
Proof.
  unfold numbered_batch.
  StrFacts.occ.
Qed.

Lemma numbered_batch_body cols oc body off bs :
  Str.occurs ("(" +:+ body +:+ ")") (numbered_batch cols oc body off bs).
Proof.
  unfold numbered_batch.
  exists (Str.nl +:+ indent 16 +:+ "SELECT " +:+ cols +:+ " FROM (" +:+ Str.nl
    +:+ indent 20 +:+ "SELECT *, ROW_NUMBER() OVER (ORDER BY " +:+ oc
    +:+ " ASC) as rn " +:+ Str.nl +:+ indent 20 +:+ "FROM "),
   (" as subquery" +:+ Str.nl
    +:+ indent 16 +:+ ") as numbered " +:+ Str.nl
    +:+ indent 16 +:+ row_window off bs +:+ Str.nl
    +:+ indent 16).
  rewrite !StrFacts.app_assoc. reflexivity.
Qed.

Module TemplateFacts.
Import Re.

Lemma parse_nil n g : parse_template n g [] = Some [].
Proof. destruct n; reflexivity. Qed.

Lemma parse_fuel_mono n : forall g t r m,
  parse_template n g t = Some r -> (n <= m)%nat -> parse_template m g t = Some r.
Proof.
  induction n as [|n IH]; intros g t r m H Hm.
  - destruct t; [|discriminate]. injection H as <-. apply parse_nil.
  - destruct m as [|m]; [lia|]. assert (Hnm : (n <= m)%nat) by lia.
    revert H. cbn [parse_template].
    repeat match goal with
      | |- context [match ?x with _ => _ end] =>
          match x with
          | parse_template _ _ _ => fail 1
          | _ => destruct x
          end
      end; try discriminate; try (intros H; exact H);
    unfold option_map;
    match goal with
    | |- context [parse_template n ?g ?t] =>
        destruct (parse_template n g t) eqn:E; [|discriminate];
        rewrite (IH _ _ _ _ E Hnm); intros H; exact H
    end.
Qed.

Lemma parse_plain l : forall n g rest,
  plain l = true ->
  parse_template (List.length l + n) g (l ++ rest)%list
  = option_map (app (List.map TLit l)) (parse_template n g rest).
Proof.
  induction l as [|c l IH]; intros n g rest Hl.
  - simpl. destruct (parse_template n g rest); reflexivity.
  - simpl in Hl. apply andb_true_iff in Hl as [Hc Hl].
    change (List.length (c :: l) + n)%nat with (S (List.length l + n)).
    change ((c :: l) ++ rest)%list with (c :: (l ++ rest))%list.
    cbn [parse_template]. rewrite Hc, (IH _ _ _ Hl).
    destruct (parse_template n g rest); reflexivity.
Qed.

Lemma chars_app (a b : string) : Str.chars (a +:+ b) = (Str.chars a ++ Str.chars b)%list.
Proof.
  induction a as [|x a IH]; [reflexivity|].
  change (x :: Str.chars (a +:+ b) = x :: (Str.chars a ++ Str.chars b)%list).
  now rewrite IH.
Qed.

Lemma length_chars (a : string) : List.length (Str.chars a) = String.length a.
Proof. induction a as [|x a IH]; [reflexivity|]. simpl. now rewrite IH. Qed.

Lemma length_app (a b : string) :
  String.length (a +:+ b) = (String.length a + String.length b)%nat.
Proof.
  induction a as [|x a IH]; [reflexivity|].
  change (S (String.length (a +:+ b)) = S (String.length a + String.length b)).
  now rewrite IH.
Qed.

Lemma parse_group1 n g b0 rest :
  (1 <= g)%nat -> Str.is_digit b0 = false ->
  parse_template (S n) g (Str.backslash :: "1"%char :: b0 :: rest)
  = option_map (cons (TGroup 1)) (parse_template n g (b0 :: rest)).
Proof.
  intros Hg Hd. cbn [parse_template].
  change (negb (Str.backslash =? Str.backslash)%char) with false.
  change ("1" =? "g")%char with false. change ("1" =? "0")%char with false.
  change (Str.is_digit "1") with true. cbv iota. rewrite Hd.
  change (digit_val "1") with 1%nat.
  destruct g as [|g]; [lia|]. reflexivity.
Qed.

(** A template made of plain text around one reference to group 1. *)
Lemma parse_around_group1 (a b : string) (b0 : ascii) g :
  plain (Str.chars a) = true -> plain (Str.chars (String b0 b)) = true ->
  Str.is_digit b0 = false -> (1 <= g)%nat ->
  parse_template (String.length (a +:+ "\1" +:+ String b0 b)) g
    (Str.chars (a +:+ "\1" +:+ String b0 b))
  = Some (List.map TLit (Str.chars a) ++ TGroup 1 :: List.map TLit (Str.chars (String b0 b)))%list.
Proof.
  intros Ha Hb Hd Hg.
  apply parse_fuel_mono
    with (n := (List.length (Str.chars a)
                + S (List.length (Str.chars (String b0 b)) + 0))%nat).
  - rewrite chars_app, (parse_plain _ _ _ _ Ha).
    change (Str.chars ("\1" +:+ String b0 b))
      with (Str.backslash :: "1"%char :: b0 :: Str.chars b).
    rewrite (parse_group1 _ _ _ _ Hg Hd).
    replace (b0 :: Str.chars b) with (Str.chars (String b0 b) ++ [])%list
      by apply List.app_nil_r.
    rewrite (parse_plain _ _ _ _ Hb), parse_nil. simpl.
    now rewrite List.app_nil_r.
  - rewrite !length_app, !length_chars. simpl. lia.
Qed.

End TemplateFacts.

Module SynthesisFacts.
Import Re StrFacts TemplateFacts QueryProcessor.

Lemma plain_app (a b : string) :
  plain (Str.chars (a +:+ b)) = plain (Str.chars a) && plain (Str.chars b).
Proof. unfold plain. now rewrite chars_app, forallb_app. Qed.

Lemma no_backslash_plain (s : string) :
  Str.contains "\" s = false -> plain (Str.chars s) = true.
Proof.
  unfold Str.contains, plain.
  induction s as [|c s IH]; [reflexivity|].
  change (Str.chars (String c s)) with (c :: Str.chars s).
  change (Str.chars "\") with [Str.backslash].
  cbn [Str.find Str.prefix_of forallb].
  rewrite Ascii.eqb_sym.
  destruct (Ascii.eqb c Str.backslash); [discriminate|].
  intros H. apply IH. change (Str.chars "\") with [Str.backslash].
  destruct (Str.find [Str.backslash] (Str.chars s)); [discriminate | reflexivity].
Qed.

Lemma sub_total fl r g repl subject items :
  Re.parse_template (String.length repl) g (Str.chars repl) = Some items ->
  exists s, Re.sub fl r g repl subject = Some s.
Proof. intros H. unfold Re.sub. rewrite H. eauto. Qed.

Lemma with_batch_window sql dt cols oc off bs s :
  _create_with_batch_query sql dt cols oc off bs = Ok s ->
  Str.occurs (row_window off bs) s.
Proof.
  unfold _create_with_batch_query.
  destruct (has_with (_analyze_with_structure sql)); cbn [negb].
  - destruct (Re.search Pat.IS Pat.hoist_pattern sql).
    + intros [= <-]. occ.
    + unfold re_sub. destruct (Re.sub _ _ _ _ _); cbn; [|discriminate].
      intros [= <-]. occ.
  - destruct (is_mysql dt); intros [= <-]; apply numbered_batch_window.
Qed.

Lemma batch_query_window cfg qc bs off headers s :
  create_batch_query cfg qc bs off headers = Ok s ->
  Str.occurs (row_window off bs) s.
Proof.
  unfold create_batch_query.
  destruct (has_with (_analyze_with_structure (sql qc))).
  - apply with_batch_window.
  - destruct (is_mysql _); intros [= <-]; apply numbered_batch_window.
Qed.

Lemma with_batch_total sql dt cols oc off bs :
  Str.contains "\" oc = false ->
  exists s, _create_with_batch_query sql dt cols oc off bs = Ok s.
Proof.
  intros Hoc. unfold _create_with_batch_query.
  destruct (has_with (_analyze_with_structure sql)); cbn [negb].
  - destruct (Re.search Pat.IS Pat.hoist_pattern sql); [eauto|].
    unfold re_sub.
    destruct (sub_total Pat.IS Pat.select_from_pattern 1
                ("SELECT \1, ROW_NUMBER() OVER (ORDER BY " +:+ oc +:+ " ASC) as rn FROM ")
                sql
                (List.map Re.TLit (Str.chars "SELECT ")
                 ++ Re.TGroup 1
                 :: List.map Re.TLit
                      (Str.chars (String ","%char
                         (" ROW_NUMBER() OVER (ORDER BY " +:+ oc +:+ " ASC) as rn FROM "))))%list)
      as [s Hs].
    { apply (parse_around_group1 "SELECT "
               (" ROW_NUMBER() OVER (ORDER BY " +:+ oc +:+ " ASC) as rn FROM ") ","%char 1);
        [reflexivity | | reflexivity | lia].
      change (String ","%char (" ROW_NUMBER() OVER (ORDER BY " +:+ oc +:+ " ASC) as rn FROM "))
        with (", ROW_NUMBER() OVER (ORDER BY " +:+ oc +:+ " ASC) as rn FROM ").
      rewrite !plain_app, (no_backslash_plain _ Hoc). reflexivity. }
    rewrite Hs. cbn. eauto.
  - destruct (is_mysql dt); eauto.
Qed.

Lemma batch_query_total cfg qc bs off headers :
  Str.contains "\" (order_by_column qc) = false ->
  exists s, create_batch_query cfg qc bs off headers = Ok s.
Proof.
  intros Hoc. unfold create_batch_query.
  destruct (has_with (_analyze_with_structure (sql qc))).
  - now apply with_batch_total.
  - destruct (is_mysql _); eauto.
Qed.

End SynthesisFacts.


Module ProjectionFacts.
Import StrFacts.

Lemma wrap_occurs (a body b : string) :
Str.occurs ("(" +:+ body +:+ ")") (a +:+ "(" +:+ body +:+ ")" +:+ b).
Proof. exists a, b. now rewrite !StrFacts.app_assoc. Qed.

Lemma chars_inj (a b : string) : Str.chars a = Str.chars b -> a = b.
Proof.
intros H. rewrite <- (string_of_list_ascii_of_string a), <- (string_of_list_ascii_of_string b).
unfold Str.chars in H. now rewrite H.
Qed.

Lemma app_inv_tail (a b c : string) : a +:+ c = b +:+ c -> a = b.
Proof.
intros H. apply chars_inj.
apply (f_equal Str.chars) in H. rewrite !TemplateFacts.chars_app in H.
now apply List.app_inv_tail in H.
Qed.

Lemma quote_column_inj dt a b : quote_column dt a = quote_column dt b -> a = b.
Proof.
unfold quote_column. intros H. apply String.app_inj in H. now apply app_inv_tail in H.
Qed.

Lemma with_batch_projection sql dt cols oc off bs s :
_create_with_batch_query sql dt cols oc off bs = Ok s ->
Str.occurs ("SELECT " +:+ cols +:+ " FROM (") s.
Proof.
unfold _create_with_batch_query, numbered_batch.
destruct (has_with (_analyze_with_structure sql)); cbn [negb].
- destruct (Re.search Pat.IS Pat.hoist_pattern sql).
  + intros [= <-].
    exists (Str.nl +:+ indent 12 +:+ Re.group_text r 1 +:+ Str.nl +:+ indent 12).
    eexists. rewrite !StrFacts.app_assoc. reflexivity.
  + unfold re_sub. destruct (Re.sub _ _ _ _ _); cbn; [|discriminate].
    intros [= <-]. exists (Str.nl +:+ indent 12).
    eexists. rewrite !StrFacts.app_assoc. reflexivity.
- destruct (is_mysql dt); intros [= <-]; exists (Str.nl +:+ indent 16);
    eexists; rewrite !StrFacts.app_assoc; reflexivity.
Qed.

End ProjectionFacts.

Module FallbackFacts.
Import Db.

Lemma header_sql_total cfg qc : exists text, header_sql_of cfg qc = Ok text.
Proof.
unfold header_sql_of, _create_with_header_query, _get_limit_clause,
  _adjust_parameter_placeholder.
destruct (has_with (_analyze_with_structure (sql qc))); cbn [negb].
- destruct (Re.search Pat.IS Pat.hoist_pattern (sql qc)).
  + destruct (is_mysql _); eauto.
  + destruct (is_mysql _); unfold re_sub, Re.sub.
    * change (Re.parse_template _ 1 (Str.chars "SELECT \1 FROM "))
        with (Some (List.map Re.TLit (Str.chars "SELECT ") ++ Re.TGroup 1
                    :: List.map Re.TLit (Str.chars " FROM "))%list).
      cbn. eauto.
    * change (Re.parse_template _ 1 (Str.chars ("SELECT " +:+ "TOP 1" +:+ " \1 FROM ")))
        with (Some (List.map Re.TLit (Str.chars "SELECT TOP 1 ") ++ Re.TGroup 1
                    :: List.map Re.TLit (Str.chars " FROM "))%list).
      cbn. eauto.
- destruct (is_mysql _); eauto.
Qed.


Lemma fallback_total cfg db t qc lrt :
exists n, _get_record_count_with_fallback cfg db t qc lrt = Ok n.
Proof.
unfold _get_record_count_with_fallback, try_except.
match goal with |- exists n, match ?b with _ => _ end = _ => destruct b end; eauto.
Qed.

Ltac probe_step cfg qc H1 H2 :=
unfold _get_record_count_with_fallback; rewrite H1; cbn [bind];
unfold _adjust_parameter_placeholder;
let text := fresh "text" in
let Ht := fresh "Ht" in
destruct (header_sql_total cfg qc) as [text Ht];
unfold header_sql_of, _adjust_parameter_placeholder in Ht; cbv zeta in Ht;
cbv zeta; rewrite Ht; cbn [bind]; rewrite (H2 text Ht); cbn [bind].

Lemma fallback_sentinel cfg db t qc lrt c cur r :
db t (database_name qc) = Ok c ->
(forall text, header_sql_of cfg qc = Ok text ->
   execute c 0 text (bound_params qc lrt) = Ok cur) ->
fetchone cur = Ok (Some r) -> close cur = Ok tt ->
(forall text, counts_nothing (execute c 1 text (bound_params qc lrt))) ->
(forall text, counts_nothing (execute c 3 text (bound_params qc lrt))) ->
release c = Ok tt ->
_get_record_count_with_fallback cfg db t qc lrt = Ok 1%Z.
Proof.
intros H1 H2 H3 H4 H5 H6 H7.
probe_step cfg qc H1 H2.
rewrite H3. cbn [bind]. rewrite H4. cbn [bind].
match goal with
| |- context [try_except (bind ?cs ?k) ?h] =>
    assert (M1 : try_except (bind cs k) h = Ok None)
end.
{ destruct (_create_with_count_query _ _) as [cs|e]; [|reflexivity].
  cbn [bind]. specialize (H5 cs). unfold counts_nothing in H5.
  destruct (let! result := execute c 1 cs (bound_params qc lrt) in read_count result)
    as [[n|]|e] eqn:E; [exfalso; now apply (H5 n) | reflexivity | reflexivity]. }
rewrite M1. cbn [bind].
match goal with
| |- context [try_except ?b ?h] =>
    assert (M2 : try_except b h = Ok None)
end.
{ match goal with |- try_except (bind ?x _) _ = _ => destruct x as [ts|e] end;
    [|reflexivity].
  cbn [bind]. destruct (execute c 2 ts _) as [sample|e]; [|reflexivity].
  cbn [bind]. destruct (fetchall sample) as [rows|e]; [|reflexivity].
  cbn [bind]. destruct (close sample) as [[]|e]; [|reflexivity].
  cbn [bind]. destruct rows as [|r0 rows]; [reflexivity|].
  destruct (_create_with_count_query _ _) as [cs|e]; [|reflexivity].
  cbn [bind]. specialize (H6 cs). unfold counts_nothing in H6.
  destruct (let! result := execute c 3 cs (bound_params qc lrt) in read_count result)
    as [[n|]|e] eqn:E; [exfalso; now apply (H6 n) | reflexivity | reflexivity]. }
rewrite M2. cbn [bind]. unfold with_connection. cbn [bind]. rewrite H7. reflexivity.
Qed.

Lemma fallback_no_rows cfg db t qc lrt c cur :
db t (database_name qc) = Ok c ->
(forall text, header_sql_of cfg qc = Ok text ->
   execute c 0 text (bound_params qc lrt) = Ok cur) ->
fetchone cur = Ok None ->
_get_record_count_with_fallback cfg db t qc lrt = Ok 0%Z.
Proof.
intros H1 H2 H3.
probe_step cfg qc H1 H2.
rewrite H3. cbn [bind]. unfold with_connection.
destruct (close cur) as [[]|e]; cbn [bind]; destruct (release c); reflexivity.
Qed.

(** A release that fails after the sentinel was chosen is caught by the
  outer handler. *)
Lemma fallback_release_failure cfg db t qc lrt c e :
db t (database_name qc) = Ok c -> release c = Raise e ->
_get_record_count_with_fallback cfg db t qc lrt = Ok 0%Z.
Proof.
intros H1 H2. unfold _get_record_count_with_fallback. rewrite H1. cbn [bind].
unfold with_connection. rewrite H2.
match goal with |- try_except (match ?b with _ => _ end) _ = _ => destruct b end;
  reflexivity.
Qed.

End FallbackFacts.

Module WatermarkFacts.
Import Db Datetime.

Lemma max_system_date_total iso db t dbn :
exists r, get_max_system_date iso db t dbn = Ok r.
Proof.
unfold get_max_system_date, try_except.
match goal with |- exists n, match ?b with _ => _ end = _ => destruct b end; eauto.
Qed.

Lemma max_system_date_unreachable iso db t dbn e :
db t dbn = Raise e -> get_max_system_date iso db t dbn = Ok None.
Proof. intros H. unfold get_max_system_date. now rewrite H. Qed.

Lemma max_system_date_execute_fails iso db t dbn c e :
db t dbn = Ok c ->
execute c 0 "SELECT MAX(SystemDate) FROM HistoryMainline" None = Raise e ->
get_max_system_date iso db t dbn = Ok None.
Proof.
intros H1 H2. unfold get_max_system_date. rewrite H1. cbn [bind]. rewrite H2.
cbn [bind]. unfold with_connection. destruct (release c); reflexivity.
Qed.

Lemma max_system_date_no_value iso db t dbn c cur :
db t dbn = Ok c ->
execute c 0 "SELECT MAX(SystemDate) FROM HistoryMainline" None = Ok cur ->
scalar cur = Ok None ->
get_max_system_date iso db t dbn = Ok None.
Proof.
intros H1 H2 H3. unfold get_max_system_date. rewrite H1. cbn [bind]. rewrite H2.
cbn [bind]. rewrite H3. cbn [bind]. unfold with_connection.
destruct (close cur) as [[]|]; cbn [bind]; destruct (release c); reflexivity.
Qed.

Lemma max_system_date_unreadable iso db t dbn c cur s e :
db t dbn = Ok c ->
execute c 0 "SELECT MAX(SystemDate) FROM HistoryMainline" None = Ok cur ->
scalar cur = Ok (Some (CStr s)) -> iso s = Raise e ->
get_max_system_date iso db t dbn = Ok None.
Proof.
intros H1 H2 H3 H4. unfold get_max_system_date. rewrite H1. cbn [bind]. rewrite H2.
cbn [bind]. rewrite H3. cbn [bind]. unfold with_connection.
destruct (close cur) as [[]|]; cbn [bind]; rewrite ?H4; cbn [bind];
  destruct (release c); reflexivity.
Qed.

Lemma max_system_date_value iso db t dbn c cur d :
db t dbn = Ok c ->
execute c 0 "SELECT MAX(SystemDate) FROM HistoryMainline" None = Ok cur ->
scalar cur = Ok (Some (CDatetime d)) -> close cur = Ok tt -> release c = Ok tt ->
get_max_system_date iso db t dbn = Ok (Some (CDatetime d)).
Proof.
intros H1 H2 H3 H4 H5. unfold get_max_system_date. rewrite H1. cbn [bind]. rewrite H2.
cbn [bind]. rewrite H3. cbn [bind]. rewrite H4. cbn [bind]. unfold with_connection.
now rewrite H5.
Qed.

Lemma max_system_date_text iso db t dbn c cur s d :
  db t dbn = Ok c ->
  execute c 0 "SELECT MAX(SystemDate) FROM HistoryMainline" None = Ok cur ->
  scalar cur = Ok (Some (CStr s)) -> close cur = Ok tt -> iso s = Ok d ->
  release c = Ok tt ->
  get_max_system_date iso db t dbn = Ok (Some (CDatetime d)).
Proof.
  intros H1 H2 H3 H4 H5 H6. unfold get_max_system_date. rewrite H1. cbn [bind]. rewrite H2.
  cbn [bind]. rewrite H3. cbn [bind]. rewrite H4. cbn [bind]. rewrite H5. cbn [bind].
  unfold with_connection. now rewrite H6.
Qed.

End WatermarkFacts.

Module LoopFacts.
Import Db DataProcessor.

Section Loop.

Variables (env : Collaborators) (qp : Processor) (data_path : string)
(qc : QueryConfig) (headers : list string) (lrt : string)
(bs : Z) (ts : string) (rc : Z).

Local Abbreviation loop fuel i st :=
(batch_loop fuel env qp data_path qc headers lrt bs ts rc (excluded qc) i st).
Local Abbreviation block i st q :=
(try_block env qp data_path qc headers lrt bs ts rc (excluded qc) i st q).
Local Abbreviation reach := (reaches env qp data_path qc headers lrt bs ts rc).

Lemma loop_reaches i st :
reach i st -> forall fuel, loop (i + fuel)%nat 0%nat start = loop fuel i st.
Proof.
induction 1 as [|i st q st' Hr IH Hg Hq Hb]; intros fuel; [reflexivity|].
replace (S i + fuel)%nat with (i + S fuel)%nat by lia.
rewrite IH. cbn [batch_loop]. now rewrite Hg, Hq, Hb.
Qed.

Lemma reaches_counters i st :
reach i st ->
offset st = (Z.of_nat i * bs)%Z /\ batch_number st = Z.of_nat i
/\ (Z.of_nat i <= processed_rows st)%Z.
Proof.
induction 1 as [|i st q st' Hr IH Hg Hq Hb]; [cbn; lia|].
destruct IH as (Ho & Hn & Hp).
unfold try_block in Hb.
destruct (QueryProcessor.execute_batch _ _ _ _ _) as [[|r rows]|]; try discriminate.
destruct (create_csv_data _ _ _ _ _); try discriminate.
destruct (upload_batch _ _ _ _ _ _); try discriminate.
destruct (rc =? 0)%Z; try discriminate.
injection Hb as <-. cbn [offset batch_number processed_rows query_total_size List.length].
rewrite Ho, Hn. lia.
Qed.

(** The counters when the block is left by an exception. *)
Lemma block_failure i st q st' e :
block i st q = (st', Raise e) ->
offset st' = offset st
/\ (batch_number st <= batch_number st' <= batch_number st + 1)%Z
/\ (processed_rows st <= processed_rows st')%Z
/\ (rc <> 0%Z ->
    processed_rows st' = processed_rows st
    /\ query_total_size st' = query_total_size st)
/\ (QueryProcessor.execute_batch (database qp) i q lrt qc = Raise e -> st' = st).
Proof.
unfold try_block.
destruct (QueryProcessor.execute_batch _ _ _ _ _) as [[|r rows]|e0]; try discriminate.
- destruct (create_csv_data _ _ _ _ _).
  + destruct (upload_batch _ _ _ _ _ _).
    * destruct (Z.eqb_spec rc 0); [|discriminate].
      intros [= <- <-]. cbn. repeat split; try lia. discriminate.
    * intros [= <- <-]. cbn. repeat split; try lia. discriminate.
  + intros [= <- <-]. cbn. repeat split; try lia. discriminate.
- intros [= <- <-]. repeat split; try lia. 
Qed.

Lemma loop_raises_only_csv :
(forall i, exists b, check_execution_apply env i = Ok b) ->
(forall off, exists q,
   QueryProcessor.create_batch_query (app_config qp) qc bs off headers = Ok q) ->
forall fuel i st e, loop fuel i st = Some (Raise e) ->
exists m, e = CsvGenerationException m.
Proof.
intros Hg Hq. induction fuel as [|fuel IH]; intros i st e; [discriminate|].
cbn [batch_loop].
destruct (Hg i) as [b ->]. destruct b; [|intros [= <-]; eauto].
destruct (Hq (offset st)) as [q ->].
destruct (block i st q) as [st' [[]|e']].
- apply IH.
- discriminate.
- destruct e'; try discriminate. intros [= <-]. eauto.
Qed.

Lemma loop_gate_denied k st fuel :
reach k st -> check_execution_apply env k = Ok false -> (k < fuel)%nat ->
loop fuel 0%nat start
= Some (Raise (CsvGenerationException
                 ("Executable file not found : " +:+ metadata_path env
                  +:+ "/" +:+ execution_apply_file env))).
Proof.
intros Hr Hg Hf. replace fuel with (k + S (fuel - S k))%nat by lia.
rewrite (loop_reaches _ _ Hr). cbn [batch_loop]. now rewrite Hg.
Qed.

End Loop.

End LoopFacts.

Module FindFacts.

Lemma find_none_app_nil p s : Str.find p s = None -> Str.prefix_of p s = false.
Proof. destruct s; simpl; destruct (Str.prefix_of p _); congruence. Qed.

(** Before the first occurrence there is none. *)
Lemma find_some p : forall s n,
  Str.find p s = Some n ->
  Str.prefix_of p (skipn n s) = true
  /\ forall i, (i < n)%nat -> Str.prefix_of p (skipn i s) = false.
Proof.
  induction s as [|c s IH]; intros n H.
  - simpl in H. destruct (Str.prefix_of p []) eqn:E; [|discriminate].
    injection H as <-. split; [exact E | lia].
  - cbn [Str.find] in H. destruct (Str.prefix_of p (c :: s)) eqn:E.
    + injection H as <-. split; [exact E | lia].
    + destruct (Str.find p s) as [m|] eqn:F; [|discriminate].
      injection H as <-. destruct (IH m eq_refl) as [H1 H2]. split; [exact H1|].
      intros [|i] Hi; [exact E | apply H2; lia].
Qed.

Lemma chars_upper (s : string) : Str.chars (Str.upper s) = List.map Str.to_upper (Str.chars s).
Proof. induction s as [|c s IH]; [reflexivity|]. simpl. now rewrite IH. Qed.

End FindFacts.

Module WhereFacts.
Import Re.

Lemma lit_upper (a c : ascii) :
  Str.is_upper a = true ->
  lit_ok Pat.I a c = Ascii.eqb a (Str.to_upper c).
Proof.
  intros Ha. unfold lit_ok. cbn [ignorecase Pat.I].
  destruct a as [[] [] [] [] [] [] [] []]; try discriminate Ha;
    destruct c as [[] [] [] [] [] [] [] []]; reflexivity.
Qed.

(** No match is anchored where the upper-cased text does not start with
    the keyword. *)
Lemma no_match_without_keyword s p :
  Str.prefix_of Pat.keyword (List.map Str.to_upper s) = false ->
  match_at Pat.I Pat.where_pattern s p = None.
Proof.
  unfold match_at, Pat.where_pattern, Pat.keyword. cbn [Pat.seq Pat.lits run].
  intros H.
  destruct s as [|c1 s]; [reflexivity|]. cbn [one List.map Str.prefix_of Str.chars list_ascii_of_string] in *.
  rewrite (lit_upper "W" c1 eq_refl). destruct (Ascii.eqb "W" (Str.to_upper c1)); [|reflexivity].
  destruct s as [|c2 s]; [reflexivity|]. cbn [one List.map Str.prefix_of] in *.
  rewrite (lit_upper "H" c2 eq_refl). destruct (Ascii.eqb "H" (Str.to_upper c2)); [|reflexivity].
  destruct s as [|c3 s]; [reflexivity|]. cbn [one List.map Str.prefix_of] in *.
  rewrite (lit_upper "E" c3 eq_refl). destruct (Ascii.eqb "E" (Str.to_upper c3)); [|reflexivity].
  destruct s as [|c4 s]; [reflexivity|]. cbn [one List.map Str.prefix_of] in *.
  rewrite (lit_upper "R" c4 eq_refl). destruct (Ascii.eqb "R" (Str.to_upper c4)); [|reflexivity].
  destruct s as [|c5 s]; [reflexivity|]. cbn [one List.map Str.prefix_of] in *.
  rewrite (lit_upper "E" c5 eq_refl). destruct (Ascii.eqb "E" (Str.to_upper c5)); [|reflexivity].
  discriminate.
Qed.


(** A greedy run over one character class takes every character of the
    class when the continuation accepts what is left. *)
Lemma iterate_class (ok : ascii -> bool) (k : cont) x :
  forall xs rest fuel p cs,
    forallb ok xs = true ->
    match rest with [] => True | c :: _ => ok c = false end ->
    (List.length xs <= fuel)%nat ->
    k rest (p + List.length xs)%nat cs = Some x ->
    iterate (one ok) true k fuel (xs ++ rest)%list p cs = Some x.
Proof.
  induction xs as [|c xs IH]; intros rest fuel p cs Hok Hrest Hfuel Hk.
  - rewrite Nat.add_0_r in Hk. cbn [app].
    destruct fuel as [|fuel]; [exact Hk|].
    cbn [iterate]. destruct rest as [|c r]; cbn [one]; [now rewrite Hk|].
    now rewrite Hrest, Hk.
  - cbn [forallb] in Hok. apply andb_true_iff in Hok as [Hc Hxs].
    destruct fuel as [|fuel]; [cbn in Hfuel; lia|].
    cbn [iterate app one]. rewrite Hc.
    assert (Hlt : (p <? S p)%nat = true) by (apply Nat.ltb_lt; lia).
    rewrite Hlt, (IH rest fuel (S p) cs Hxs Hrest); [reflexivity | cbn in Hfuel; lia |].
    cbn [List.length] in Hk. now replace (S p + List.length xs)%nat
      with (p + S (List.length xs))%nat by lia.
Qed.

(** The match at a keyword followed by blanks and a condition that runs
    to the end of the text on one line. *)
Lemma match_at_keyword kw ws cond p :
  List.map Str.to_upper kw = Pat.keyword ->
  ws <> [] -> forallb Str.is_space ws = true ->
  forallb Str.not_newline cond = true ->
  match cond with [] => True | c :: _ => Str.is_space c = false end ->
  match_at Pat.I Pat.where_pattern (kw ++ ws ++ cond)%list p
  = Some {| m_start := p;
            m_end := (p + 5 + List.length ws + List.length cond)%nat;
            m_groups := [(1%nat, cond)] |}.
Proof.
  intros Hkw Hne Hws Hcond Hhd.
  destruct kw as [|c1 [|c2 [|c3 [|c4 [|c5 [|c6 kw]]]]]]; try discriminate Hkw.
  injection Hkw as H1 H2 H3 H4 H5.
  destruct ws as [|w ws]; [contradiction|].
  cbn [forallb] in Hws. apply andb_true_iff in Hws as [Hw Hws].
  unfold match_at, Pat.where_pattern. cbn [Pat.seq Pat.lits run app one].
  rewrite (lit_upper "W" c1 eq_refl), H1.
  rewrite (lit_upper "H" c2 eq_refl), H2.
  rewrite (lit_upper "E" c3 eq_refl), H3.
  rewrite (lit_upper "R" c4 eq_refl), H4.
  rewrite (lit_upper "E" c5 eq_refl), H5.
  cbn [Ascii.eqb Bool.eqb]. unfold Pat.ws1, Pat.any. cbn [run one]. rewrite Hw.
  change (run Pat.I Space) with (one Str.is_space).
  set (x := ((p + 5 + List.length (w :: ws) + List.length cond)%nat, [(1%nat, cond)])).
  rewrite (iterate_class Str.is_space _ x ws cond); [reflexivity | exact Hws | exact Hhd | | ].
  - rewrite List.length_app. lia.
  - cbn [run].
    pose proof (iterate_class (dot_ok Pat.I)
                  (fun _ p' cs' =>
                     Some (p', (1%nat, firstn (p' - (S (S (S (S (S (S p))))) + List.length ws)) cond)
                               :: cs'))
                  x cond [] (S (List.length cond))
                  (S (S (S (S (S (S p))))) + List.length ws)%nat [] Hcond I) as Hd.
    rewrite List.app_nil_r in Hd. apply Hd; [lia|].
    replace (S (S (S (S (S (S p))))) + List.length ws + List.length cond
             - (S (S (S (S (S (S p))))) + List.length ws))%nat
      with (List.length cond) by lia.
    rewrite List.firstn_all. unfold x. f_equal. cbn [List.length]. f_equal. lia.
Qed.


Lemma match_at_search kw ws cond p :
  List.map Str.to_upper kw = Pat.keyword ->
  ws <> [] -> forallb Str.is_space ws = true ->
  forallb Str.not_newline cond = true ->
  match cond with [] => True | c :: _ => Str.is_space c = false end ->
  search_from Pat.I Pat.where_pattern (kw ++ ws ++ cond)%list p
  = Some {| m_start := p;
            m_end := (p + 5 + List.length ws + List.length cond)%nat;
            m_groups := [(1%nat, cond)] |}.
Proof.
  intros. destruct (kw ++ ws ++ cond)%list eqn:E; cbn [search_from]; rewrite <- ?E;
    now rewrite match_at_keyword.
Qed.

Lemma search_skips pre : forall s p,
  (forall i, (i < List.length pre)%nat ->
     Str.prefix_of Pat.keyword (List.map Str.to_upper (skipn i (pre ++ s)%list)) = false) ->
  search_from Pat.I Pat.where_pattern (pre ++ s)%list p
  = search_from Pat.I Pat.where_pattern s (p + List.length pre)%nat.
Proof.
  induction pre as [|c pre IH]; intros s p H.
  - cbn. now rewrite Nat.add_0_r.
  - cbn [app search_from].
    pose proof (H 0%nat ltac:(cbn; lia)) as H0. cbn [skipn app] in H0.
    rewrite (no_match_without_keyword _ p H0).
    rewrite IH.
    + f_equal. cbn. lia.
    + intros i Hi. apply (H (S i)). cbn. lia.
Qed.

Lemma expand_lits (l : list ascii) rest whole cs :
  expand (List.map TLit l ++ rest)%list whole cs = (l ++ expand rest whole cs)%list.
Proof. induction l as [|c l IH]; [reflexivity|]. cbn. now rewrite IH. Qed.

(** One substitution, for a text whose first keyword starts the only
    match. *)
Lemma sub_from_keyword items pre kw ws cond fuel :
  (forall i, (i < List.length pre)%nat ->
     Str.prefix_of Pat.keyword
       (List.map Str.to_upper (skipn i (pre ++ kw ++ ws ++ cond)%list)) = false) ->
  List.map Str.to_upper kw = Pat.keyword ->
  ws <> [] -> forallb Str.is_space ws = true ->
  forallb Str.not_newline cond = true ->
  match cond with [] => True | c :: _ => Str.is_space c = false end ->
  sub_from (S fuel) Pat.I Pat.where_pattern items (pre ++ kw ++ ws ++ cond)%list 0
  = (pre ++ expand items (kw ++ ws ++ cond)%list [(1%nat, cond)])%list.
Proof.
  intros Hpre Hkw Hne Hws Hcond Hhd.
  assert (Hlen : List.length kw = 5%nat).
  { apply (f_equal (@List.length _)) in Hkw. now rewrite List.length_map in Hkw. }
  cbn [sub_from]. rewrite (search_skips pre _ 0%nat Hpre).
  rewrite (match_at_search kw ws cond _ Hkw Hne Hws Hcond Hhd).
  cbn [m_start m_end m_groups].
  set (n := List.length pre). set (e := (0 + n + 5 + List.length ws + List.length cond)%nat).
  assert (Hlt : (0 + n <? e)%nat = true) by (apply Nat.ltb_lt; unfold e; lia).
  rewrite Hlt. rewrite !Nat.sub_0_r. rewrite Nat.sub_diag.
  replace (0 + n)%nat with n by lia.
  assert (Hall : List.length (pre ++ kw ++ ws ++ cond)%list = e).
  { rewrite !List.length_app. unfold e, n. lia. }
  assert (H1 : firstn n (pre ++ kw ++ ws ++ cond)%list = pre).
  { unfold n. rewrite List.firstn_app, List.firstn_all, Nat.sub_diag. cbn [firstn].
    apply List.app_nil_r. }
  assert (H2 : skipn n (pre ++ kw ++ ws ++ cond)%list = (kw ++ ws ++ cond)%list).
  { unfold n. rewrite List.skipn_app, List.skipn_all, Nat.sub_diag. reflexivity. }
  assert (H3 : skipn e (pre ++ kw ++ ws ++ cond)%list = []).
  { apply List.skipn_all2. lia. }
  assert (H4 : firstn (e - n) (kw ++ ws ++ cond)%list = (kw ++ ws ++ cond)%list).
  { apply List.firstn_all2. rewrite !List.length_app. unfold e. lia. }
  rewrite H1, H2, H3, H4.
  assert (Hend : sub_from fuel Pat.I Pat.where_pattern items [] e = []).
  { destruct fuel; reflexivity. }
  rewrite Hend. cbn [firstn app]. now rewrite List.app_nil_r.
Qed.

End WhereFacts.


Module WhereTemplateFacts.
Import Re TemplateFacts.

Lemma parse_quote n g rest :
parse_template (S n) g (Str.backslash :: "'"%char :: rest)
= option_map (fun r => TLit Str.backslash :: TLit "'"%char :: r) (parse_template n g rest).
Proof. reflexivity. Qed.

Lemma parse_where_template (s e : string) :
plain (Str.chars s) = true -> plain (Str.chars e) = true ->
parse_template (String.length (where_template s e)) 1 (Str.chars (where_template s e))
= Some (List.map TLit (Str.chars "WHERE ") ++ TGroup 1
        :: List.map TLit (Str.chars (range_text s e)))%list.
Proof.
intros Hs He.
set (A := Str.chars " AND SystemDate BETWEEN ").
set (B := Str.chars " AND ").
set (q := [Str.backslash; "'"%char]).
assert (Hc : Str.chars (where_template s e)
             = (Str.chars "WHERE " ++ Str.backslash :: "1"%char :: " "%char
                  :: (Str.chars "AND SystemDate BETWEEN "
                      ++ q ++ Str.chars s ++ q ++ B ++ q ++ Str.chars e ++ q))%list).
{ unfold where_template.
  change ("WHERE \1 AND SystemDate BETWEEN \'" +:+ s +:+ "\' AND \'" +:+ e +:+ "\'")
    with ("WHERE " +:+ "\1 AND SystemDate BETWEEN \'" +:+ s +:+ "\' AND \'" +:+ e +:+ "\'").
  rewrite chars_app.
  change ("\1 AND SystemDate BETWEEN \'" +:+ s +:+ "\' AND \'" +:+ e +:+ "\'")
    with (String Str.backslash (String "1" (String " "
            ("AND SystemDate BETWEEN \'" +:+ s +:+ "\' AND \'" +:+ e +:+ "\'")))).
  change (Str.chars (String Str.backslash (String "1" (String " "
            ("AND SystemDate BETWEEN \'" +:+ s +:+ "\' AND \'" +:+ e +:+ "\'")))))
    with (Str.backslash :: "1"%char :: " "%char
            :: Str.chars ("AND SystemDate BETWEEN \'" +:+ s +:+ "\' AND \'" +:+ e +:+ "\'")).
  change ("AND SystemDate BETWEEN \'" +:+ s +:+ "\' AND \'" +:+ e +:+ "\'")
    with ("AND SystemDate BETWEEN " +:+ "\'" +:+ s +:+ "\'" +:+ " AND " +:+ "\'" +:+ e +:+ "\'").
  rewrite !chars_app. reflexivity. }
assert (Hr : Str.chars (range_text s e)
             = (" "%char :: Str.chars "AND SystemDate BETWEEN "
                  ++ q ++ Str.chars s ++ q ++ B ++ q ++ Str.chars e ++ q)%list).
{ unfold range_text.
  change (" AND SystemDate BETWEEN \'" +:+ s +:+ "\' AND \'" +:+ e +:+ "\'")
    with (" AND SystemDate BETWEEN " +:+ "\'" +:+ s +:+ "\'" +:+ " AND " +:+ "\'" +:+ e +:+ "\'").
  rewrite !chars_app. reflexivity. }
rewrite Hr, Hc.
apply parse_fuel_mono
  with (n := (6 + S (24 + S (List.length (Str.chars s)
               + S (5 + S (List.length (Str.chars e) + S 0)))))%nat).
- rewrite (parse_plain (Str.chars "WHERE ") _ _ _ eq_refl).
  rewrite parse_group1; [|lia|reflexivity].
  change (" "%char :: (Str.chars "AND SystemDate BETWEEN "
            ++ q ++ Str.chars s ++ q ++ B ++ q ++ Str.chars e ++ q))%list
    with (A ++ q ++ Str.chars s ++ q ++ B ++ q ++ Str.chars e ++ q)%list.
  rewrite (parse_plain A _ _ _ eq_refl).
  unfold q at 1. cbn [app]. rewrite parse_quote.
  rewrite (parse_plain (Str.chars s) _ _ _ Hs).
  unfold q at 1. cbn [app]. rewrite parse_quote.
  rewrite (parse_plain B _ _ _ eq_refl).
  unfold q at 1. cbn [app]. rewrite parse_quote.
  rewrite (parse_plain (Str.chars e) _ _ _ He).
  unfold q at 1. cbn [app]. rewrite parse_quote.
  cbn [parse_template option_map].
  rewrite !List.map_app. unfold q. reflexivity.
- rewrite <- length_chars, Hc. rewrite !List.length_app. cbn [List.length].
  rewrite !List.length_app. cbn [List.length]. unfold B. cbn. lia.
Qed.

End WhereTemplateFacts.

Module RangeFacts.
Import FindFacts WhereFacts.

Lemma of_chars_app (a b : list ascii) :
  Str.of_chars (a ++ b)%list = Str.of_chars a +:+ Str.of_chars b.
Proof.
  induction a as [|c a IH]; [reflexivity|].
  change (String c (Str.of_chars (a ++ b)%list)
          = String c (Str.of_chars a +:+ Str.of_chars b)).
  now rewrite IH.
Qed.

Lemma of_chars_chars (s : string) : Str.of_chars (Str.chars s) = s.
Proof. apply string_of_list_ascii_of_string. Qed.

Lemma no_char (c : ascii) (s : string) :
  Str.contains (String c "") s = false ->
  forallb (fun x => negb (Ascii.eqb x c)) (Str.chars s) = true.
Proof.
  unfold Str.contains.
  induction s as [|x s IH]; [reflexivity|].
  change (Str.chars (String x s)) with (x :: Str.chars s).
  change (Str.chars (String c "")) with [c] in *.
  cbn [Str.find Str.prefix_of forallb].
  rewrite Ascii.eqb_sym.
  destruct (Ascii.eqb x c); [discriminate|].
  intros H. apply IH.
  destruct (Str.find [c] (Str.chars s)); [discriminate | reflexivity].
Qed.

Lemma replace_once (old new a b : list ascii) fuel :
  Str.find old (a ++ old ++ b)%list = Some (List.length a) ->
  Str.find old b = None ->
  Str.replace_chars (S fuel) old new (a ++ old ++ b)%list = (a ++ new ++ b)%list.
Proof.
  intros Ha Hb. cbn [Str.replace_chars]. rewrite Ha.
  assert (H1 : firstn (List.length a) (a ++ old ++ b)%list = a).
  { rewrite List.firstn_app, List.firstn_all, Nat.sub_diag. cbn [firstn].
    apply List.app_nil_r. }
  assert (H2 : skipn (List.length a + List.length old) (a ++ old ++ b)%list = b).
  { rewrite List.app_assoc, <- List.length_app.
    rewrite List.skipn_app, List.skipn_all, Nat.sub_diag. reflexivity. }
  rewrite H1, H2.
  destruct fuel; [reflexivity|]. cbn [Str.replace_chars]. now rewrite Hb.
Qed.

(** The substitution on a text whose first WHERE is followed by blanks
    and a one-line condition up to the end of the text. *)
Lemma where_substitution (sql pre kw ws cond : string) items :
  sql = pre +:+ kw +:+ ws +:+ cond ->
  String.length kw = 5%nat ->
  Str.find (Str.chars "WHERE") (Str.chars (Str.upper sql)) = Some (String.length pre) ->
  Str.isspace ws = true ->
  Str.contains Str.nl cond = false ->
  Str.lstrip_chars (Str.chars cond) = Str.chars cond ->
  Re.sub_from (S (String.length sql)) Pat.I Pat.where_pattern items (Str.chars sql) 0
  = (Str.chars pre
     ++ Re.expand items (Str.chars kw ++ Str.chars ws ++ Str.chars cond)
          [(1%nat, Str.chars cond)])%list.
Proof.
  intros Hsql Hkw Hfind Hws Hnl Hls.
  rewrite chars_upper in Hfind.
  destruct (find_some _ _ _ Hfind) as [Hat Hbefore].
  rewrite Hsql in Hat, Hbefore |- *.
  rewrite !TemplateFacts.chars_app in Hat, Hbefore |- *.
  rewrite <- TemplateFacts.length_chars in Hat, Hbefore.
  assert (Hk : List.map Str.to_upper (Str.chars kw) = Pat.keyword).
  { rewrite List.map_app, List.skipn_app in Hat.
    rewrite <- (List.length_map Str.to_upper (Str.chars pre)) in Hat.
    rewrite List.skipn_all, Nat.sub_diag in Hat. cbn [skipn app] in Hat.
    rewrite List.map_app in Hat. rewrite <- TemplateFacts.length_chars in Hkw.
    destruct (Str.chars kw) as [|c1 [|c2 [|c3 [|c4 [|c5 [|c6 l]]]]]]; try discriminate Hkw.
    cbn [List.map app] in Hat |- *. unfold Pat.keyword in *.
    cbn [Str.chars list_ascii_of_string Str.prefix_of skipn] in Hat |- *.
    repeat match type of Hat with
    | context [Ascii.eqb ?x ?y] =>
        destruct (Ascii.eqb_spec x y) as [<-|]; [|discriminate Hat]
    end. reflexivity. }
  assert (Hwsne : Str.chars ws <> []).
  { unfold Str.isspace in Hws. destruct (Str.chars ws); [discriminate|congruence]. }
  assert (Hwsall : forallb Str.is_space (Str.chars ws) = true).
  { unfold Str.isspace in Hws. destruct (Str.chars ws); [discriminate|exact Hws]. }
  assert (Hhd : match Str.chars cond with
                | [] => True | c :: _ => Str.is_space c = false end).
  { destruct (Str.chars cond) as [|c l] eqn:E; [exact I|].
    cbn [Str.lstrip_chars] in Hls. destruct (Str.is_space c) eqn:Ec; [|reflexivity].
    exfalso. assert (Hlen : (List.length (Str.lstrip_chars l) <= List.length l)%nat).
    { clear. induction l as [|x l IH]; cbn; [lia|]. destruct (Str.is_space x); cbn; lia. }
    rewrite Hls in Hlen. cbn in Hlen. lia. }
  assert (Hbefore' : forall i, (i < List.length (Str.chars pre))%nat ->
            Str.prefix_of Pat.keyword
              (List.map Str.to_upper
                 (skipn i (Str.chars pre ++ Str.chars kw ++ Str.chars ws ++ Str.chars cond)%list))
            = false).
  { intros i Hi. rewrite <- List.skipn_map. now apply Hbefore. }
  apply (sub_from_keyword _ _ _ _ _ _ Hbefore' Hk Hwsne Hwsall (no_char _ _ Hnl) Hhd).
Qed.

End RangeFacts.

Module StoreFacts.
Import QueryProcessor.

Lemma fresh_not_in (h : store) : h !! fresh (dom h) = None.
Proof. apply not_elem_of_dom, is_fresh. Qed.

End StoreFacts.

(** * The claims *)

Import Db Datetime DataProcessor.

(** ** C1: the row window of the batch statement *)



(** The three branches are all taken: a text without WITH, a WITH clause
    that is hoisted, and a WITH clause that cannot be split. *)
Example batch_branches :
  create_batch_query None Sample.full_load 2 0 ["a"]
  = Ok (Str.nl +:+ indent 16 +:+ "SELECT [a] FROM (" +:+ Str.nl
        +:+ indent 20 +:+ "SELECT *, ROW_NUMBER() OVER (ORDER BY a ASC) as rn " +:+ Str.nl
        +:+ indent 20 +:+ "FROM (SELECT a FROM T WHERE a > 1) as subquery" +:+ Str.nl
        +:+ indent 16 +:+ ") as numbered " +:+ Str.nl
        +:+ indent 16 +:+ "WHERE rn > 0 AND rn <= 2" +:+ Str.nl +:+ indent 16)
  /\ _create_with_batch_query "WITH X AS (SELECT a FROM T) SELECT * FROM X"
       "mysql" "`a`" "a" 4 2
     = Ok (Str.nl +:+ indent 12 +:+ "WITH X AS (SELECT a FROM T)" +:+ Str.nl
           +:+ indent 12 +:+ "SELECT `a` FROM (" +:+ Str.nl
           +:+ indent 16 +:+ "SELECT *, ROW_NUMBER() OVER (ORDER BY a ASC) as rn " +:+ Str.nl
           +:+ indent 16 +:+ "FROM (SELECT * FROM X) as subquery" +:+ Str.nl
           +:+ indent 12 +:+ ") as numbered " +:+ Str.nl
           +:+ indent 12 +:+ "WHERE rn > 4 AND rn <= 6" +:+ Str.nl +:+ indent 12)
  /\ _create_with_batch_query "WITH X AS (SELECT a FROM T" "mssql" "[a]" "a" 0 2
     = Ok (Str.nl +:+ indent 12
           +:+ "SELECT [a] FROM (WITH X AS (SELECT a, ROW_NUMBER() OVER (ORDER BY a ASC) as rn FROM T) as numbered "
           +:+ Str.nl
           +:+ indent 12 +:+ "WHERE rn > 0 AND rn <= 2" +:+ Str.nl +:+ indent 12).
Proof. vm_compute. repeat split. Qed.

(** ** C2: CTEs separated by commas *)

(** Claim C2, at the input WITH X AS (SELECT 1), Y AS (SELECT 2) SELECT *
    FROM Y with its two top-level CTEs: the analysis finds one WITH keyword,
    takes the single-CTE path, and returns one name with [is_complex] off,
    where the claim asks for two names and [is_complex] on. *)
Theorem comma_separated_ctes_seen_as_one :
  _analyze_with_structure Sample.two_ctes
  = {| has_with := true; cte_count := 1; cte_names := ["X"];
       main_query := "SELECT * FROM Y"; is_complex := false |}.
Proof. vm_compute. reflexivity. Qed.

(** Two WITH keywords are what the analysis counts as two CTEs. *)
Example two_with_keywords :
  _analyze_with_structure "WITH X AS (a) WITH Y AS (b) SELECT 1"
  = {| has_with := true; cte_count := 2; cte_names := ["X"; "Y"];
       main_query := "SELECT 1"; is_complex := true |}.
Proof. vm_compute. reflexivity. Qed.

(** ** C3: a text without WITH is wrapped as it is *)

(** Claim C3.  When the analysis finds no WITH clause, the count statement
    ([get_record_count], [_create_with_count_query]), the header probe
    ([get_headers], [_create_with_header_query]) and the batch statement
    ([create_batch_query], [_create_with_batch_query]) are all produced and
    each contains the original text, unchanged, between parentheses. *)
Theorem no_with_wraps_original (cfg : option AppConfig) (qc : QueryConfig) :
  has_with (_analyze_with_structure (sql qc)) = false ->
  let wrapped := "(" +:+ sql qc +:+ ")" in
  let dt := _get_database_type cfg (database_name qc) in
  (exists s, count_sql_of cfg qc = Ok s /\ Str.occurs wrapped s)
  /\ (exists s, _create_with_count_query (sql qc) dt = Ok s /\ Str.occurs wrapped s)
  /\ (exists s, header_sql_of cfg qc = Ok s /\ Str.occurs wrapped s)
  /\ (forall limit_clause,
        exists s, _create_with_header_query (sql qc) dt limit_clause = Ok s
                  /\ Str.occurs wrapped s)
  /\ (forall batch_size offset headers,
        exists s, create_batch_query cfg qc batch_size offset headers = Ok s
                  /\ Str.occurs wrapped s)
  /\ (forall cols oc offset batch_size,
        exists s, _create_with_batch_query (sql qc) dt cols oc offset batch_size = Ok s
                  /\ Str.occurs wrapped s).
Proof.
  intros H wrapped dt. subst wrapped.
  unfold count_sql_of, _create_with_count_query, header_sql_of, _create_with_header_query,
    create_batch_query, _create_with_batch_query, _adjust_parameter_placeholder.
  rewrite H. cbn [negb]. fold dt.
  assert (Hcount : Str.occurs ("(" +:+ sql qc +:+ ")")
            ("SELECT COUNT(*) as record_count FROM (" +:+ sql qc +:+ ") as subquery")).
  { apply (ProjectionFacts.wrap_occurs "SELECT COUNT(*) as record_count FROM "
             (sql qc) " as subquery"). }
  assert (Hlast : forall lc, Str.occurs ("(" +:+ sql qc +:+ ")")
            ("SELECT * FROM (" +:+ sql qc +:+ ") as subquery " +:+ lc)).
  { intros lc.
    apply (ProjectionFacts.wrap_occurs "SELECT * FROM " (sql qc) (" as subquery " +:+ lc)). }
  assert (Hfirst : forall lc, Str.occurs ("(" +:+ sql qc +:+ ")")
            ("SELECT " +:+ lc +:+ " * FROM (" +:+ sql qc +:+ ") as subquery")).
  { intros lc. exists ("SELECT " +:+ lc +:+ " * FROM "), " as subquery".
    now rewrite !StrFacts.app_assoc. }
  split; [eauto|]. split; [eauto|].
  split; [destruct (is_mysql dt); eauto|].
  split; [intros lc; destruct (is_mysql dt); eauto|].
  split; intros; destruct (is_mysql dt); eexists; (split; [reflexivity|]);
    apply numbered_batch_body.
Qed.

Lemma no_with_wraps_original_witness :
  has_with (_analyze_with_structure (sql Sample.orders)) = false
  /\ (exists s, count_sql_of None Sample.orders = Ok s
                /\ Str.occurs ("(" +:+ sql Sample.orders +:+ ")") s)
  /\ (exists s, header_sql_of None Sample.orders = Ok s
                /\ Str.occurs ("(" +:+ sql Sample.orders +:+ ")") s)
  /\ (exists s, create_batch_query None Sample.orders 2 0 ["a"; "b"] = Ok s
                /\ Str.occurs ("(" +:+ sql Sample.orders +:+ ")") s).
Proof.
  assert (H : has_with (_analyze_with_structure (sql Sample.orders)) = false)
    by (vm_compute; reflexivity).
  split; [exact H|].
  destruct (no_with_wraps_original None Sample.orders H) as (Hc & _ & Hh & _ & Hb & _).
  split; [exact Hc|]. split; [exact Hh|]. exact (Hb 2%Z 0%Z ["a"; "b"]).
Defined.

(** ** C4: the fallback count *)

(** Claim C4.  [_get_record_count_with_fallback] returns a number whatever
    the database does.  When the probe statement is answered with a row and
    its cursor closes, every count attempt fails or yields no value, and the
    connection is released, the number is the sentinel 1; when the probe is
    answered with no row, it is 0. *)
Theorem fallback_count_never_raises (cfg : option AppConfig) (db : Database) (t : nat)
    (qc : QueryConfig) (lrt : string) :
  (exists n, _get_record_count_with_fallback cfg db t qc lrt = Ok n)
  /\ (forall c cur r,
        db t (database_name qc) = Ok c ->
        (forall text, header_sql_of cfg qc = Ok text ->
           execute c 0 text (bound_params qc lrt) = Ok cur) ->
        fetchone cur = Ok (Some r) -> close cur = Ok tt ->
        (forall text, counts_nothing (execute c 1 text (bound_params qc lrt))) ->
        (forall text, counts_nothing (execute c 3 text (bound_params qc lrt))) ->
        release c = Ok tt ->
        _get_record_count_with_fallback cfg db t qc lrt = Ok 1%Z)
  /\ (forall c cur,
        db t (database_name qc) = Ok c ->
        (forall text, header_sql_of cfg qc = Ok text ->
           execute c 0 text (bound_params qc lrt) = Ok cur) ->
        fetchone cur = Ok None ->
        _get_record_count_with_fallback cfg db t qc lrt = Ok 0%Z).
Proof.
  split; [apply FallbackFacts.fallback_total|]. split.
  - intros c cur r. apply FallbackFacts.fallback_sentinel.
  - intros c cur. apply FallbackFacts.fallback_no_rows.
Qed.

Lemma fallback_count_never_raises_witness :
  Sample.probe_only_db 0%nat (database_name Sample.orders) = Ok Sample.probe_only
  /\ fetchone Sample.one_row = Ok (Some [CInt 7])
  /\ release Sample.probe_only = Ok tt
  /\ _get_record_count_with_fallback None Sample.probe_only_db 0 Sample.orders
       "2024-01-01 00:00:00" = Ok 1%Z.
Proof.
  split; [reflexivity|]. split; [reflexivity|]. split; [reflexivity|].
  apply (proj1 (proj2 (fallback_count_never_raises None Sample.probe_only_db 0
                         Sample.orders "2024-01-01 00:00:00"))
           Sample.probe_only Sample.one_row [CInt 7]).
  - reflexivity.
  - intros text _. reflexivity.
  - reflexivity.
  - reflexivity.
  - intros text n. cbn. discriminate.
  - intros text n. cbn. discriminate.
  - reflexivity.
Defined.

(** ** C5: the date range *)




(** What the substitution writes: the quotes of the range keep the
    backslashes of the raw template. *)
Example appended_range_text :
  apply_systemdate_range (sql Sample.full_load) Sample.enabled_range None
    "2024-03-01 00:00:00"
  = "SELECT a FROM T WHERE a > 1 AND SystemDate BETWEEN \'2024-01-01 00:00:00\' AND \'2024-02-01 00:00:00\'".
Proof. vm_compute. reflexivity. Qed.

(** WHERE is looked for as a run of letters: inside a word it is taken for
    the keyword, and when nothing follows it the text stays as it was. *)
Example where_inside_a_word :
  apply_systemdate_range "SELECT somewhere FROM T" Sample.enabled_range None
    "2024-03-01 00:00:00"
  = "SELECT someWHERE FROM T AND SystemDate BETWEEN \'2024-01-01 00:00:00\' AND \'2024-02-01 00:00:00\'"
  /\ apply_systemdate_range "SELECT a FROM T WHERE" Sample.enabled_range None
       "2024-03-01 00:00:00"
     = "SELECT a FROM T WHERE".
Proof. vm_compute. split; reflexivity. Qed.

(** ** C6: errors inside the batch loop *)



(** ** C7: the watermark *)



(** An aware maximum at the end of the calendar cannot be moved to JST. *)
Example aware_maximum_out_of_range :
  update_run_time Sample.no_iso
    (Sample.history {| wall := max_wall; tzinfo := Some 0%Z |}) 0 Sample.a_moment
  = Raise (OtherError "OverflowError").
Proof. vm_compute. reflexivity. Qed.

(** ** C8: the outer projection *)

(** Claim C8, as stated, fails: a header list that names a column rn puts
    that column into the outer projection. *)
Lemma rn_header_is_projected :
  ~ (forall (dt : string) (headers : list string),
       ~ In (quote_column dt "rn") (quoted_columns dt headers))
  /\ create_batch_query None Sample.numbered_orders 2 0 ["id"; "rn"]
     = Ok (Str.nl +:+ indent 16 +:+ "SELECT [id], [rn] FROM (" +:+ Str.nl
           +:+ indent 20 +:+ "SELECT *, ROW_NUMBER() OVER (ORDER BY id ASC) as rn " +:+ Str.nl
           +:+ indent 20 +:+ "FROM (SELECT id, rn FROM Orders) as subquery" +:+ Str.nl
           +:+ indent 16 +:+ ") as numbered " +:+ Str.nl
           +:+ indent 16 +:+ "WHERE rn > 0 AND rn <= 2" +:+ Str.nl +:+ indent 16).
Proof.
  split.
  - intros H. apply (H "mssql" ["id"; "rn"]). right. left. reflexivity.
  - vm_compute. reflexivity.
Qed.

(** Claim C8, amended.  The outer projection of every batch statement is
    the list of the supplied headers, each between the quotes of the
    dialect and joined by a comma and a blank; nothing is added to it and
    nothing is taken out of it, so that a column rn is projected exactly
    when the supplied headers name one. *)
Theorem batch_projection_is_headers (cfg : option AppConfig) (qc : QueryConfig)
    (batch_size offset : Z) (headers : list string) :
  let dt := _get_database_type cfg (database_name qc) in
  (forall s, create_batch_query cfg qc batch_size offset headers = Ok s ->
     Str.occurs ("SELECT " +:+ Str.join ", " (quoted_columns dt headers) +:+ " FROM (") s)
  /\ quoted_columns dt headers = List.map (quote_column dt) headers
  /\ List.length (quoted_columns dt headers) = List.length headers
  /\ (In (quote_column dt "rn") (quoted_columns dt headers) <-> In "rn" headers).
Proof.
  intros dt. split; [|split; [|split]].
  - intros s. unfold create_batch_query. fold dt.
    destruct (has_with (_analyze_with_structure (sql qc))).
    + apply ProjectionFacts.with_batch_projection.
    + unfold numbered_batch.
      destruct (is_mysql dt); intros [= <-]; exists (Str.nl +:+ indent 16);
        eexists; rewrite !StrFacts.app_assoc; reflexivity.
  - reflexivity.
  - apply List.length_map.
  - unfold quoted_columns. rewrite in_map_iff. split.
    + intros (h & Hq & Hin). apply ProjectionFacts.quote_column_inj in Hq. now subst.
    + intros Hin. exists "rn". auto.
Qed.

(** ** C9: the date range is patched into a copy *)

(** Claim C9.  [process_query_with_systemdate_range] leaves the original
    query definition, and every other object of the store, as it was.  The
    object it returns agrees with the original on name, description,
    timestamp column, primary key, target table, incremental flag and
    ordering column; it is either the original itself (when the copy could
    not be built) or a fresh object whose text is the date-ranged text for
    an incremental query with a timestamp column and the original text
    otherwise. *)
Theorem date_range_patches_a_copy (dflt : option string) (h : store) (qc : positive)
    (q : QueryConfig) (cfg : gmap string pyval) (lrt : option string) (now_text : string) :
  h !! qc = Some q ->
  let h' := fst (process_query_with_systemdate_range dflt h qc cfg lrt now_text) in
  let r := snd (process_query_with_systemdate_range dflt h qc cfg lrt now_text) in
  h' !! qc = Some q
  /\ (forall l x, h !! l = Some x -> h' !! l = Some x)
  /\ exists m,
       h' !! r = Some m
       /\ name m = name q /\ description m = description q
       /\ timestamp_column m = timestamp_column q /\ primary_key m = primary_key q
       /\ target_table m = target_table q /\ is_incremental m = is_incremental q
       /\ order_by_column m = order_by_column q
       /\ ((r = qc /\ m = q)
           \/ (h !! r = None
               /\ sql m = if is_incremental q && truthy_column (timestamp_column q)
                          then apply_systemdate_range (sql q) cfg lrt now_text
                          else sql q)).
Proof.
  intros Hq h' r. subst h' r. unfold process_query_with_systemdate_range. rewrite Hq.
  destruct dflt as [dbn|]; cbv zeta.
  - pose proof (StoreFacts.fresh_not_in h) as Hf.
    assert (Hne : fresh (dom h) <> qc) by (intros E; rewrite E in Hf; congruence).
    assert (Hframe : forall l x, h !! l = Some x -> fresh (dom h) <> l).
    { intros l x Hl E. rewrite E in Hf. congruence. }
    destruct (is_incremental q && truthy_column (timestamp_column q)) eqn:Hc; cbn [fst snd].
    + split; [|split].
      * rewrite lookup_alter_ne by exact Hne. rewrite lookup_insert_ne by exact Hne. exact Hq.
      * intros l x Hl. pose proof (Hframe l x Hl).
        rewrite lookup_alter_ne by assumption. now rewrite lookup_insert_ne by assumption.
      * eexists. split.
        { rewrite lookup_alter_eq, lookup_insert_eq. reflexivity. }
        cbn. do 7 (split; [reflexivity|]). right. split; [exact Hf | reflexivity].
    + split; [|split].
      * rewrite lookup_insert_ne by exact Hne. exact Hq.
      * intros l x Hl. pose proof (Hframe l x Hl).
        now rewrite lookup_insert_ne by assumption.
      * eexists. split; [apply lookup_insert_eq|].
        cbn. do 7 (split; [reflexivity|]). right. split; [exact Hf | reflexivity].
  - cbn [fst snd]. split; [exact Hq|]. split; [auto|].
    exists q. split; [exact Hq|]. do 7 (split; [reflexivity|]). left. auto.
Qed.

Lemma date_range_patches_a_copy_witness :
  ({[ 1%positive := Sample.orders ]} : store) !! 1%positive = Some Sample.orders
  /\ fst (process_query_with_systemdate_range (Some "main_db")
            {[ 1%positive := Sample.orders ]} 1 Sample.enabled_range None
            "2024-03-01 00:00:00") !! 1%positive
     = Some Sample.orders.
Proof.
  assert (H : ({[ 1%positive := Sample.orders ]} : store) !! 1%positive = Some Sample.orders)
    by apply lookup_singleton_eq.
  split; [exact H|].
  exact (proj1 (date_range_patches_a_copy (Some "main_db") {[ 1%positive := Sample.orders ]}
                  1 Sample.orders Sample.enabled_range None "2024-03-01 00:00:00" H)).
Defined.

(** The copy of the sample query carries the date-ranged text and the
    original keeps its own. *)
Example date_range_copy :
  let out := process_query_with_systemdate_range (Some "main_db")
               {[ 1%positive := Sample.orders ]} 1 Sample.enabled_range None
               "2024-03-01 00:00:00" in
  sql <$> (fst out !! snd out)
  = Some "SELECT a, b FROM T WHERE ts > '2024-01-01 00:00:00'"
  /\ sql <$> (fst out !! 1%positive)
     = Some "SELECT a, b FROM T WHERE ts > :last_run_time"
  /\ snd out <> 1%positive.
Proof. vm_compute. repeat split; try reflexivity. discriminate. Qed.

(** ** C10: a failing watermark query *)

(** Claim C10.  [get_max_system_date] never raises: it returns [None] when
    the aggregate yields no value, and also when the database cannot be
    reached, when the statement fails, and when a text result cannot be
    read as a timestamp.  In each of these cases the watermark computed at
    the end of the run is the current time and no error is raised. *)
Theorem watermark_query_failure_is_silent (iso : string -> outcome datetime)
    (qp : Processor) (t : nat) (now : datetime) :
  let fallback := Ok (replace_microsecond_0 now) in
  let query := "SELECT MAX(SystemDate) FROM HistoryMainline" in
  (forall dbn, exists r, get_max_system_date iso (database qp) t dbn = Ok r)
  /\ (get_max_system_date iso (database qp) t "main_db" = Ok None ->
      update_run_time iso qp t now = fallback)
  /\ (forall e, database qp t "main_db" = Raise e ->
        get_max_system_date iso (database qp) t "main_db" = Ok None
        /\ update_run_time iso qp t now = fallback)
  /\ (forall c e, database qp t "main_db" = Ok c -> execute c 0 query None = Raise e ->
        get_max_system_date iso (database qp) t "main_db" = Ok None
        /\ update_run_time iso qp t now = fallback)
  /\ (forall c cur s e, database qp t "main_db" = Ok c -> execute c 0 query None = Ok cur ->
        scalar cur = Ok (Some (CStr s)) -> iso s = Raise e ->
        get_max_system_date iso (database qp) t "main_db" = Ok None
        /\ update_run_time iso qp t now = fallback)
  /\ (forall c cur, database qp t "main_db" = Ok c -> execute c 0 query None = Ok cur ->
        scalar cur = Ok None ->
        get_max_system_date iso (database qp) t "main_db" = Ok None
        /\ update_run_time iso qp t now = fallback).
Proof.
  intros fallback query.
  assert (F : get_max_system_date iso (database qp) t "main_db" = Ok None ->
              update_run_time iso qp t now = fallback).
  { intros H. unfold update_run_time. now rewrite H. }
  split; [intros dbn; apply WatermarkFacts.max_system_date_total|].
  split; [exact F|].
  split; [intros e H; split; [|apply F];
          eapply WatermarkFacts.max_system_date_unreachable; eauto|].
  split; [intros c e H1 H2; split; [|apply F];
          eapply WatermarkFacts.max_system_date_execute_fails; eauto|].
  split; [intros c cur s e H1 H2 H3 H4; split; [|apply F];
          eapply WatermarkFacts.max_system_date_unreadable; eauto|].
  intros c cur H1 H2 H3; split; [|apply F];
    eapply WatermarkFacts.max_system_date_no_value; eauto.
Qed.

Lemma watermark_query_failure_is_silent_witness :
  database Sample.down 0%nat "main_db" = Raise (OtherError "connection refused")
  /\ get_max_system_date Sample.no_iso (database Sample.down) 0 "main_db" = Ok None
  /\ update_run_time Sample.no_iso Sample.down 0 Sample.a_moment
     = Ok (replace_microsecond_0 Sample.a_moment).
Proof.
  split; [reflexivity|].
  apply (proj1 (proj2 (proj2 (watermark_query_failure_is_silent Sample.no_iso Sample.down
                                0 Sample.a_moment)))
           (OtherError "connection refused")).
  reflexivity.
Defined.

(** * Further properties

    The batch loop over a whole run of batches, the counts and probes,
    one query and the run over all queries, the configuration manager,
    and the patterns of the analysis. *)

Module BatchFacts.
Import Db DataProcessor Batches.

Section Completed.

Variables (env : Collaborators) (qp : Processor) (data_path : string)
  (qc : QueryConfig) (headers : list string) (lrt : string)
  (bs : Z) (ts : string).

Local Abbreviation loop rc fuel i st :=
  (batch_loop fuel env qp data_path qc headers lrt bs ts rc (excluded qc) i st).
Local Abbreviation reach rc := (reaches env qp data_path qc headers lrt bs ts rc).
Local Abbreviation rows j := (rows_of qp qc headers lrt bs j).
Local Abbreviation bytes j := (bytes_of env qp data_path qc headers lrt bs ts j).
Local Abbreviation done j := (completes env qp data_path qc headers lrt bs ts j).

Local Abbreviation after k := (Batches.after env qp data_path qc headers lrt bs ts k).

Lemma reaches_unique rc i st st' : reach rc i st -> reach rc i st' -> st = st'.
Proof.
  intros H. revert st'. induction H as [|i st q st1 H IH Hg Hq Hb]; intros st' H'.
  - now inversion H'.
  - inversion H' as [|i' st2 q2 st2' Ha' Hg2 Hq2 Hb2]; subst.
    pose proof (IH _ Ha') as <-. congruence.
Qed.

Lemma completed_reaches rc k :
  rc <> 0%Z -> (forall j, (j < k)%nat -> done j) -> reach rc k (after k).
Proof.
  intros Hrc. induction k as [|k IH]; intros H; [constructor|].
  destruct (H k ltac:(lia)) as (Hg & r & rws & n & Hb & Hu).
  unfold batch_at in Hb.
  destruct (QueryProcessor.create_batch_query _ _ _ _ _) as [q|] eqn:Hq;
    [|discriminate]. cbn [bind] in Hb.
  eapply reaches_next with (st := after k) (batch_query := q).
  - apply IH. intros j Hj. apply H. lia.
  - exact Hg.
  - exact Hq.
  - unfold try_block. rewrite Hb.
    unfold upload_at, file_of in Hu.
    destruct (create_csv_data _ _ _ _ _) as [csv|] eqn:Hc; [|discriminate].
    cbn [bind] in Hu. cbn [Batches.after batch_number offset processed_rows query_total_size].
    rewrite Hu. destruct (Z.eqb_spec rc 0) as [|_]; [contradiction|].
    f_equal. unfold Batches.after. cbn [total].
    assert (Hr : rows k = r :: rws).
    { unfold rows_of, batch_at. rewrite Hq. cbn [bind]. now rewrite Hb. }
    assert (Hy : bytes k = n).
    { unfold bytes_of. rewrite Hr. unfold upload_at, file_of. rewrite Hc.
      cbn [bind]. now rewrite Hu. }
    rewrite Hr, Hy. f_equal; lia.
Qed.

Lemma loop_count_free rc rc' :
  rc <> 0%Z -> rc' <> 0%Z ->
  forall fuel i st, loop rc fuel i st = loop rc' fuel i st.
Proof.
  intros H H'. induction fuel as [|fuel IH]; intros i st; [reflexivity|].
  cbn [batch_loop].
  destruct (check_execution_apply env i) as [[]|]; try reflexivity.
  destruct (QueryProcessor.create_batch_query _ _ _ _ _) as [q|]; try reflexivity.
  unfold try_block.
  destruct (QueryProcessor.execute_batch _ _ _ _ _) as [[|r rws]|]; try reflexivity.
  destruct (create_csv_data _ _ _ _ _); try reflexivity.
  destruct (upload_batch _ _ _ _ _ _); try reflexivity.
  destruct (Z.eqb_spec rc 0), (Z.eqb_spec rc' 0); try contradiction.
  apply IH.
Qed.

Lemma loop_goes_on rc :
  rc <> 0%Z -> (forall j, done j) ->
  forall fuel k, loop rc fuel k (after k) = None.
Proof.
  intros Hrc H. induction fuel as [|fuel IH]; intros k; [reflexivity|].
  pose proof (completed_reaches rc (S k) Hrc (fun j _ => H j)) as Hr.
  inversion Hr as [|i st q st' Hr' Hg Hq Hb Hi Hst]; subst.
  assert (st = after k)
    by exact (reaches_unique rc k _ _ Hr' (completed_reaches rc k Hrc (fun j _ => H j))).
  subst st. cbn [batch_loop]. rewrite Hg, Hq, Hb. apply IH.
Qed.

(** The loop ends where the first empty batch comes. *)
Lemma loop_ends_empty rc k fuel :
  rc <> 0%Z -> (forall j, (j < k)%nat -> done j) ->
  check_execution_apply env k = Ok true ->
  batch_at qp qc headers lrt bs k = Ok [] ->
  (k < fuel)%nat ->
  loop rc fuel 0%nat start = Some (Ok (after k)).
Proof.
  intros Hrc Hdone Hg Hb Hf.
  pose proof (completed_reaches rc k Hrc Hdone) as Hr.
  replace fuel with (k + S (fuel - S k))%nat by lia.
  rewrite (LoopFacts.loop_reaches _ _ _ _ _ _ _ _ _ _ _ Hr).
  cbn [batch_loop]. rewrite Hg.
  unfold batch_at in Hb. cbn [Batches.after offset].
  destruct (QueryProcessor.create_batch_query _ _ _ _ _) as [q|]; [|discriminate].
  cbn [bind] in Hb. unfold try_block. now rewrite Hb.
Qed.

End Completed.

End BatchFacts.

Module CountFacts.
Import Db QueryProcessor Counts.

Lemma count_sql_of_create cfg qc :
  count_sql_of cfg qc
  = _create_with_count_query (sql qc) (_get_database_type cfg (database_name qc)).
Proof.
  unfold count_sql_of, _create_with_count_query, _adjust_parameter_placeholder.
  now destruct (has_with (_analyze_with_structure (sql qc))).
Qed.

Lemma retry_total cfg db t qc lrt : exists n, _retry_record_count cfg db t qc lrt = Ok n.
Proof.
  unfold _retry_record_count, try_except.
  match goal with |- exists n, match ?b with _ => _ end = _ => destruct b end; eauto.
Qed.

End CountFacts.

Module ConfigFacts.
Import QueryProcessor ConfigManager.

Lemma load_raises_config_error cm cm' e :
  _load_gcs_config cm = (cm', Raise e) -> e = ConfigError.
Proof.
  unfold _load_gcs_config.
  destruct (gcs_manager cm) as [load|]; [|now intros [= _ <-]].
  destruct (_gcs_config cm); [discriminate|].
  destruct (load (loads cm)); [discriminate|]. now intros [= _ <-].
Qed.

Lemma load_cached cm load c :
  gcs_manager cm = Some load -> _gcs_config cm = Some c ->
  _load_gcs_config cm = (cm, Ok c).
Proof. intros H1 H2. unfold _load_gcs_config. now rewrite H1, H2. Qed.

End ConfigFacts.

Module RunFacts.
Import Db QueryProcessor DataProcessor ConfigManager Counts Run.

Lemma ranged_fields dflt q sc lrt now :
  let q' := ranged dflt q sc lrt now in
  name q' = name q /\ target_table q' = target_table q
  /\ is_incremental q' = is_incremental q
  /\ timestamp_column q' = timestamp_column q
  /\ order_by_column q' = order_by_column q
  /\ (forall d, dflt = Some d -> database_name q' = d)
  /\ (forall d, dflt = Some d ->
       sql q' = if is_incremental q && truthy_column (timestamp_column q)
                then apply_systemdate_range (sql q) sc lrt now else sql q).
Proof.
  unfold ranged, process_query_with_systemdate_range.
  rewrite lookup_singleton_eq.
  destruct dflt as [d|]; [|cbn; rewrite lookup_singleton_eq; cbn; repeat split; congruence].
  set (r := fresh (dom _)).
  destruct (is_incremental q && truthy_column (timestamp_column q)).
  - rewrite lookup_alter_eq, lookup_insert_eq. cbn. repeat split; congruence.
  - rewrite lookup_insert_eq. cbn. repeat split; congruence.
Qed.

Lemma batches_named fuel env qp dp qc headers lrt bs ts rc r :
  _process_batches fuel env qp dp qc headers lrt bs ts rc = Some (Ok r) ->
  query_name r = name qc.
Proof.
  unfold _process_batches. destruct qp; [|discriminate].
  destruct (bs =? 0)%Z; [discriminate|].
  destruct (batch_loop _ _ _ _ _ _ _ _ _ _ _ _ _) as [[st|]|]; try discriminate.
  now intros [= <-].
Qed.

Lemma process_query_named fuel keys env qp cm dflt now dp q lrt bs ts cm' r :
  process_query fuel keys env qp cm dflt now dp q lrt bs ts = Some (cm', Ok (Some r)) ->
  query_name r = name q.
Proof.
  unfold process_query. destruct qp as [p|]; [|discriminate].
  destruct cm as [cm|]; [|discriminate].
  destruct (get_systemdate_config cm) as [cm1 [sc|]]; [|discriminate].
  set (q' := if bool_decide (sc = ∅) then q else _).
  assert (Hn : name q' = name q).
  { subst q'. destruct (bool_decide _); [reflexivity|]. apply ranged_fields. }
  destruct (get_record_count _ _ _ _ _) as [n|]; [|discriminate].
  destruct (n =? 0)%Z; [now intros [= _ <-]|].
  destruct (get_headers _ _ _ _ _ _) as [[|h hs]|]; try discriminate.
  destruct (_process_batches _ _ _ _ _ _ _ _ _ _) as [[res|]|] eqn:E; try discriminate.
  intros [= _ <-]. rewrite <- Hn. eapply batches_named, E.
Qed.

Lemma query_loop_consistent fuel keys envs cfg dbs dflt now dp lrt bs ts :
  forall queries j cm done cm' done',
    consistent (dp +:+ "/" +:+ ts) done ->
    query_loop fuel keys envs cfg dbs dflt now dp lrt bs ts j queries cm done
    = Some (cm', Ok done') ->
    consistent (dp +:+ "/" +:+ ts) done'.
Proof.
  induction queries as [|q queries IH]; intros j cm done cm' done' Hc; cbn [query_loop].
  - now intros [= _ <-].
  - destruct (process_query _ _ _ _ _ _ _ _ _ _ _ _) as [[cm1 [[r|]|]]|] eqn:E;
      try discriminate.
    + apply IH. apply process_query_named in E. destruct Hc as [H1 H2].
      split; cbn [uploaded_queries processing_results directories].
      * rewrite H1, List.map_app. cbn. now rewrite E.
      * rewrite List.filter_app, List.map_app. cbn [List.filter].
        destruct (row_count r =? 0)%Z.
        -- cbn. now rewrite H2, E.
        -- cbn. now rewrite List.app_nil_r.
    + now apply IH.
Qed.

Lemma query_loop_names fuel keys envs cfg dbs dflt now dp lrt bs ts :
  forall queries j cm done cm' done',
    query_loop fuel keys envs cfg dbs dflt now dp lrt bs ts j queries cm done
    = Some (cm', Ok done') ->
    exists kept, sublist kept queries
      /\ uploaded_queries done' = (uploaded_queries done ++ List.map name kept)%list.
Proof.
  induction queries as [|q queries IH]; intros j cm done cm' done'; cbn [query_loop].
  - intros [= _ <-]. exists []. split; [constructor|]. now rewrite List.app_nil_r.
  - destruct (process_query _ _ _ _ _ _ _ _ _ _ _ _) as [[cm1 [[r|]|]]|] eqn:E;
      try discriminate.
    + intros H. apply IH in H as (kept & Hs & Hu). exists (q :: kept).
      split; [now constructor|]. rewrite Hu. cbn [uploaded_queries].
      now rewrite <- List.app_assoc.
    + intros H. apply IH in H as (kept & Hs & Hu). exists kept.
      split; [now constructor|]. exact Hu.
Qed.

End RunFacts.

Module RedirectFacts.
Import Db QueryProcessor DataProcessor ConfigManager Counts Run.

Section Same.

Variables (qp qp' : Processor) (d : string).
Hypothesis Hcfg : app_config qp = app_config qp'.
Hypothesis Hdb : forall t, database qp t d = database qp' t d.

Lemma loop_same env dp qc headers lrt bs ts rc excl n :
  database_name qc = d ->
  forall fuel i st,
    batch_loop fuel env (later n qp) dp qc headers lrt bs ts rc excl i st
    = batch_loop fuel env (later n qp') dp qc headers lrt bs ts rc excl i st.
Proof.
  intros Hd. induction fuel as [|fuel IH]; intros i st; [reflexivity|].
  cbn [batch_loop]. destruct (check_execution_apply env i) as [[]|]; try reflexivity.
  cbn [later app_config]. rewrite <- Hcfg.
  destruct (create_batch_query _ _ _ _ _) as [q|]; try reflexivity.
  unfold try_block, execute_batch. cbn [later database]. rewrite Hd, <- Hdb.
  destruct (let! connection := database qp (n + i) d in _) as [[|r rws]|];
    try reflexivity.
  destruct (create_csv_data _ _ _ _ _); try reflexivity.
  destruct (upload_batch _ _ _ _ _ _); try reflexivity.
  destruct (rc =? 0)%Z; [reflexivity|]. apply IH.
Qed.

End Same.

End RedirectFacts.

Module LoopOverQueries.
Import Db QueryProcessor DataProcessor ConfigManager Counts Run.

Lemma query_loop_stops fuel keys envs cfg dbs dflt now dp lrt bs ts e :
  forall pre j cm done cmj donej q post cm',
    query_loop fuel keys envs cfg dbs dflt now dp lrt bs ts j pre cm done
    = Some (cmj, Ok donej) ->
    process_query fuel keys (envs (j + List.length pre)%nat)
      (Some {| app_config := cfg; database := dbs (j + List.length pre)%nat |})
      cmj dflt (now (j + List.length pre)%nat) dp q lrt bs ts = Some (cm', Raise e) ->
    query_loop fuel keys envs cfg dbs dflt now dp lrt bs ts j (pre ++ q :: post)%list cm done
    = Some (cm', Raise e).
Proof.
  induction pre as [|p pre IH]; intros j cm done cmj donej q post cm'.
  - cbn [query_loop List.length app]. intros [= <- <-]. rewrite Nat.add_0_r.
    now intros ->.
  - cbn [query_loop List.length app].
    replace (j + S (List.length pre))%nat with (S j + List.length pre)%nat by lia.
    destruct (process_query _ _ _ _ _ _ _ _ p _ _ _) as [[cm1 [[r|]|]]|];
      try discriminate; apply IH.
Qed.

End LoopOverQueries.

Module ManagerFacts.
Import QueryProcessor ConfigManager.

Lemma item_names {A} (d : list (string * A)) k :
  is_Some (item d k) <-> k ∈ List.map fst d.
Proof.
  induction d as [|[k' v] d IH]; cbn [item List.map fst].
  - split; [intros [? [=]]|intros H; inversion H].
  - rewrite elem_of_cons. destruct (String.eqb_spec k' k) as [->|Hne].
    + split; [now left|eauto].
    + rewrite IH. split; [now right|intros [->|]; [contradiction|assumption]].
Qed.

Lemma construct_raises new l e :
  construct new l = Raise e -> exists kw, kw ∈ l /\ new kw = Raise e.
Proof.
  induction l as [|kw l IH]; cbn [construct]; [discriminate|].
  destruct (new kw) as [q|e'] eqn:E; cbn [bind].
  - destruct (construct new l) as [qs|e'']; cbn [bind]; [discriminate|].
    intros [= ->]. destruct (IH eq_refl) as (kw' & Hin & Hr).
    exists kw'. split; [now right|exact Hr].
  - intros [= ->]. exists kw. split; [now left|exact E].
Qed.

Lemma construct_length new l qs :
  construct new l = Ok qs -> List.length qs = List.length l.
Proof.
  revert qs. induction l as [|kw l IH]; intros qs; cbn [construct].
  - now intros [= <-].
  - destruct (new kw); cbn [bind]; [|discriminate].
    destruct (construct new l) as [qs'|]; cbn [bind]; [|discriminate].
    intros [= <-]. cbn. f_equal. now apply IH.
Qed.

End ManagerFacts.

(** The matching engine: the end of a match does not depend on the
    capture groups, success is monotone in the continuation, and a
    successful run splits the subject. *)

Module EngineFacts.
Import Re.

Local Abbreviation body_t :=
  (list ascii -> nat -> captures -> cont -> option (nat * captures)).

Lemma iterate_same_end (body : body_t) g k1 k2 :
  (forall k1' k2',
     (forall s p c1 c2, option_map fst (k1' s p c1) = option_map fst (k2' s p c2)) ->
     forall s p c1 c2,
       option_map fst (body s p c1 k1') = option_map fst (body s p c2 k2')) ->
  (forall s p c1 c2, option_map fst (k1 s p c1) = option_map fst (k2 s p c2)) ->
  forall fuel s p c1 c2,
    option_map fst (iterate body g k1 fuel s p c1)
    = option_map fst (iterate body g k2 fuel s p c2).
Proof.
  intros Hb Hk. induction fuel as [|fuel IH]; intros s p c1 c2; cbn [iterate];
    [apply Hk|].
  pose proof (Hb (fun s' p' cs' =>
                    if (p <? p')%nat then iterate body g k1 fuel s' p' cs' else None)
                 (fun s' p' cs' =>
                    if (p <? p')%nat then iterate body g k2 fuel s' p' cs' else None)
                 ltac:(intros s' p' c1' c2'; cbv beta; destruct (p <? p')%nat;
                       [apply IH|reflexivity]) s p c1 c2) as Hm.
  pose proof (Hk s p c1 c2) as Hk'.
  destruct g.
  - destruct (body s p c1 _) as [x|], (body s p c2 _) as [y|]; cbn in Hm |- *;
      try discriminate; [exact Hm|exact Hk'].
  - destruct (k1 s p c1) as [x|], (k2 s p c2) as [y|]; cbn in Hk' |- *;
      try discriminate; [exact Hk'|exact Hm].
Qed.

Lemma one_same_end ok k1 k2 :
  (forall s p c1 c2, option_map fst (k1 s p c1) = option_map fst (k2 s p c2)) ->
  forall s p c1 c2,
    option_map fst (one ok s p c1 k1) = option_map fst (one ok s p c2 k2).
Proof.
  intros Hk [|c s] p c1 c2; cbn [one]; [reflexivity|].
  destruct (ok c); [apply Hk|reflexivity].
Qed.

(** Where a match ends does not depend on what the groups captured. *)
Lemma run_same_end fl r : forall k1 k2,
  (forall s p c1 c2, option_map fst (k1 s p c1) = option_map fst (k2 s p c2)) ->
  forall s p c1 c2,
    option_map fst (run fl r s p c1 k1) = option_map fst (run fl r s p c2 k2).
Proof.
  induction r as [ |a| | | |r1 IH1 r2 IH2|g r IH|g r IH|i r IH];
    intros k1 k2 Hk s p c1 c2; cbn [run].
  - apply Hk.
  - now apply one_same_end.
  - now apply one_same_end.
  - now apply one_same_end.
  - now apply one_same_end.
  - apply IH1. intros. now apply IH2.
  - apply iterate_same_end; [intros; now apply IH|exact Hk].
  - apply IH. intros. apply iterate_same_end; [intros; now apply IH|exact Hk].
  - apply IH. intros. apply Hk.
Qed.

Lemma same_end_Cat fl r r2 r2' k1 k2 :
  (forall s p c1 c2,
     option_map fst (run fl r2 s p c1 k1) = option_map fst (run fl r2' s p c2 k2)) ->
  forall s p c1 c2,
    option_map fst (run fl (Cat r r2) s p c1 k1)
    = option_map fst (run fl (Cat r r2') s p c2 k2).
Proof. intros H s p c1 c2. cbn [run]. now apply run_same_end. Qed.

Lemma same_end_Grp_l fl i r r2 r2' k1 k2 :
  (forall s p c1 c2,
     option_map fst (run fl r2 s p c1 k1) = option_map fst (run fl r2' s p c2 k2)) ->
  forall s p c1 c2,
    option_map fst (run fl (Cat (Grp i r) r2) s p c1 k1)
    = option_map fst (run fl (Cat r r2') s p c2 k2).
Proof. intros H s p c1 c2. cbn [run]. apply run_same_end. intros. apply H. Qed.

Lemma same_end_Grp_r fl i r r2 r2' k1 k2 :
  (forall s p c1 c2,
     option_map fst (run fl r2 s p c1 k1) = option_map fst (run fl r2' s p c2 k2)) ->
  forall s p c1 c2,
    option_map fst (run fl (Cat r r2) s p c1 k1)
    = option_map fst (run fl (Cat (Grp i r) r2') s p c2 k2).
Proof. intros H s p c1 c2. cbn [run]. apply run_same_end. intros. apply H. Qed.

Lemma same_end_last_l fl r r2' (k1 : cont) k2 :
  (forall s p c1 c2,
     option_map fst (k1 s p c1) = option_map fst (run fl r2' s p c2 k2)) ->
  forall s p c1 c2,
    option_map fst (run fl r s p c1 k1)
    = option_map fst (run fl (Cat r r2') s p c2 k2).
Proof. intros H s p c1 c2. cbn [run]. apply run_same_end. intros. apply H. Qed.

Lemma same_end_Grp_both fl i j r :
  forall s p c1 c2,
    option_map fst (run fl (Grp i r) s p c1 (fun _ p' cs' => Some (p', cs')))
    = option_map fst (run fl (Grp j r) s p c2 (fun _ p' cs' => Some (p', cs'))).
Proof. intros. cbn [run]. apply run_same_end. reflexivity. Qed.

(** *** Success is monotone in the continuation *)

Lemma iterate_mono (body : body_t) g (k1 k2 : cont) :
  (forall k1' k2' : cont,
     (forall s p c1 c2, is_Some (k1' s p c1) -> is_Some (k2' s p c2)) ->
     forall s p c1 c2, is_Some (body s p c1 k1') -> is_Some (body s p c2 k2')) ->
  (forall s p c1 c2, is_Some (k1 s p c1) -> is_Some (k2 s p c2)) ->
  forall fuel s p c1 c2,
    is_Some (iterate body g k1 fuel s p c1) -> is_Some (iterate body g k2 fuel s p c2).
Proof.
  intros Hb Hk. induction fuel as [|fuel IH]; intros s p c1 c2; cbn [iterate];
    [apply Hk|].
  pose proof (Hb (fun s' p' cs' =>
                    if (p <? p')%nat then iterate body g k1 fuel s' p' cs' else None)
                 (fun s' p' cs' =>
                    if (p <? p')%nat then iterate body g k2 fuel s' p' cs' else None)
                 ltac:(intros s' p' c1' c2'; cbv beta; destruct (p <? p')%nat;
                       [apply IH|intros [? [=]]]) s p c1 c2) as Hm.
  pose proof (Hk s p c1 c2) as Hk'.
  destruct g.
  - destruct (body s p c1 _) as [x|].
    + intros _. destruct Hm as [y ->]; eauto.
    + intros H. destruct (body s p c2 _); eauto.
  - destruct (k1 s p c1) as [x|].
    + intros _. destruct Hk' as [y ->]; eauto.
    + intros H. destruct (k2 s p c2); eauto.
Qed.

Lemma one_mono ok (k1 k2 : cont) :
  (forall s p c1 c2, is_Some (k1 s p c1) -> is_Some (k2 s p c2)) ->
  forall s p c1 c2, is_Some (one ok s p c1 k1) -> is_Some (one ok s p c2 k2).
Proof.
  intros Hk [|c s] p c1 c2; cbn [one]; [easy|]. destruct (ok c); [apply Hk|easy].
Qed.

Lemma run_mono fl r : forall k1 k2 : cont,
  (forall s p c1 c2, is_Some (k1 s p c1) -> is_Some (k2 s p c2)) ->
  forall s p c1 c2, is_Some (run fl r s p c1 k1) -> is_Some (run fl r s p c2 k2).
Proof.
  induction r as [ |a| | | |r1 IH1 r2 IH2|g r IH|g r IH|i r IH];
    intros k1 k2 Hk s p c1 c2; cbn [run].
  - apply Hk.
  - now apply one_mono.
  - now apply one_mono.
  - now apply one_mono.
  - now apply one_mono.
  - apply IH1. intros ? ? ? ?. now apply IH2.
  - apply iterate_mono; [intros ? ? ?; now apply IH|exact Hk].
  - apply IH. intros ? ? ? ?. apply iterate_mono; [intros ? ? ?; now apply IH|exact Hk].
  - apply IH. intros ? ? ? ?. apply Hk.
Qed.

Lemma mono_Cat fl r r2 r2' (k1 k2 : cont) :
  (forall s p c1 c2, is_Some (run fl r2 s p c1 k1) -> is_Some (run fl r2' s p c2 k2)) ->
  forall s p c1 c2,
    is_Some (run fl (Cat r r2) s p c1 k1) -> is_Some (run fl (Cat r r2') s p c2 k2).
Proof. intros H s p c1 c2. cbn [run]. now apply run_mono. Qed.

(** *** A successful run splits the subject *)

Lemma one_inv ok s p cs (k : cont) x :
  one ok s p cs k = Some x ->
  exists c s', s = c :: s' /\ ok c = true /\ k s' (S p) cs = Some x.
Proof.
  destruct s as [|c s]; cbn [one]; [discriminate|].
  destruct (ok c) eqn:E; [|discriminate]. eauto.
Qed.

Lemma iterate_one_inv ok g (k : cont) x :
  forall fuel s p cs,
    iterate (one ok) g k fuel s p cs = Some x ->
    exists a s', s = (a ++ s')%list /\ forallb ok a = true
                 /\ k s' (p + List.length a)%nat cs = Some x.
Proof.
  induction fuel as [|fuel IH]; intros s p cs; cbn [iterate].
  - intros H. exists [], s. rewrite Nat.add_0_r. auto.
  - assert (Hz : k s p cs = Some x ->
                 exists a s', s = (a ++ s')%list /\ forallb ok a = true
                              /\ k s' (p + List.length a)%nat cs = Some x).
    { intros H. exists [], s. rewrite Nat.add_0_r. auto. }
    assert (Hm : one ok s p cs
                   (fun s' p' cs' =>
                      if (p <? p')%nat then iterate (one ok) g k fuel s' p' cs' else None)
                 = Some x ->
                 exists a s', s = (a ++ s')%list /\ forallb ok a = true
                              /\ k s' (p + List.length a)%nat cs = Some x).
    { intros H. apply one_inv in H as (c & s1 & -> & Hc & H).
      cbv beta in H. destruct (p <? S p)%nat; [|discriminate].
      apply IH in H as (a & s' & -> & Ha & H).
      exists (c :: a), s'. cbn [app forallb List.length]. rewrite Hc, Ha.
      repeat split. now replace (p + S (List.length a))%nat with (S p + List.length a)%nat
        by lia. }
    destruct g.
    + destruct (one ok s p cs _) as [y|] eqn:E; [intros [= ->]; now apply Hm|exact Hz].
    + destruct (k s p cs) as [y|] eqn:E; [intros [= ->]; now apply Hz|exact Hm].
Qed.

Lemma iterate_inv (body : body_t) g (k : cont) x :
  (forall (k' : cont) s p cs,
     body s p cs k' = Some x ->
     exists a s' cs', s = (a ++ s')%list /\ k' s' (p + List.length a)%nat cs' = Some x) ->
  forall fuel s p cs,
    iterate body g k fuel s p cs = Some x ->
    exists a s' cs', s = (a ++ s')%list /\ k s' (p + List.length a)%nat cs' = Some x.
Proof.
  intros Hb. induction fuel as [|fuel IH]; intros s p cs; cbn [iterate].
  - intros H. exists [], s, cs. rewrite Nat.add_0_r. auto.
  - assert (Hz : k s p cs = Some x ->
                 exists a s' cs', s = (a ++ s')%list
                                  /\ k s' (p + List.length a)%nat cs' = Some x).
    { intros H. exists [], s, cs. rewrite Nat.add_0_r. auto. }
    assert (Hm : body s p cs
                   (fun s' p' cs' =>
                      if (p <? p')%nat then iterate body g k fuel s' p' cs' else None)
                 = Some x ->
                 exists a s' cs', s = (a ++ s')%list
                                  /\ k s' (p + List.length a)%nat cs' = Some x).
    { intros H. apply Hb in H as (a & s1 & cs1 & -> & H).
      cbv beta in H. destruct (p <? p + List.length a)%nat; [|discriminate].
      apply IH in H as (a' & s' & cs' & -> & H).
      exists (a ++ a')%list, s', cs'. rewrite List.length_app, <- List.app_assoc.
      split; [reflexivity|]. now rewrite Nat.add_assoc. }
    destruct g.
    + destruct (body s p cs _) as [y|] eqn:E; [intros [= ->]; now apply Hm|exact Hz].
    + destruct (k s p cs) as [y|] eqn:E; [intros [= ->]; now apply Hz|exact Hm].
Qed.

Lemma run_inv fl r x : forall (k : cont) s p cs,
  run fl r s p cs k = Some x ->
  exists a s' cs', s = (a ++ s')%list /\ k s' (p + List.length a)%nat cs' = Some x.
Proof.
  assert (H1 : forall ok (k : cont) s p cs,
             one ok s p cs k = Some x ->
             exists a s' cs', s = (a ++ s')%list
                              /\ k s' (p + List.length a)%nat cs' = Some x).
  { intros ok k s p cs H. apply one_inv in H as (c & s' & -> & _ & H).
    exists [c], s', cs. cbn [app List.length]. split; [reflexivity|].
    now replace (p + 1)%nat with (S p) by lia. }
  induction r as [ |a| | | |r1 IH1 r2 IH2|g r IH|g r IH|i r IH];
    intros k s p cs; cbn [run]; try apply H1.
  - intros H. exists [], s, cs. rewrite Nat.add_0_r. auto.
  - intros H. apply IH1 in H as (a1 & s1 & cs1 & -> & H).
    apply IH2 in H as (a2 & s2 & cs2 & -> & H).
    exists (a1 ++ a2)%list, s2, cs2. rewrite List.length_app, <- List.app_assoc.
    split; [reflexivity|]. now rewrite Nat.add_assoc.
  - apply iterate_inv. intros k'. apply IH.
  - intros H. apply IH in H as (a1 & s1 & cs1 & -> & H).
    apply iterate_inv in H as (a2 & s2 & cs2 & -> & H); [|intros k'; apply IH].
    exists (a1 ++ a2)%list, s2, cs2. rewrite List.length_app, <- List.app_assoc.
    split; [reflexivity|]. now rewrite Nat.add_assoc.
  - intros H. apply IH in H as (a & s' & cs' & -> & H). eauto.
Qed.

Lemma iterate_inv_groupless (body : body_t) g (k : cont) x :
  (forall (k' : cont) s p cs,
     body s p cs k' = Some x ->
     exists a s', s = (a ++ s')%list /\ k' s' (p + List.length a)%nat cs = Some x) ->
  forall fuel s p cs,
    iterate body g k fuel s p cs = Some x ->
    exists a s', s = (a ++ s')%list /\ k s' (p + List.length a)%nat cs = Some x.
Proof.
  intros Hb. induction fuel as [|fuel IH]; intros s p cs; cbn [iterate].
  - intros H. exists [], s. rewrite Nat.add_0_r. auto.
  - assert (Hz : k s p cs = Some x ->
                 exists a s', s = (a ++ s')%list
                              /\ k s' (p + List.length a)%nat cs = Some x).
    { intros H. exists [], s. rewrite Nat.add_0_r. auto. }
    assert (Hm : body s p cs
                   (fun s' p' cs' =>
                      if (p <? p')%nat then iterate body g k fuel s' p' cs' else None)
                 = Some x ->
                 exists a s', s = (a ++ s')%list
                              /\ k s' (p + List.length a)%nat cs = Some x).
    { intros H. apply Hb in H as (a & s1 & -> & H).
      cbv beta in H. destruct (p <? p + List.length a)%nat; [|discriminate].
      apply IH in H as (a' & s' & -> & H).
      exists (a ++ a')%list, s'. rewrite List.length_app, <- List.app_assoc.
      split; [reflexivity|]. now rewrite Nat.add_assoc. }
    destruct g.
    + destruct (body s p cs _) as [y|] eqn:E; [intros [= ->]; now apply Hm|exact Hz].
    + destruct (k s p cs) as [y|] eqn:E; [intros [= ->]; now apply Hz|exact Hm].
Qed.

(** A pattern without groups hands the captures on as they were. *)
Lemma run_inv_groupless fl r x :
  Shape.groupless r = true ->
  forall (k : cont) s p cs,
    run fl r s p cs k = Some x ->
    exists a s', s = (a ++ s')%list /\ k s' (p + List.length a)%nat cs = Some x.
Proof.
  assert (H1 : forall ok (k : cont) s p cs,
             one ok s p cs k = Some x ->
             exists a s', s = (a ++ s')%list /\ k s' (p + List.length a)%nat cs = Some x).
  { intros ok k s p cs H. apply one_inv in H as (c & s' & -> & _ & H).
    exists [c], s'. cbn [app List.length]. split; [reflexivity|].
    now replace (p + 1)%nat with (S p) by lia. }
  induction r as [ |a| | | |r1 IH1 r2 IH2|g r IH|g r IH|i r IH];
    cbn [Shape.groupless]; intros Hg k s p cs; cbn [run]; try apply H1.
  - intros H. exists [], s. rewrite Nat.add_0_r. auto.
  - apply andb_true_iff in Hg as [Hg1 Hg2].
    intros H. apply (IH1 Hg1) in H as (a1 & s1 & -> & H).
    apply (IH2 Hg2) in H as (a2 & s2 & -> & H).
    exists (a1 ++ a2)%list, s2. rewrite List.length_app, <- List.app_assoc.
    split; [reflexivity|]. now rewrite Nat.add_assoc.
  - apply iterate_inv_groupless. intros k'. now apply IH.
  - intros H. apply (IH Hg) in H as (a1 & s1 & -> & H).
    apply iterate_inv_groupless in H as (a2 & s2 & -> & H); [|intros k'; now apply IH].
    exists (a1 ++ a2)%list, s2. rewrite List.length_app, <- List.app_assoc.
    split; [reflexivity|]. now rewrite Nat.add_assoc.
  - discriminate.
Qed.

(** Under DOTALL a lazy run of [.] can stop after any prefix that the
    continuation accepts. *)
Lemma lazy_any_reaches fl (k : cont) :
  dotall fl = true ->
  forall a s' fuel p cs,
    (List.length a <= fuel)%nat ->
    (forall cs', is_Some (k s' (p + List.length a)%nat cs')) ->
    is_Some (iterate (one (dot_ok fl)) false k fuel (a ++ s')%list p cs).
Proof.
  intros Hd. induction a as [|c a IH]; intros s' fuel p cs Hf Hk.
  - cbn [app List.length] in *. rewrite Nat.add_0_r in Hk.
    destruct fuel; cbn [iterate]; [apply Hk|].
    destruct (Hk cs) as [y ->]. eauto.
  - destruct fuel as [|fuel]; [cbn in Hf; lia|]. cbn [iterate app].
    destruct (k (c :: a ++ s')%list p cs); [eauto|]. cbn [one].
    unfold dot_ok at 1. rewrite Hd. cbn [orb].
    assert (Hlt : (p <? S p)%nat = true) by (apply Nat.ltb_lt; lia). rewrite Hlt.
    apply IH; [cbn in Hf; lia|]. intros cs'.
    replace (S p + List.length a)%nat with (p + List.length (c :: a))%nat
      by (cbn; lia). apply Hk.
Qed.

Lemma search_from_inv fl r : forall s p m,
  search_from fl r s p = Some m ->
  exists pre rest, s = (pre ++ rest)%list
                   /\ match_at fl r rest (p + List.length pre)%nat = Some m.
Proof.
  induction s as [|c s IH]; intros p m; cbn [search_from].
  - destruct (match_at fl r [] p) eqn:E; [|discriminate]. intros [= <-].
    exists [], []. now rewrite Nat.add_0_r.
  - destruct (match_at fl r (c :: s) p) eqn:E.
    + intros [= <-]. exists [], (c :: s). now rewrite Nat.add_0_r.
    + intros H. apply IH in H as (pre & rest & -> & H).
      exists (c :: pre), rest. split; [reflexivity|].
      now replace (p + List.length (c :: pre))%nat with (S p + List.length pre)%nat
        by (cbn; lia).
Qed.

(** Two patterns of which the second matches wherever the first does:
    the same holds for the search. *)
Lemma search_from_mono fl r r' :
  (forall s p, is_Some (match_at fl r s p) -> is_Some (match_at fl r' s p)) ->
  forall s p, search_from fl r' s p = None -> search_from fl r s p = None.
Proof.
  intros H. induction s as [|c s IH]; intros p; cbn [search_from].
  - destruct (match_at fl r' [] p) eqn:E'; [discriminate|]. intros _.
    destruct (match_at fl r [] p) eqn:E; [|reflexivity].
    destruct (H [] p) as [? Hx]; [rewrite E; eauto|congruence].
  - destruct (match_at fl r' (c :: s) p) eqn:E'; [discriminate|]. intros Hs.
    destruct (match_at fl r (c :: s) p) eqn:E; [|now apply IH].
    destruct (H (c :: s) p) as [? Hx]; [rewrite E; eauto|congruence].
Qed.

(** Two patterns whose matches end at the same place wherever one is
    tried: their searches find the same span. *)
Lemma search_from_same_span fl r r' :
  (forall s p, option_map m_end (match_at fl r s p)
               = option_map m_end (match_at fl r' s p)) ->
  forall s p,
    option_map (fun m => (m_start m, m_end m)) (search_from fl r s p)
    = option_map (fun m => (m_start m, m_end m)) (search_from fl r' s p).
Proof.
  intros H.
  assert (Hs : forall s p m, match_at fl r s p = Some m -> m_start m = p).
  { intros s p m. unfold match_at. destruct (run _ _ _ _ _ _) as [[]|]; [|discriminate].
    now intros [= <-]. }
  assert (Hs' : forall s p m, match_at fl r' s p = Some m -> m_start m = p).
  { intros s p m. unfold match_at. destruct (run _ _ _ _ _ _) as [[]|]; [|discriminate].
    now intros [= <-]. }
  assert (Hone : forall s p,
             match match_at fl r s p, match_at fl r' s p with
             | Some m, Some m' => (m_start m, m_end m) = (m_start m', m_end m')
             | None, None => True
             | _, _ => False
             end).
  { intros s p. pose proof (H s p) as E. pose proof (Hs s p) as E1.
    pose proof (Hs' s p) as E2.
    destruct (match_at fl r s p) as [m|], (match_at fl r' s p) as [m'|];
      cbn in E; try discriminate; [|exact I].
    rewrite (E1 m eq_refl), (E2 m' eq_refl). now injection E as ->. }
  induction s as [|c s IH]; intros p; cbn [search_from]; pose proof (Hone) as Ho.
  - specialize (Ho [] p).
    destruct (match_at fl r [] p), (match_at fl r' [] p); try contradiction;
      cbn; [now rewrite Ho|reflexivity].
  - specialize (Ho (c :: s) p).
    destruct (match_at fl r (c :: s) p), (match_at fl r' (c :: s) p); try contradiction;
      cbn; [now rewrite Ho|apply IH].
Qed.

Lemma match_at_ends fl r r' :
  (forall s p c1 c2,
     option_map fst (run fl r s p c1 (fun _ p' cs' => Some (p', cs')))
     = option_map fst (run fl r' s p c2 (fun _ p' cs' => Some (p', cs')))) ->
  forall s p, option_map m_end (match_at fl r s p) = option_map m_end (match_at fl r' s p).
Proof.
  intros H s p. unfold match_at. specialize (H s p [] []).
  destruct (run fl r s p [] _) as [[e cs]|], (run fl r' s p [] _) as [[e' cs']|];
    cbn in H |- *; congruence.
Qed.

End EngineFacts.

Module PatternFacts.
Import Re EngineFacts.

(** The two detectors of a WITH clause match at the same places. *)
Lemma with_span s p :
  option_map (fun m => (m_start m, m_end m)) (search_from Pat.IS Pat.with_pattern s p)
  = option_map (fun m => (m_start m, m_end m)) (search_from Pat.IS Pat.has_with_pattern s p).
Proof.
  apply search_from_same_span, match_at_ends.
  unfold Pat.with_pattern, Pat.has_with_pattern. cbn [Pat.seq].
  do 2 apply same_end_Cat. apply same_end_Grp_l. do 3 apply same_end_Cat.
  intros. now apply run_same_end.
Qed.

Lemma hoist_core (F : nat -> captures -> captures) :
  forall s p c1 c2,
    option_map fst
      (run Pat.IS
         (Cat (Pat.lits "WITH")
            (Cat Pat.ws1 (Cat Pat.ident (Cat Pat.ws1 (Cat (Pat.lits "AS")
               (Cat Pat.ws0 (Cat Pat.lpar (Cat Pat.lazy_any Pat.rpar))))))))
         s p c1
         (fun s1 p1 cs1 =>
            run Pat.IS (Cat Pat.ws0 (Grp 2 (Cat (Pat.lits "SELECT") Pat.any)))
              s1 p1 (F p1 cs1) (fun _ p' cs' => Some (p', cs'))))
    = option_map fst
        (run Pat.IS Pat.single_cte_pattern s p c2 (fun _ p' cs' => Some (p', cs'))).
Proof.
  unfold Pat.single_cte_pattern. cbn [Pat.seq].
  do 2 apply same_end_Cat. apply same_end_Grp_r. do 4 apply same_end_Cat.
  apply same_end_Grp_r. apply same_end_last_l.
  intros s p c1 c2. cbv beta. generalize (F p c1) as c1'. intros c1'.
  revert s p c1' c2. apply same_end_Cat. apply same_end_Grp_both.
Qed.

(** The pattern that hoists a WITH clause and the pattern that reads a
    single CTE match at the same places. *)
Lemma hoist_span s p :
  option_map (fun m => (m_start m, m_end m)) (search_from Pat.IS Pat.hoist_pattern s p)
  = option_map (fun m => (m_start m, m_end m))
      (search_from Pat.IS Pat.single_cte_pattern s p).
Proof.
  apply search_from_same_span, match_at_ends.
  intros s' p' c1 c2.
  exact (hoist_core (fun p1 cs1 => (1%nat, firstn (p1 - p') s') :: cs1) s' p' c1 c2).
Qed.

(** A single CTE that is read starts with a match of the WITH detector. *)
Lemma single_needs_with s p :
  is_Some (match_at Pat.IS Pat.single_cte_pattern s p) ->
  is_Some (match_at Pat.IS Pat.with_pattern s p).
Proof.
  unfold match_at.
  assert (H : is_Some (run Pat.IS Pat.single_cte_pattern s p [] (fun _ p' cs' => Some (p', cs')))
              -> is_Some (run Pat.IS Pat.with_pattern s p [] (fun _ p' cs' => Some (p', cs')))).
  { unfold Pat.single_cte_pattern, Pat.with_pattern. cbn [Pat.seq].
    generalize (@nil (nat * list ascii)) at 1 as c1.
    generalize (@nil (nat * list ascii)) as c2. intros c2 c1. revert s p c1 c2.
    do 6 apply mono_Cat. intros s p c1 c2.
    change (run Pat.IS (Cat Pat.lpar ?b) s p c1 ?k)
      with (run Pat.IS Pat.lpar s p c1 (fun s1 p1 cs1 => run Pat.IS b s1 p1 cs1 k)).
    apply run_mono. intros; eauto. }
  destruct (run _ Pat.single_cte_pattern _ _ _ _) as [[]|]; [|intros [? [=]]].
  intros _. destruct H as [[] ->]; eauto.
Qed.

Local Abbreviation iter :=
  (Cat Pat.ws0 (Cat (Lit ","%char) (Cat Pat.ws0 (Cat (Grp 3 Pat.ident) (Cat Pat.ws1
     (Cat (Pat.lits "AS") (Cat Pat.ws0 (Cat Pat.lpar (Cat (Grp 4 Pat.lazy_any) Pat.rpar))))))))).

Local Abbreviation closes c := (lit_ok Pat.IS ")"%char c = true).

(** One more CTE of the looser pattern ends with a closing parenthesis. *)
Lemma iter_inv (k : cont) s p cs x :
  run Pat.IS iter s p cs k = Some x ->
  exists b c s' cs', s = (b ++ c :: s')%list /\ closes c
                     /\ k s' (S (p + List.length b)) cs' = Some x.
Proof.
  intros H.
  change (run Pat.IS (Cat ?a ?b) s p cs k)
    with (run Pat.IS a s p cs (fun s1 p1 cs1 => run Pat.IS b s1 p1 cs1 k)) in H.
  apply run_inv in H as (a1 & s1 & cs1 & -> & H).
  repeat match type of H with
  | run Pat.IS (Cat ?a ?b) ?s ?p ?cs ?k = Some _ =>
      change (run Pat.IS (Cat a b) s p cs k)
        with (run Pat.IS a s p cs (fun s1 p1 cs1 => run Pat.IS b s1 p1 cs1 k)) in H;
      let a' := fresh "a" in let s' := fresh "s" in let cs' := fresh "cs" in
      apply run_inv in H as (a' & s' & cs' & -> & H)
  end.
  change (run Pat.IS Pat.rpar ?s ?p ?cs k) with (one (lit_ok Pat.IS ")"%char) s p cs k) in H.
  apply one_inv in H as (c & s' & -> & Hc & H).
  eexists _, c, s', _. split; [|split; [exact Hc|]].
  - rewrite !List.app_assoc. reflexivity.
  - rewrite !List.length_app. rewrite <- H. f_equal. lia.
Qed.

(** The iterations of the looser pattern: nothing, or a text that ends
    with a closing parenthesis. *)
Lemma iterations_inv (k : cont) x :
  forall fuel s p cs,
    iterate (run Pat.IS iter) true k fuel s p cs = Some x ->
    exists b s' cs',
      s = (b ++ s')%list /\ k s' (p + List.length b)%nat cs' = Some x
      /\ (b = [] \/ exists b0 c, b = (b0 ++ [c])%list /\ closes c).
Proof.
  induction fuel as [|fuel IH]; intros s p cs; cbn [iterate].
  - intros H. exists [], s, cs. rewrite Nat.add_0_r. auto.
  - destruct (run Pat.IS iter s p cs _) as [y|] eqn:E.
    + intros [= ->]. apply iter_inv in E as (b & c & s1 & cs1 & -> & Hc & E).
      cbv beta in E. destruct (p <? S (p + List.length b))%nat; [|discriminate].
      apply IH in E as (b' & s' & cs' & -> & E & Hb').
      exists (b ++ c :: b')%list, s', cs'. split; [now rewrite <- List.app_assoc|]. split.
      * rewrite <- E. f_equal. rewrite List.length_app. cbn. lia.
      * right. destruct Hb' as [->|(b0 & c' & -> & Hc')].
        -- exists b, c. auto.
        -- exists (b ++ c :: b0)%list, c'. split; [|exact Hc'].
           now rewrite <- List.app_assoc.
    + intros H. exists [], s, cs. rewrite Nat.add_0_r. auto.
Qed.

(** Where the looser pattern matches, the pattern of a single CTE
    matches too: the branch of the looser pattern is never taken. *)
Lemma flexible_needs_single s p :
  is_Some (match_at Pat.IS Pat.flexible_cte_pattern s p) ->
  is_Some (match_at Pat.IS Pat.single_cte_pattern s p).
Proof.
  unfold match_at.
  enough (H : is_Some (run Pat.IS Pat.flexible_cte_pattern s p []
                         (fun _ p' cs' => Some (p', cs')))
              -> is_Some (run Pat.IS Pat.single_cte_pattern s p []
                            (fun _ p' cs' => Some (p', cs')))).
  { destruct (run _ Pat.flexible_cte_pattern _ _ _ _) as [[]|]; [|intros [? [=]]].
    intros _. destruct H as [[] ->]; eauto. }
  unfold Pat.single_cte_pattern, Pat.flexible_cte_pattern. cbn [Pat.seq].
  generalize (@nil (nat * list ascii)) at 1 as c1.
  generalize (@nil (nat * list ascii)) as c2. intros c2 c1. revert s p c1 c2.
  do 7 apply mono_Cat. intros s p c1 c2 [x H].
  (* the tail of the looser pattern, split *)
  change (run Pat.IS (Cat (Grp 2 Pat.lazy_any) ?b) s p c1 ?k)
    with (iterate (one (dot_ok Pat.IS)) false
            (fun s1 p1 cs1 => run Pat.IS b s1 p1 ((2%nat, firstn (p1 - p) s) :: cs1) k)
            (S (List.length s)) s p c1) in H.
  apply iterate_one_inv in H as (a0 & s1 & -> & _ & H).
  change (run Pat.IS (Cat Pat.rpar ?b) ?s ?p ?cs ?k)
    with (one (lit_ok Pat.IS ")"%char) s p cs (fun s1 p1 cs1 => run Pat.IS b s1 p1 cs1 k)) in H.
  apply one_inv in H as (c & s2 & -> & Hc & H).
  change (run Pat.IS (Cat (Star true ?r) ?b) ?s ?p ?cs ?k)
    with (iterate (run Pat.IS r) true (fun s1 p1 cs1 => run Pat.IS b s1 p1 cs1 k)
            (S (List.length s)) s p cs) in H.
  apply iterations_inv in H as (b & s3 & cs3 & -> & H & Hb).
  (* the continuation of the single pattern accepts what is left *)
  assert (HK : forall cs',
             is_Some (run Pat.IS (Cat Pat.ws0 (Grp 3 (Cat (Pat.lits "SELECT") Pat.any)))
                        s3 (S (p + List.length a0) + List.length b)%nat cs'
                        (fun _ p' cs' => Some (p', cs')))).
  { intros cs'.
    assert (H5 : is_Some (run Pat.IS (Cat Pat.ws0 (Grp 5 (Cat (Pat.lits "SELECT") Pat.any)))
                            s3 (S (p + List.length a0) + List.length b)%nat cs3
                            (fun _ p' cs' => Some (p', cs')))) by eauto.
    revert H5. apply mono_Cat. intros s' p' c1' c2'. cbn [run].
    apply run_mono. intros s0 p0 c0 c3. apply run_mono. intros; eauto. }
  clear H x.
  remember (a0 ++ (c :: b ++ s3)%list)%list as subj eqn:Hsubj.
  change (run Pat.IS (Cat (Grp 2 Pat.lazy_any) ?r) subj p c2 ?k)
    with (iterate (one (dot_ok Pat.IS)) false
            (fun s1 p1 cs1 => run Pat.IS r s1 p1 ((2%nat, firstn (p1 - p) subj) :: cs1) k)
            (S (List.length subj)) subj p c2).
  match goal with |- is_Some (iterate _ false ?k ?fuel subj p c2) => set (k2 := k) end.
  assert (Hstep : forall (a : list ascii) c' cs',
             closes c' ->
             (S (p + List.length a) = S (p + List.length a0) + List.length b)%nat ->
             is_Some (k2 (c' :: s3) (p + List.length a)%nat cs')).
  { intros a c' cs' Hc' Hlen. unfold k2.
    change (run Pat.IS (Cat Pat.rpar ?r) ?s ?q ?cs ?k)
      with (one (lit_ok Pat.IS ")"%char) s q cs (fun s1 p1 cs1 => run Pat.IS r s1 p1 cs1 k)).
    cbn [one]. rewrite Hc', Hlen. apply HK. }
  destruct Hb as [->|(b0 & c' & -> & Hc')].
  - pose proof (lazy_any_reaches Pat.IS k2 eq_refl a0 (c :: s3) (S (List.length subj)) p c2)
      as R.
    cbn [app] in Hsubj. rewrite <- Hsubj in R. apply R.
    + subst subj. rewrite List.length_app. lia.
    + intros cs'. apply Hstep; [exact Hc|]. cbn [List.length]. lia.
  - pose proof (lazy_any_reaches Pat.IS k2 eq_refl (a0 ++ c :: b0)%list (c' :: s3)
                  (S (List.length subj)) p c2) as R.
    assert (Hs : ((a0 ++ c :: b0) ++ c' :: s3)%list = subj).
    { subst subj. now rewrite <- !List.app_assoc. }
    rewrite Hs in R. apply R.
    + rewrite <- Hs. rewrite !List.length_app. lia.
    + intros cs'. apply Hstep; [exact Hc'|]. rewrite !List.length_app. cbn [List.length]. lia.
Qed.

Lemma every_char_is_any (l : list ascii) : forallb (dot_ok Pat.IS) l = true.
Proof. induction l; [reflexivity|]. cbn [forallb]. now rewrite IHl. Qed.

(** A match of the hoisting pattern splits its text into the WITH
    clause, blanks and the main select, which runs to the end. *)
Lemma hoist_match_inv s p m :
  match_at Pat.IS Pat.hoist_pattern s p = Some m ->
  exists w blanks main,
    s = (w ++ blanks ++ main)%list
    /\ forallb Str.is_space blanks = true
    /\ m_groups m = [(2%nat, main); (1%nat, w)]
    /\ m_end m = (p + List.length s)%nat.
Proof.
  unfold match_at.
  destruct (run _ _ _ _ _ _) as [[e cs]|] eqn:H; [|discriminate]. intros [= <-].
  cbn [m_groups m_end].
  unfold Pat.hoist_pattern in H. cbn [Pat.seq] in H.
  change (run Pat.IS (Cat (Grp 1 ?a) ?b) s p [] ?k)
    with (run Pat.IS a s p []
            (fun s1 p1 cs1 => run Pat.IS b s1 p1 ((1%nat, firstn (p1 - p) s) :: cs1) k)) in H.
  apply run_inv_groupless in H as (w & s1 & -> & H); [|reflexivity].
  replace (p + List.length w - p)%nat with (List.length w) in H by lia.
  rewrite List.firstn_app, List.firstn_all, Nat.sub_diag in H. cbn [firstn] in H.
  rewrite List.app_nil_r in H.
  change (run Pat.IS (Cat Pat.ws0 ?b) ?s ?q ?cs ?k)
    with (iterate (one Str.is_space) true (fun s1 p1 cs1 => run Pat.IS b s1 p1 cs1 k)
            (S (List.length s)) s q cs) in H.
  apply iterate_one_inv in H as (blanks & s2 & -> & Hb & H).
  change (run Pat.IS (Grp 2 (Cat ?a Pat.any)) ?s ?q ?cs ?k)
    with (run Pat.IS a s q cs
            (fun s1 p1 cs1 =>
               iterate (one (dot_ok Pat.IS)) true
                 (fun s' p' cs' => k s' p' ((2%nat, firstn (p' - q) s) :: cs'))
                 (S (List.length s1)) s1 p1 cs1)) in H.
  apply run_inv_groupless in H as (kw & s3 & -> & H); [|reflexivity].
  cbv beta in H.
  pose proof (WhereFacts.iterate_class (dot_ok Pat.IS)
                (fun _ p' cs' =>
                   Some (p', (2%nat, firstn (p' - (p + List.length w + List.length blanks))
                                       (kw ++ s3)%list) :: cs'))
                _ s3 [] (S (List.length s3))
                (p + List.length w + List.length blanks + List.length kw)%nat
                [(1%nat, w)] (every_char_is_any s3) I ltac:(lia) eq_refl) as E.
  rewrite List.app_nil_r in E. pose proof (eq_trans (eq_sym H) E) as X.
  injection X as -> ->.
  exists w, blanks, (kw ++ s3)%list. repeat split; [exact Hb| |].
  - do 2 f_equal. f_equal. apply List.firstn_all2. rewrite List.length_app. lia.
  - rewrite !List.length_app. lia.
Qed.

End PatternFacts.

Module AnalysisFacts.
Import Re EngineFacts PatternFacts QueryProcessor.

Lemma finditer_head fl r sql :
  finditer fl r sql = [] <-> search fl r sql = None.
Proof.
  unfold finditer, search. cbn [finditer_from].
  destruct (search_from fl r (Str.chars sql) 0); split; congruence.
Qed.

Lemma with_found sql :
  Re.search Pat.IS Pat.has_with_pattern sql = None
  <-> Re.finditer Pat.IS Pat.with_pattern sql = [].
Proof.
  rewrite finditer_head. unfold search.
  pose proof (with_span (Str.chars sql) 0) as H.
  destruct (search_from _ Pat.with_pattern _ _), (search_from _ Pat.has_with_pattern _ _);
    cbn in H; split; congruence.
Qed.

(** The branch of the looser pattern is never taken. *)
Lemma flexible_is_dead sql :
  Re.search Pat.IS Pat.single_cte_pattern sql = None ->
  Re.search Pat.IS Pat.flexible_cte_pattern sql = None.
Proof. apply search_from_mono. intros s p. apply flexible_needs_single. Qed.

Lemma hoist_found sql :
  (exists m, Re.search Pat.IS Pat.single_cte_pattern sql = Some m)
  <-> (exists m, Re.search Pat.IS Pat.hoist_pattern sql = Some m).
Proof.
  unfold search. pose proof (hoist_span (Str.chars sql) 0) as H.
  destruct (search_from _ Pat.hoist_pattern _ _), (search_from _ Pat.single_cte_pattern _ _);
    cbn in H; try discriminate; split; intros [? ?]; eauto; discriminate.
Qed.

Lemma hoisted_split sql m :
  Re.search Pat.IS Pat.hoist_pattern sql = Some m ->
  exists pre w blanks main,
    sql = pre +:+ w +:+ blanks +:+ main
    /\ forallb Str.is_space (Str.chars blanks) = true
    /\ Re.group_text m 1 = w /\ Re.group_text m 2 = main.
Proof.
  unfold search. intros H. apply search_from_inv in H as (pre & rest & Hs & H).
  apply hoist_match_inv in H as (w & blanks & main & -> & Hb & Hg & _).
  exists (Str.of_chars pre), (Str.of_chars w), (Str.of_chars blanks), (Str.of_chars main).
  repeat split.
  - rewrite <- !RangeFacts.of_chars_app, <- Hs. symmetry. apply RangeFacts.of_chars_chars.
  - unfold Str.chars, Str.of_chars. now rewrite list_ascii_of_string_of_list_ascii.
  - unfold group_text, group. now rewrite Hg.
  - unfold group_text, group. now rewrite Hg.
Qed.

End AnalysisFacts.

Module NumberFacts.
Import DataProcessor.

(** The text of a number: 0 itself, or digits that do not start with 0. *)
Local Abbreviation canonical s :=
  (s = "0" \/ exists c t, s = String c t /\ c <> "0"%char).

Lemma pretty_go_leading (x : N) : forall s,
  (0 < x)%N -> exists c t, pretty_N_go x s = String c t /\ c <> "0"%char.
Proof.
  induction (N.lt_wf_0 x) as [x _ IH]; intros s Hx.
  rewrite pretty_N_go_step by exact Hx.
  assert (x < 10 \/ 10 <= x)%N as [Hs|Hl] by lia.
  - rewrite N.div_small, pretty_N_go_0 by exact Hs. rewrite N.mod_small by exact Hs.
    eexists _, _. split; [reflexivity|].
    assert (x = 1 \/ x = 2 \/ x = 3 \/ x = 4 \/ x = 5 \/ x = 6 \/ x = 7 \/ x = 8 \/ x = 9)%N
      as H by lia.
    destruct H as [->|[->|[->|[->|[->|[->|[->|[->| ->]]]]]]]]; discriminate.
  - apply IH; [apply N.div_lt; lia|]. apply N.div_str_pos. lia.
Qed.

Lemma pretty_canonical (n : Z) : (0 <= n)%Z -> canonical (pretty n).
Proof.
  destruct n as [|p|p]; [now left| |lia]. intros _. right.
  change (pretty (Z.pos p)) with (pretty (N.pos p)). unfold pretty, pretty_N.
  destruct (decide (N.pos p = 0%N)); [discriminate|]. now apply pretty_go_leading.
Qed.

Local Abbreviation zeros n := (Str.of_chars (repeat "0"%char n)).

Lemma pad_cancel : forall za zb a b,
  canonical a -> canonical b -> zeros za +:+ a = zeros zb +:+ b -> a = b.
Proof.
  assert (Hz : forall z a b, canonical a -> canonical b ->
                 a = zeros (S z) +:+ b -> False).
  { intros z a b Ha Hb E.
    change (zeros (S z) +:+ b) with (String "0" (zeros z +:+ b)) in E.
    destruct Ha as [->|(c & t & -> & Hc)]; [|congruence].
    injection E as E. destruct z; cbn in E.
    - destruct Hb as [->|(c & t & -> & _)]; discriminate.
    - discriminate. }
  induction za as [|za IH]; intros [|zb] a b Ha Hb E.
  - exact E.
  - destruct (Hz zb a b Ha Hb E).
  - symmetry in E. destruct (Hz za b a Hb Ha E).
  - change (String "0" (zeros za +:+ a) = String "0" (zeros zb +:+ b)) in E.
    injection E as E. now apply (IH zb).
Qed.

Lemma format_04d_inj (n m : Z) :
  (0 <= n)%Z -> (0 <= m)%Z -> format_04d n = format_04d m -> n = m.
Proof.
  intros Hn Hm. unfold format_04d.
  destruct (Z.ltb_spec n 0); [lia|]. destruct (Z.ltb_spec m 0); [lia|].
  intros E. apply pad_cancel in E; [|now apply pretty_canonical..].
  now apply pretty_Z_inj in E.
Qed.

End NumberFacts.

Module ReplaceFacts.

Lemma prefix_of_app (p a b : list ascii) :
  Str.prefix_of p a = true -> Str.prefix_of p (a ++ b)%list = true.
Proof.
  revert a. induction p as [|x p IH]; intros [|y a]; cbn; try easy.
  destruct (Ascii.eqb x y); [apply IH|easy].
Qed.

(** A text without occurrence of [old], cut by a character that [old]
    does not have. *)
Lemma find_none_sep (old a b : list ascii) (q : ascii) :
  old <> [] ->
  forallb (fun c => negb (Ascii.eqb c q)) old = true ->
  (forall i, (i < List.length a)%nat ->
     Str.prefix_of old (skipn i a ++ q :: b)%list = true -> False) ->
  Str.find old b = None ->
  Str.find old (a ++ q :: b)%list = None.
Proof.
  intros Hne Hq. induction a as [|c a IH]; intros Ha Hb.
  - cbn [app Str.find]. destruct old as [|x old]; [contradiction|].
    cbn [Str.prefix_of forallb] in *. apply andb_true_iff in Hq as [Hx _].
    apply negb_true_iff in Hx. rewrite Hx. now rewrite Hb.
  - cbn [app Str.find].
    destruct (Str.prefix_of old (c :: a ++ q :: b)%list) eqn:E.
    + destruct (Ha 0%nat ltac:(cbn; lia) E).
    + rewrite IH; [reflexivity| |exact Hb].
      intros i Hi. apply (Ha (S i)). cbn. lia.
Qed.

(** A match that starts in [a] and would run over the cut. *)
Lemma prefix_cut (old : list ascii) (q : ascii) :
  forallb (fun c => negb (Ascii.eqb c q)) old = true ->
  forall a b, Str.prefix_of old (a ++ q :: b)%list = true -> Str.prefix_of old a = true.
Proof.
  induction old as [|x old IH]; intros Hq a b; [now destruct a|].
  cbn [forallb] in Hq. apply andb_true_iff in Hq as [Hx Hq]. apply negb_true_iff in Hx.
  destruct a as [|y a]; cbn [app Str.prefix_of].
  - now rewrite Hx.
  - destruct (Ascii.eqb x y); [apply IH, Hq|easy].
Qed.

Lemma find_none_prefix (old : list ascii) : forall s i,
  Str.find old s = None -> Str.prefix_of old (skipn i s) = false.
Proof.
  induction s as [|c s IH]; intros i H.
  - destruct i; cbn [skipn]; cbn [Str.find] in H;
      destruct (Str.prefix_of old []); congruence.
  - cbn [Str.find] in H. destruct (Str.prefix_of old (c :: s)) eqn:E; [discriminate|].
    destruct (Str.find old s) eqn:F; [discriminate|].
    destruct i; cbn [skipn]; [exact E|now apply IH].
Qed.

Lemma prefix_of_length (p : list ascii) : forall s,
  Str.prefix_of p s = true -> (List.length p <= List.length s)%nat.
Proof.
  induction p as [|x p IH]; intros [|y s]; cbn; try easy; [lia|].
  destruct (Ascii.eqb x y); [|easy]. intros H. apply IH in H. lia.
Qed.

Lemma find_bound (old : list ascii) : forall s n,
  Str.find old s = Some n -> (n + List.length old <= List.length s)%nat.
Proof.
  induction s as [|c s IH]; intros n; cbn [Str.find].
  - destruct (Str.prefix_of old []) eqn:E; [|discriminate]. intros [= <-].
    now apply prefix_of_length in E.
  - destruct (Str.prefix_of old (c :: s)) eqn:E.
    + intros [= <-]. now apply prefix_of_length in E.
    + destruct (Str.find old s) as [m|]; [|discriminate]. intros [= <-].
      specialize (IH m eq_refl). cbn. lia.
Qed.

Lemma find_none_firstn (old : list ascii) s n :
  Str.find old s = Some n ->
  forall i, (i < n)%nat -> Str.prefix_of old (skipn i (firstn n s)) = false.
Proof.
  intros H i Hi. destruct (FindFacts.find_some old s n H) as [_ Hmin].
  specialize (Hmin i Hi).
  destruct (Str.prefix_of old (skipn i (firstn n s))) eqn:E; [|reflexivity].
  rewrite <- (List.firstn_skipn n s) in Hmin.
  rewrite List.skipn_app in Hmin.
  replace (i - List.length (firstn n s))%nat with 0%nat in Hmin.
  - cbn [skipn] in Hmin. now rewrite (prefix_of_app _ _ _ E) in Hmin.
  - pose proof (find_bound old s n H). rewrite List.length_firstn. lia.
Qed.

(** After the replacement no occurrence of [old] is left, when the new
    text is [q ... q] around a text without occurrence and [old] does not
    have the character [q]. *)
Lemma replace_leaves_none (old mid : list ascii) (q : ascii) :
  old <> [] ->
  forallb (fun c => negb (Ascii.eqb c q)) old = true ->
  Str.find old mid = None ->
  forall fuel s, (List.length s < fuel)%nat ->
    Str.find old (Str.replace_chars fuel old (q :: mid ++ [q]) s) = None.
Proof.
  intros Hne Hq Hmid. induction fuel as [|fuel IH]; intros s Hf; [lia|].
  cbn [Str.replace_chars]. destruct (Str.find old s) as [i|] eqn:E; [|exact E].
  set (rest := Str.replace_chars fuel old (q :: mid ++ [q])
                 (skipn (i + List.length old) s)).
  assert (Hrest : Str.find old rest = None).
  { apply IH. rewrite List.length_skipn. pose proof (find_bound old s i E).
    destruct old; [contradiction|]. cbn [List.length] in *. lia. }
  cbn [app]. rewrite <- List.app_assoc. cbn [app].
  apply find_none_sep; [exact Hne|exact Hq| |].
  - intros j Hj Hp. apply prefix_cut in Hp; [|exact Hq].
    rewrite List.length_firstn in Hj.
    rewrite (find_none_firstn old s i E j) in Hp; [discriminate|lia].
  - apply find_none_sep; [exact Hne|exact Hq| |exact Hrest].
    intros j Hj Hp. apply prefix_cut in Hp; [|exact Hq].
    now rewrite (find_none_prefix old mid j Hmid) in Hp.
Qed.

Lemma placeholder_gone (sql : string) (cfg : gmap string QueryProcessor.pyval)
    (lrt : option string) (now : string) :
  QueryProcessor.truth (cfg !! "enabled") = true ->
  Str.contains "WHERE" (Str.upper sql) = true ->
  Str.contains QueryProcessor.placeholder sql = true ->
  Str.contains QueryProcessor.placeholder (QueryProcessor.start_of cfg lrt) = false ->
  Str.contains QueryProcessor.placeholder
    (QueryProcessor.apply_systemdate_range sql cfg lrt now) = false.
Proof.
  intros He Hw Hp Hs.
  unfold QueryProcessor.apply_systemdate_range. rewrite He, Hw, Hp. cbn [negb].
  unfold Str.contains, Str.replace.
  unfold Str.chars at 1, Str.of_chars. rewrite list_ascii_of_string_of_list_ascii.
  set (st := QueryProcessor.start_of cfg lrt) in *.
  assert (Hn : Str.chars ("'" +:+ st +:+ "'") = ("'"%char :: Str.chars st ++ ["'"%char])%list).
  { change ("'" +:+ st +:+ "'") with (String "'" (st +:+ "'")).
    change (Str.chars (String "'" (st +:+ "'"))) with ("'"%char :: Str.chars (st +:+ "'")).
    now rewrite TemplateFacts.chars_app. }
  rewrite Hn, replace_leaves_none; [reflexivity|discriminate|reflexivity| |].
  - unfold Str.contains in Hs. now destruct (Str.find _ (Str.chars st)).
  - rewrite <- TemplateFacts.length_chars. lia.
Qed.

End ReplaceFacts.

Import Counts Batches ConfigManager Run Cases.

(** X1 (normal run of the batch loop; _process_batches).  If the first
    [k] iterations each find the gate open, fetch a non-empty batch with
    the window that starts at [j * batch_size] and upload it to file number
    [j + 1], and iteration [k] finds the gate open and an empty batch, then
    the loop ends there and reports [k] batches, the number of rows fetched
    in them and the sum of the sizes that the uploads returned. *)
Theorem batches_are_counted_and_summed
    (env : Collaborators) (qp : Processor) (data_path : string) (qc : QueryConfig)
    (headers : list string) (lrt : string) (bs : Z) (ts : string) (rc : Z)
    (k fuel : nat) :
  bs <> 0%Z -> rc <> 0%Z ->
  (forall j, (j < k)%nat -> completes env qp data_path qc headers lrt bs ts j) ->
  check_execution_apply env k = Ok true ->
  batch_at qp qc headers lrt bs k = Ok [] ->
  (k < fuel)%nat ->
  _process_batches fuel env (Some qp) data_path qc headers lrt bs ts rc
  = Some (Ok {| query_name := name qc;
                batch_count := Z.of_nat k;
                row_count :=
                  total (fun j => Z.of_nat (List.length (rows_of qp qc headers lrt bs j))) k;
                total_size_bytes :=
                  total (bytes_of env qp data_path qc headers lrt bs ts) k;
                total_size_formatted :=
                  format_file_size env
                    (total (bytes_of env qp data_path qc headers lrt bs ts) k) |}).
Proof.
  intros Hbs Hrc Hdone Hg Hb Hf. unfold _process_batches.
  destruct (Z.eqb_spec bs 0) as [|_]; [contradiction|].
  now rewrite (BatchFacts.loop_ends_empty env qp data_path qc headers lrt bs ts rc k fuel
                 Hrc Hdone Hg Hb Hf).
Qed.

Lemma batches_are_counted_and_summed_witness :
  _process_batches 2 Sample.sink (Some one_batch) "data" Sample.full_load ["a"] "" 2
    "20240301/000000" 2
  = Some (Ok {| query_name := "Items"; batch_count := 1; row_count := 2;
                total_size_bytes := 10; total_size_formatted := "10 B" |}).
Proof.
  rewrite (batches_are_counted_and_summed Sample.sink one_batch "data" Sample.full_load
             ["a"] "" 2 "20240301/000000" 2 1 2).
  - reflexivity.
  - lia.
  - lia.
  - intros j Hj. assert (j = 0)%nat as -> by lia.
    split; [reflexivity|]. exists [CInt 1], [[CInt 2]], 10%Z.
    split; vm_compute; reflexivity.
  - reflexivity.
  - vm_compute. reflexivity.
  - lia.
Defined.

(** X2 (the count does not bound the loop; _process_batches).  The
    record count is used for the progress figure only: two non-zero
    counts give the same outcome, whatever the database returns. *)
Theorem record_count_does_not_bound_the_loop
    (fuel : nat) (env : Collaborators) (qp : option Processor) (data_path : string)
    (qc : QueryConfig) (headers : list string) (lrt : string) (bs : Z) (ts : string)
    (rc rc' : Z) :
  rc <> 0%Z -> rc' <> 0%Z ->
  _process_batches fuel env qp data_path qc headers lrt bs ts rc
  = _process_batches fuel env qp data_path qc headers lrt bs ts rc'.
Proof.
  intros H H'. unfold _process_batches. destruct qp as [p|]; [|reflexivity].
  destruct (bs =? 0)%Z; [reflexivity|].
  now rewrite (BatchFacts.loop_count_free env p data_path qc headers lrt bs ts rc rc' H H').
Qed.

Lemma record_count_does_not_bound_the_loop_witness :
  (3 <> 0)%Z /\ (1000 <> 0)%Z
  /\ _process_batches 5 Sample.sink (Some Sample.lossy) "data" Sample.full_load ["a"] ""
       2 "20240301/000000" 3
     = _process_batches 5 Sample.sink (Some Sample.lossy) "data" Sample.full_load ["a"] ""
         2 "20240301/000000" 1000.
Proof.
  assert (H3 : (3 <> 0)%Z) by lia. assert (H1000 : (1000 <> 0)%Z) by lia.
  split; [exact H3|]. split; [exact H1000|].
  exact (record_count_does_not_bound_the_loop 5 Sample.sink (Some Sample.lossy) "data"
           Sample.full_load ["a"] "" 2 "20240301/000000" 3 1000 H3 H1000).
Defined.

(** X3 (the loop ends only on an empty batch, an error or a closed gate;
    _process_batches).  While every iteration completes a batch the loop
    goes on: no amount of fuel brings a result, however small the record
    count was. *)
Theorem loop_runs_while_batches_come
    (env : Collaborators) (qp : Processor) (data_path : string) (qc : QueryConfig)
    (headers : list string) (lrt : string) (bs : Z) (ts : string) (rc : Z) (fuel : nat) :
  bs <> 0%Z -> rc <> 0%Z ->
  (forall j, completes env qp data_path qc headers lrt bs ts j) ->
  _process_batches fuel env (Some qp) data_path qc headers lrt bs ts rc = None.
Proof.
  intros Hbs Hrc H. unfold _process_batches.
  destruct (Z.eqb_spec bs 0) as [|_]; [contradiction|].
  pose proof (BatchFacts.loop_goes_on env qp data_path qc headers lrt bs ts rc Hrc H
                fuel 0) as E.
  change (after env qp data_path qc headers lrt bs ts 0) with start in E.
  now rewrite E.
Qed.

Lemma loop_runs_while_batches_come_witness :
  _process_batches 50 Sample.sink (Some endless) "data" Sample.full_load ["a"] "" 2
    "20240301/000000" 2 = None.
Proof.
  apply (loop_runs_while_batches_come Sample.sink endless "data" Sample.full_load ["a"] ""
           2 "20240301/000000" 2 50).
  - lia.
  - lia.
  - intros j. split; [reflexivity|]. exists [CInt 1], [[CInt 2]], 10%Z.
    split; reflexivity.
Defined.

(** X4 (one file for each batch; _process_batches).  The path that a
    batch is uploaded to determines its number: two batches of a query
    are never written to the same object. *)
Theorem batch_files_are_distinct
    (data_path timestamp_dir : string) (query_config : QueryConfig) (n m : Z) :
  (0 <= n)%Z -> (0 <= m)%Z ->
  file_of data_path query_config timestamp_dir n
  = file_of data_path query_config timestamp_dir m ->
  n = m.
Proof.
  intros Hn Hm. unfold file_of. intros E.
  repeat apply String.app_inj in E.
  apply ProjectionFacts.app_inv_tail in E.
  now apply NumberFacts.format_04d_inj.
Qed.

Lemma batch_files_are_distinct_witness :
  (0 <= 1)%Z
  /\ file_of "data" Sample.full_load "20240301/000000" 1
     = "data/20240301/000000/Items_0001.csv"
  /\ (1 = 1)%Z.
Proof.
  assert (H : (0 <= 1)%Z) by lia.
  split; [exact H|]. split; [vm_compute; reflexivity|].
  exact (batch_files_are_distinct "data" "20240301/000000" Sample.full_load 1 1 H H eq_refl).
Defined.

(** X5 (the retry count; _retry_record_count and
    _get_record_count_with_fallback).  A non-zero count that the retry
    returns is the count that the fallback returns from the same
    database: both send the probe first and the count statement next. *)
Theorem retry_count_is_the_fallback_count
    (cfg : option AppConfig) (db : Database) (t : nat) (qc : QueryConfig)
    (lrt : string) (n : Z) :
  _retry_record_count cfg db t qc lrt = Ok n -> n <> 0%Z ->
  _get_record_count_with_fallback cfg db t qc lrt = Ok n.
Proof.
  unfold _retry_record_count, _get_record_count_with_fallback.
  fold (header_sql_of cfg qc). rewrite CountFacts.count_sql_of_create.
  unfold _adjust_parameter_placeholder.
  destruct (db t (database_name qc)) as [c|]; cbn [bind try_except];
    [|intros [= <-]; contradiction].
  unfold with_connection.
  destruct (header_sql_of cfg qc) as [text|]; cbn [bind].
  2:{ destruct (release c); cbn; intros [= <-]; contradiction. }
  destruct (execute c 0 text _) as [cur|]; cbn [bind].
  2:{ destruct (release c); cbn; intros [= <-]; contradiction. }
  destruct (fetchone cur) as [first|]; cbn [bind].
  2:{ destruct (release c); cbn; intros [= <-]; contradiction. }
  destruct (close cur); cbn [bind].
  2:{ destruct (release c); cbn; intros [= <-]; contradiction. }
  destruct first as [row|].
  2:{ destruct (release c); cbn; intros [= <-]; contradiction. }
  destruct (_create_with_count_query _ _) as [ctext|]; cbn [bind try_except].
  2:{ destruct (release c); cbn; intros [= <-]; contradiction. }
  destruct (execute c 1 ctext _) as [res|]; cbn [bind try_except].
  2:{ destruct (release c); cbn; intros [= <-]; contradiction. }
  unfold read_count.
  destruct (scalar res) as [v|]; cbn [bind try_except].
  2:{ destruct (release c); cbn; intros [= <-]; contradiction. }
  destruct (close res); cbn [bind try_except].
  2:{ destruct (release c); cbn; intros [= <-]; contradiction. }
  destruct v as [v|].
  2:{ destruct (release c); cbn; intros [= <-]; contradiction. }
  destruct (py_int v) as [m|]; cbn [bind try_except].
  2:{ destruct (release c); cbn; intros [= <-]; contradiction. }
  destruct (release c); cbn; [easy|]. intros [= <-]; contradiction.
Qed.

Lemma retry_count_is_the_fallback_count_witness :
  _retry_record_count None counting_db 0 Sample.orders "2024-01-01 00:00:00" = Ok 7%Z
  /\ (7 <> 0)%Z
  /\ _get_record_count_with_fallback None counting_db 0 Sample.orders "2024-01-01 00:00:00"
     = Ok 7%Z.
Proof.
  assert (H : _retry_record_count None counting_db 0 Sample.orders "2024-01-01 00:00:00"
              = Ok 7%Z) by (vm_compute; reflexivity).
  assert (H7 : (7 <> 0)%Z) by lia.
  split; [exact H|]. split; [exact H7|].
  exact (retry_count_is_the_fallback_count None counting_db 0 Sample.orders
           "2024-01-01 00:00:00" 7 H H7).
Defined.


(** X7 (what process_query does before any batch; process_query with
    get_record_count and get_headers).  What the count raises, the query
    raises.  A count of 0 is reported with 0 batches, 0 rows and 0 bytes
    under the name of the query, and neither the header probe nor a
    batch is needed for that.  After another count, what the header
    probe raises the query raises, and a probe that names no column
    makes the query return nothing.  None of this takes fuel. *)
Theorem process_query_follows_the_probes
    (fuel : nat) (keys : Cursor -> outcome (list string)) (env : Collaborators)
    (qp : Processor) (cm cm1 : Manager) (sc : gmap string pyval)
    (dflt : option string) (now dp : string) (q : QueryConfig)
    (lrt : string) (bs : Z) (ts : string) :
  get_systemdate_config cm = (cm1, Ok sc) ->
  let q' := if bool_decide (sc = ∅) then q else ranged dflt q sc (Some lrt) now in
  let count := get_record_count (app_config qp) (database qp) 0 q' lrt in
  let headers := get_headers keys (app_config qp) (database qp) 1 q' lrt in
  let answer := process_query fuel keys env (Some qp) (Some cm) dflt now dp q lrt bs ts in
  (forall e, count = Raise e -> answer = Some (Some cm1, Raise e))
  /\ (count = Ok 0%Z ->
      answer = Some (Some cm1,
                     Ok (Some {| query_name := name q; batch_count := 0; row_count := 0;
                                 total_size_bytes := 0;
                                 total_size_formatted := format_file_size env 0 |})))
  /\ (forall n e, count = Ok n -> n <> 0%Z -> headers = Raise e ->
        answer = Some (Some cm1, Raise e))
  /\ (forall n, count = Ok n -> n <> 0%Z -> headers = Ok [] ->
        answer = Some (Some cm1, Ok None)).
Proof.
  intros Hs q' count headers answer. subst answer. unfold process_query. rewrite Hs.
  fold q'. fold count. fold headers.
  repeat split.
  - intros e ->. reflexivity.
  - intros ->. reflexivity.
  - intros n e -> Hn ->. now destruct (Z.eqb_spec n 0).
  - intros n -> Hn ->. now destruct (Z.eqb_spec n 0).
Qed.

Lemma process_query_follows_the_probes_witness :
  process_query 0 column_names Sample.sink (Some no_data) (Some (manager None))
    (Some "main_db") "2024-03-01 00:00:00" "data" Sample.full_load "2024-01-01 00:00:00" 2
    "20240301/000000"
  = Some (Some (fst (get_systemdate_config (manager None))),
          Ok (Some {| query_name := "Items"; batch_count := 0; row_count := 0;
                      total_size_bytes := 0; total_size_formatted := "0 B" |}))
  /\ process_query 3 column_names Sample.sink (Some Sample.down) (Some (manager None))
       (Some "main_db") "2024-03-01 00:00:00" "data" Sample.full_load "2024-01-01 00:00:00"
       2 "20240301/000000"
     = Some (Some (fst (get_systemdate_config (manager None))),
             Raise (OtherError "connection refused")).
Proof.
  split.
  - apply (proj1 (proj2 (process_query_follows_the_probes 0 column_names Sample.sink no_data
                           (manager None) (fst (get_systemdate_config (manager None))) ∅
                           (Some "main_db") "2024-03-01 00:00:00" "data" Sample.full_load
                           "2024-01-01 00:00:00" 2 "20240301/000000" eq_refl))).
    vm_compute. reflexivity.
  - apply (proj1 (process_query_follows_the_probes 3 column_names Sample.sink Sample.down
                    (manager None) (fst (get_systemdate_config (manager None))) ∅
                    (Some "main_db") "2024-03-01 00:00:00" "data" Sample.full_load
                    "2024-01-01 00:00:00" 2 "20240301/000000" eq_refl)).
    vm_compute. reflexivity.
Defined.

(** X8 (one query from the count to the result; process_query with
    get_record_count, get_headers and _process_batches).  When the count
    is not 0, the header probe names columns, the first [k] batches are
    fetched and uploaded and the next one is empty, the query is reported
    under its name with [k] batches, the rows fetched in them and the
    bytes uploaded; the statements are those of the definition that the
    date range left, with the columns of the probe. *)
Theorem query_is_processed_in_batches
    (fuel : nat) (keys : Cursor -> outcome (list string)) (env : Collaborators)
    (qp : Processor) (cm cm1 : Manager) (sc : gmap string pyval)
    (dflt : option string) (now dp : string) (q : QueryConfig)
    (lrt : string) (bs : Z) (ts : string) (n : Z) (h : string) (hs : list string)
    (k : nat) :
  get_systemdate_config cm = (cm1, Ok sc) ->
  let q' := if bool_decide (sc = ∅) then q else ranged dflt q sc (Some lrt) now in
  get_record_count (app_config qp) (database qp) 0 q' lrt = Ok n -> n <> 0%Z ->
  get_headers keys (app_config qp) (database qp) 1 q' lrt = Ok (h :: hs) ->
  bs <> 0%Z ->
  (forall j, (j < k)%nat -> completes env (later 2 qp) dp q' (h :: hs) lrt bs ts j) ->
  check_execution_apply env k = Ok true ->
  batch_at (later 2 qp) q' (h :: hs) lrt bs k = Ok [] ->
  (k < fuel)%nat ->
  process_query fuel keys env (Some qp) (Some cm) dflt now dp q lrt bs ts
  = Some (Some cm1,
          Ok (Some {| query_name := name q;
                      batch_count := Z.of_nat k;
                      row_count :=
                        total (fun j => Z.of_nat (List.length
                                 (rows_of (later 2 qp) q' (h :: hs) lrt bs j))) k;
                      total_size_bytes :=
                        total (bytes_of env (later 2 qp) dp q' (h :: hs) lrt bs ts) k;
                      total_size_formatted :=
                        format_file_size env
                          (total (bytes_of env (later 2 qp) dp q' (h :: hs) lrt bs ts) k) |})).
Proof.
  intros Hs q' Hc Hn Hh Hbs Hdone Hg Hb Hf. unfold process_query. rewrite Hs. fold q'.
  rewrite Hc. destruct (Z.eqb_spec n 0) as [|_]; [contradiction|]. rewrite Hh.
  unfold _process_batches. destruct (Z.eqb_spec bs 0) as [|_]; [contradiction|].
  rewrite (BatchFacts.loop_ends_empty env (later 2 qp) dp q' (h :: hs) lrt bs ts n k fuel
             Hn Hdone Hg Hb Hf).
  unfold result_of. cbn [Batches.after batch_number processed_rows query_total_size].
  assert (Hname : name q' = name q).
  { subst q'. destruct (bool_decide _); [reflexivity|]. apply RunFacts.ranged_fields. }
  now rewrite Hname.
Qed.

Lemma query_is_processed_in_batches_witness :
  process_query 4 column_names Sample.sink (Some endless) (Some (manager None))
    (Some "main_db") "2024-03-01 00:00:00" "data" Sample.full_load "2024-01-01 00:00:00" 2
    "20240301/000000"
  = None
  /\ process_query 4 column_names Sample.sink (Some three_calls) (Some (manager None))
       (Some "main_db") "2024-03-01 00:00:00" "data" Sample.full_load "2024-01-01 00:00:00"
       2 "20240301/000000"
     = Some (Some (fst (get_systemdate_config (manager None))),
             Ok (Some {| query_name := "Items"; batch_count := 1; row_count := 2;
                         total_size_bytes := 10; total_size_formatted := "10 B" |})).
Proof.
  split; [vm_compute; reflexivity|].
  rewrite (query_is_processed_in_batches 4 column_names Sample.sink three_calls
             (manager None) (fst (get_systemdate_config (manager None))) ∅
             (Some "main_db") "2024-03-01 00:00:00" "data" Sample.full_load
             "2024-01-01 00:00:00" 2 "20240301/000000" 1 "a" [] 1).
  - reflexivity.
  - reflexivity.
  - vm_compute. reflexivity.
  - lia.
  - vm_compute. reflexivity.
  - lia.
  - intros j Hj. assert (j = 0)%nat as -> by lia.
    split; [reflexivity|]. exists [CInt 1], [[CInt 2]], 10%Z.
    split; vm_compute; reflexivity.
  - reflexivity.
  - vm_compute. reflexivity.
  - lia.
Defined.

(** X9 (the result carries the name of the query; process_query).
    Whatever the date range did to the definition that is sent to the
    database, a result is reported under the name of the query that was
    asked for. *)
Theorem result_is_named_after_the_query
    (fuel : nat) (keys : Cursor -> outcome (list string)) (env : Collaborators)
    (qp : option Processor) (cm cm' : option Manager)
    (dflt : option string) (now dp : string) (q : QueryConfig)
    (lrt : string) (bs : Z) (ts : string) (r : ProcessingResult) :
  process_query fuel keys env qp cm dflt now dp q lrt bs ts = Some (cm', Ok (Some r)) ->
  query_name r = name q.
Proof.
  unfold process_query. destruct qp as [p|]; [|discriminate].
  destruct cm as [cm|]; [|discriminate].
  destruct (get_systemdate_config cm) as [cm1 [sc|]]; [|discriminate].
  set (q' := if bool_decide (sc = ∅) then q else _).
  assert (Hn : name q' = name q).
  { subst q'. destruct (bool_decide _); [reflexivity|]. apply RunFacts.ranged_fields. }
  destruct (get_record_count _ _ _ _ _) as [n|]; [|discriminate].
  destruct (n =? 0)%Z; [now intros [= _ <-]|].
  destruct (get_headers _ _ _ _ _ _) as [[|h hs]|]; try discriminate.
  destruct (_process_batches _ _ _ _ _ _ _ _ _ _) as [[res|]|] eqn:E; try discriminate.
  intros [= _ <-]. rewrite <- Hn. eapply RunFacts.batches_named, E.
Qed.

Lemma result_is_named_after_the_query_witness :
  query_name {| query_name := "Items"; batch_count := 0; row_count := 0;
                total_size_bytes := 0; total_size_formatted := "0 B" |}
  = name Sample.full_load.
Proof.
  apply (result_is_named_after_the_query 3 column_names Sample.sink (Some no_data)
           (Some (manager (Some Sample.enabled_range)))
           (Some (fst (get_systemdate_config (manager (Some Sample.enabled_range)))))
           (Some "main_db") "2024-03-01 00:00:00" "data" Sample.full_load
           "2024-01-01 00:00:00" 2 "20240301/000000").
  vm_compute. reflexivity.
Defined.

(** X10 (a range that is not enabled; process_query with
    get_systemdate_config).  When the configuration of the bucket cannot
    be loaded, or its SYSTEMDATE section is missing or not enabled, the
    query is processed as it stands: the default of the constructor and
    the clock play no part in the outcome. *)
Theorem disabled_range_leaves_the_query_alone
    (fuel : nat) (keys : Cursor -> outcome (list string)) (env : Collaborators)
    (qp : option Processor) (cm : Manager)
    (dflt dflt' : option string) (now now' dp : string) (q : QueryConfig)
    (lrt : string) (bs : Z) (ts : string) :
  (forall c, snd (_load_gcs_config cm) = Ok c ->
             truth (default ∅ (SYSTEMDATE c) !! "enabled") = false) ->
  process_query fuel keys env qp (Some cm) dflt now dp q lrt bs ts
  = process_query fuel keys env qp (Some cm) dflt' now' dp q lrt bs ts.
Proof.
  intros H. unfold process_query. destruct qp as [p|]; [|reflexivity].
  unfold get_systemdate_config.
  destruct (_load_gcs_config cm) as [cm1 [c|e]] eqn:E.
  - rewrite (H c eq_refl). cbn [negb]. now rewrite bool_decide_eq_true_2.
  - apply ConfigFacts.load_raises_config_error in E as ->.
    change (is_ConfigError ConfigError) with true. cbn iota.
    now rewrite bool_decide_eq_true_2.
Qed.

Lemma disabled_range_leaves_the_query_alone_witness :
  process_query 3 column_names Sample.sink (Some no_data) (Some (manager None))
    (Some "main_db") "2024-03-01 00:00:00" "data" Sample.orders "2024-01-01 00:00:00" 2
    "20240301/000000"
  = process_query 3 column_names Sample.sink (Some no_data) (Some (manager None))
      None "" "data" Sample.orders "2024-01-01 00:00:00" 2 "20240301/000000".
Proof.
  apply (disabled_range_leaves_the_query_alone 3 column_names Sample.sink (Some no_data)
           (manager None)).
  intros c [= <-]. reflexivity.
Defined.

(** X11 (which database a ranged query goes to; process_query with
    process_query_with_systemdate_range).  The copy made for the date
    range is built without database_name, so it carries the default of the
    constructor: with a non-empty SYSTEMDATE configuration, the outcome of
    a query depends on the database of that default name only, whatever
    database the query itself names. *)
Theorem ranged_query_goes_to_the_default_database
    (fuel : nat) (keys : Cursor -> outcome (list string)) (env : Collaborators)
    (qp qp' : Processor) (cm cm1 : Manager) (sc : gmap string pyval)
    (d now dp : string) (q : QueryConfig) (lrt : string) (bs : Z) (ts : string) :
  get_systemdate_config cm = (cm1, Ok sc) -> sc <> ∅ ->
  app_config qp = app_config qp' ->
  (forall t, database qp t d = database qp' t d) ->
  process_query fuel keys env (Some qp) (Some cm) (Some d) now dp q lrt bs ts
  = process_query fuel keys env (Some qp') (Some cm) (Some d) now dp q lrt bs ts.
Proof.
  intros Hs Hne Hcfg Hdb. unfold process_query. rewrite Hs.
  rewrite bool_decide_eq_false_2 by exact Hne.
  set (q' := ranged (Some d) q sc (Some lrt) now).
  assert (Hd : database_name q' = d) by now apply RunFacts.ranged_fields.
  unfold get_record_count, get_headers. rewrite Hd, <- !Hdb, <- Hcfg.
  destruct (try_except _ _) as [n|]; [|reflexivity].
  destruct (n =? 0)%Z; [reflexivity|].
  destruct (try_except _ _) as [[|h hs]|]; try reflexivity.
  unfold _process_batches. destruct (bs =? 0)%Z; [reflexivity|].
  now rewrite (RedirectFacts.loop_same qp qp' d Hcfg Hdb).
Qed.

Lemma ranged_query_goes_to_the_default_database_witness :
  process_query 3 column_names Sample.sink (Some main_only)
    (Some (manager (Some Sample.enabled_range))) (Some "main_db") "2024-03-01 00:00:00"
    "data" Sample.orders "2024-01-01 00:00:00" 2 "20240301/000000"
  = process_query 3 column_names Sample.sink (Some no_data)
      (Some (manager (Some Sample.enabled_range))) (Some "main_db") "2024-03-01 00:00:00"
      "data" Sample.orders "2024-01-01 00:00:00" 2 "20240301/000000".
Proof.
  apply (ranged_query_goes_to_the_default_database 3 column_names Sample.sink main_only no_data
           (manager (Some Sample.enabled_range))
           (fst (get_systemdate_config (manager (Some Sample.enabled_range))))
           Sample.enabled_range "main_db").
  - reflexivity.
  - intros H. apply (f_equal (fun m => m !! "enabled")) in H. vm_compute in H. discriminate H.
  - reflexivity.
  - intros t. reflexivity.
Defined.

(** X12 (a ranged query keeps its parameter; process_query_with_systemdate_range
    with apply_systemdate_range and the statements of get_record_count,
    get_headers and execute_batch).  For an incremental query with a
    timestamp column whose text has WHERE and the placeholder, the copy
    made under an enabled range has no placeholder left in its text, and
    is still incremental with its timestamp column: its statements are
    sent with last_run_time bound, to a text that no longer names it. *)
Theorem ranged_query_keeps_its_parameter
    (d : string) (q : QueryConfig) (systemdate_config : gmap string pyval)
    (last_run_time now_text column : string) :
  is_incremental q = true -> timestamp_column q = Some column -> column <> "" ->
  truth (systemdate_config !! "enabled") = true ->
  Str.contains "WHERE" (Str.upper (sql q)) = true ->
  Str.contains placeholder (sql q) = true ->
  Str.contains placeholder (start_of systemdate_config (Some last_run_time)) = false ->
  let q' := ranged (Some d) q systemdate_config (Some last_run_time) now_text in
  Str.contains placeholder (sql q') = false
  /\ bound_params q' last_run_time = Some last_run_time.
Proof.
  intros Hi Ht Hc He Hw Hp Hs q'.
  destruct (RunFacts.ranged_fields (Some d) q systemdate_config (Some last_run_time) now_text)
    as (_ & _ & Hi' & Ht' & _ & _ & Hsql).
  fold q' in Hi', Ht', Hsql. split.
  - rewrite (Hsql d eq_refl), Hi, Ht. cbn [truthy_column andb].
    destruct column; [contradiction|]. cbn [nonempty].
    now apply ReplaceFacts.placeholder_gone.
  - unfold bound_params. rewrite Hi', Ht', Hi, Ht. cbn [andb].
    rewrite bool_decide_eq_true_2; [reflexivity|eauto].
Qed.

Lemma ranged_query_keeps_its_parameter_witness :
  let q' := ranged (Some "main_db") Sample.orders Sample.enabled_range
              (Some "2024-01-01 00:00:00") "2024-03-01 00:00:00" in
  sql q' = "SELECT a, b FROM T WHERE ts > '2024-01-01 00:00:00'"
  /\ Str.contains placeholder (sql q') = false
  /\ bound_params q' "2024-01-01 00:00:00" = Some "2024-01-01 00:00:00".
Proof.
  split; [vm_compute; reflexivity|].
  apply (ranged_query_keeps_its_parameter "main_db" Sample.orders Sample.enabled_range
           "2024-01-01 00:00:00" "2024-03-01 00:00:00" "ts");
    first [discriminate | vm_compute; reflexivity].
Defined.

(** X13 (the placeholder under a date range; apply_systemdate_range).
    With the range enabled, a text that has WHERE and the placeholder
    :last_run_time comes back without any placeholder, provided the
    start of the range does not spell one; and it comes back the same
    whatever the end of the range is: in this case the end is not
    applied. *)
Theorem range_binds_every_placeholder
    (sql : string) (systemdate_config : gmap string pyval)
    (last_run_time : option string) (now_text : string) :
  truth (systemdate_config !! "enabled") = true ->
  Str.contains "WHERE" (Str.upper sql) = true ->
  Str.contains placeholder sql = true ->
  Str.contains placeholder (start_of systemdate_config last_run_time) = false ->
  Str.contains placeholder
    (apply_systemdate_range sql systemdate_config last_run_time now_text) = false
  /\ forall end_date now_text',
       apply_systemdate_range sql (<["end_date" := end_date]> systemdate_config)
         last_run_time now_text'
       = apply_systemdate_range sql systemdate_config last_run_time now_text.
Proof.
  intros He Hw Hp Hs. split.
  - now apply ReplaceFacts.placeholder_gone.
  - intros end_date now'. unfold apply_systemdate_range, start_of.
    rewrite !lookup_insert_ne by discriminate. now rewrite He, Hw, Hp.
Qed.

Lemma range_binds_every_placeholder_witness :
  Str.contains placeholder
    (apply_systemdate_range (sql Sample.orders) Sample.enabled_range None
       "2024-03-01 00:00:00") = false
  /\ forall end_date now_text',
       apply_systemdate_range (sql Sample.orders)
         (<["end_date" := end_date]> Sample.enabled_range) None now_text'
       = apply_systemdate_range (sql Sample.orders) Sample.enabled_range None
           "2024-03-01 00:00:00".
Proof.
  apply (range_binds_every_placeholder (sql Sample.orders) Sample.enabled_range None
           "2024-03-01 00:00:00"); vm_compute; reflexivity.
Defined.

(** X14 (names, results and directories of a run; process_all_queries).
    When the run returns, the list of names is the list of the names in
    the results, in the same order, and the directories asked for are
    those of the results without rows. *)
Theorem run_lists_are_consistent
    (fuel : nat) (keys : Cursor -> outcome (list string))
    (initialize set_query_processor : outcome unit)
    (envs : nat -> Collaborators) (cfg : option AppConfig) (dbs : nat -> Database)
    (history : Database) (fromisoformat : string -> outcome Datetime.datetime)
    (new_query : gmap string value -> outcome QueryConfig)
    (dflt : option string) (nows : nat -> string) (dp ts : string)
    (now : Datetime.datetime) (cm : option Manager)
    (force : bool) (lookback : Z) (lrt : string)
    (done : progress) (t : Datetime.datetime) :
  process_all_queries fuel keys initialize set_query_processor envs cfg dbs history
    fromisoformat new_query dflt nows dp ts now cm force lookback lrt
  = Some (Ok (done, t)) ->
  consistent (dp +:+ "/" +:+ ts) done.
Proof.
  unfold process_all_queries. destruct initialize; [|discriminate].
  destruct (load_queries_config new_query cm) as [cm1 [[queries settings]|]];
    [|discriminate].
  destruct set_query_processor; [|discriminate].
  destruct (batch_size settings) as [bs|]; [|discriminate].
  destruct (query_loop _ _ _ _ _ _ _ _ _ _ _ _ _ _ _) as [[cm2 [d|]]|] eqn:E;
    try discriminate.
  destruct (update_run_time _ _ _ _); [|discriminate]. intros [= <- _].
  eapply RunFacts.query_loop_consistent; [|exact E]. now split.
Qed.

Lemma run_lists_are_consistent_witness :
  consistent ("data" +:+ "/" +:+ "20240301/000000")
    {| uploaded_queries := ["Items"];
       processing_results :=
         [{| query_name := "Items"; batch_count := 0; row_count := 0;
             total_size_bytes := 0; total_size_formatted := "0 B" |}];
       directories := [("data/20240301/000000", "Items")] |}.
Proof.
  apply (run_lists_are_consistent 3 column_names (Ok tt) (Ok tt) (fun _ => Sample.sink) None
           (fun _ => empty_db) (database (Sample.history Sample.new_year)) Sample.no_iso
           items (Some "main_db") (fun _ => "2024-03-01 00:00:00") "data" "20240301/000000"
           Sample.a_moment (Some (manager None)) false 0 "2024-01-01 00:00:00" _
           {| Datetime.wall := 63839664000000000; Datetime.tzinfo := Some 32400000000%Z |}).
  vm_compute. reflexivity.
Defined.

(** X15 (the table filter; process_all_queries).  The names that a run
    returns are names of configured queries, in the order of the
    configuration; with the filter switched on and a non-empty list of
    target tables, each of them belongs to a query whose target table
    is in the list. *)
Theorem run_respects_table_filter
    (fuel : nat) (keys : Cursor -> outcome (list string))
    (initialize set_query_processor : outcome unit)
    (envs : nat -> Collaborators) (cfg : option AppConfig) (dbs : nat -> Database)
    (history : Database) (fromisoformat : string -> outcome Datetime.datetime)
    (new_query : gmap string value -> outcome QueryConfig)
    (dflt : option string) (nows : nat -> string) (dp ts : string)
    (now : Datetime.datetime) (cm : option Manager)
    (force : bool) (lookback : Z) (lrt : string)
    (done : progress) (t : Datetime.datetime) :
  process_all_queries fuel keys initialize set_query_processor envs cfg dbs history
    fromisoformat new_query dflt nows dp ts now cm force lookback lrt
  = Some (Ok (done, t)) ->
  exists cm1 queries settings kept,
    load_queries_config new_query cm = (cm1, Ok (queries, settings))
    /\ sublist kept queries
    /\ uploaded_queries done = List.map name kept
    /\ forall tables,
         enable_table_filtering settings = Some true ->
         target_tables settings = Some tables -> tables <> [] ->
         forall q, q ∈ kept -> target_table q ∈ tables.
Proof.
  unfold process_all_queries. destruct initialize; [|discriminate].
  destruct (load_queries_config new_query cm) as [cm1 [[queries settings]|]];
    [|discriminate].
  destruct set_query_processor; [|discriminate].
  destruct (batch_size settings) as [bs|]; [|discriminate].
  destruct (query_loop _ _ _ _ _ _ _ _ _ _ _ _ _ _ _) as [[cm2 [d|]]|] eqn:E;
    try discriminate.
  destruct (update_run_time _ _ _ _); [|discriminate]. intros [= <- _].
  apply RunFacts.query_loop_names in E as (kept & Hs & Hu). cbn in Hu.
  exists cm1, queries, settings, kept. split; [reflexivity|].
  assert (Hsub : sublist (queries_to_process settings queries) queries).
  { unfold queries_to_process. destruct (_ && _); [|reflexivity].
    clear. induction queries as [|q qs IH]; [constructor|]. cbn [List.filter].
    destruct (bool_decide _); now constructor. }
  split; [now transitivity (queries_to_process settings queries)|].
  split; [exact Hu|].
  intros tables He Ht Hne q Hq. unfold queries_to_process in Hs. rewrite He, Ht in Hs.
  cbn [default] in Hs. rewrite bool_decide_eq_false_2 in Hs by exact Hne.
  cbn [andb negb] in Hs.
  assert (Hin : In q (List.filter (fun q => bool_decide (target_table q ∈ tables)) queries)).
  { apply list_elem_of_In. eapply sublist_subseteq; [exact Hs|exact Hq]. }
  apply List.filter_In in Hin as [_ Hin]. now apply bool_decide_eq_true_1 in Hin.
Qed.

Lemma run_respects_table_filter_witness :
  exists cm1 queries settings kept,
    load_queries_config items (Some (manager None)) = (cm1, Ok (queries, settings))
    /\ sublist kept queries
    /\ ["Items"] = List.map name kept
    /\ forall tables,
         enable_table_filtering settings = Some true ->
         target_tables settings = Some tables -> tables <> [] ->
         forall q, q ∈ kept -> target_table q ∈ tables.
Proof.
  apply (run_respects_table_filter 3 column_names (Ok tt) (Ok tt) (fun _ => Sample.sink) None
           (fun _ => empty_db) (database (Sample.history Sample.new_year)) Sample.no_iso
           items (Some "main_db") (fun _ => "2024-03-01 00:00:00") "data" "20240301/000000"
           Sample.a_moment (Some (manager None)) false 0 "2024-01-01 00:00:00"
           {| uploaded_queries := ["Items"];
              processing_results :=
                [{| query_name := "Items"; batch_count := 0; row_count := 0;
                    total_size_bytes := 0; total_size_formatted := "0 B" |}];
              directories := [("data/20240301/000000", "Items")] |}
           {| Datetime.wall := 63839664000000000; Datetime.tzinfo := Some 32400000000%Z |}).
  vm_compute. reflexivity.
Defined.

(** X16 (a load that fails once; process_all_queries with
    load_queries_config, get_queries_config and get_settings_config).  If
    the configuration cannot be read from the bucket when the queries are
    asked for, and can when the settings are asked for next, then the run
    has no query at all: it ends without error, with empty lists and the
    next watermark, whatever queries the configuration holds. *)
Theorem failed_first_load_empties_the_run
    (fuel : nat) (keys : Cursor -> outcome (list string))
    (envs : nat -> Collaborators) (cfg : option AppConfig) (dbs : nat -> Database)
    (history : Database) (fromisoformat : string -> outcome Datetime.datetime)
    (new_query : gmap string value -> outcome QueryConfig)
    (dflt : option string) (nows : nat -> string) (dp ts : string)
    (now : Datetime.datetime) (force : bool) (lookback : Z) (lrt : string)
    (load_config_from_gcs : nat -> outcome GcsConfig) (raw : RawConfig) (n : nat)
    (e : exn) (c : GcsConfig) (settings : Settings) (bs : Z) (t : Datetime.datetime) :
  load_config_from_gcs n = Raise e ->
  load_config_from_gcs (S n) = Ok c ->
  SETTINGS c = Some settings -> batch_size settings = Some bs ->
  update_run_time fromisoformat {| app_config := cfg; database := history |} 0 now = Ok t ->
  process_all_queries fuel keys (Ok tt) (Ok tt) envs cfg dbs history
    fromisoformat new_query dflt nows dp ts now
    (Some {| gcs_manager := Some load_config_from_gcs; _raw_config := raw;
             _gcs_config := None; loads := n |})
    force lookback lrt
  = Some (Ok (nothing_done, t)).
Proof.
  intros H0 H1 Hs Hb Hw. unfold process_all_queries, load_queries_config,
    get_queries_config, get_settings_config, _load_gcs_config.
  cbn [gcs_manager _gcs_config loads]. rewrite H0.
  change (is_ConfigError ConfigError) with true. cbn iota.
  cbn [gcs_manager _gcs_config loads]. rewrite H1, Hs. cbn [default from_option id]. rewrite Hb.
  assert (Hq : queries_to_process settings [] = []).
  { unfold queries_to_process. now destruct (_ && _). }
  rewrite Hq. cbn [query_loop]. now rewrite Hw.
Qed.

Lemma failed_first_load_empties_the_run_witness :
  process_all_queries 3 column_names (Ok tt) (Ok tt) (fun _ => Sample.sink) None
    (fun _ => counting_db) (database (Sample.history Sample.new_year)) Sample.no_iso items
    (Some "main_db") (fun _ => "2024-03-01 00:00:00") "data" "20240301/000000"
    Sample.a_moment
    (Some {| gcs_manager := Some flaky; _raw_config := local_file; _gcs_config := None;
             loads := 0 |})
    false 0 "2024-01-01 00:00:00"
  = Some (Ok (nothing_done,
              {| Datetime.wall := 63839664000000000;
                 Datetime.tzinfo := Some 32400000000%Z |})).
Proof.
  apply (failed_first_load_empties_the_run 3 column_names (fun _ => Sample.sink) None
           (fun _ => counting_db) (database (Sample.history Sample.new_year)) Sample.no_iso
           items (Some "main_db") (fun _ => "2024-03-01 00:00:00") "data" "20240301/000000"
           Sample.a_moment false 0 "2024-01-01 00:00:00" flaky local_file 0
           (OtherError "ServiceUnavailable") (stored None) two_settings 2).
  - reflexivity.
  - reflexivity.
  - reflexivity.
  - reflexivity.
  - vm_compute. reflexivity.
Defined.

(** X17 (one failing query ends the run; process_all_queries).  When the
    queries before some selected query have been processed and that query
    raises, the run raises the same exception: no later query is
    processed and nothing is returned for the earlier ones. *)
Theorem failing_query_ends_the_run
    (fuel : nat) (keys : Cursor -> outcome (list string))
    (envs : nat -> Collaborators) (cfg : option AppConfig) (dbs : nat -> Database)
    (history : Database) (fromisoformat : string -> outcome Datetime.datetime)
    (new_query : gmap string value -> outcome QueryConfig)
    (dflt : option string) (nows : nat -> string) (dp ts : string)
    (now : Datetime.datetime) (cm : option Manager)
    (force : bool) (lookback : Z) (lrt : string)
    (cm1 cmj cm' : option Manager) (queries pre post : list QueryConfig)
    (q : QueryConfig) (settings : Settings) (bs : Z) (donej : progress) (e : exn) :
  load_queries_config new_query cm = (cm1, Ok (queries, settings)) ->
  batch_size settings = Some bs ->
  queries_to_process settings queries = (pre ++ q :: post)%list ->
  query_loop fuel keys envs cfg dbs dflt nows dp lrt bs ts 0 pre cm1 nothing_done
  = Some (cmj, Ok donej) ->
  process_query fuel keys (envs (List.length pre))
    (Some {| app_config := cfg; database := dbs (List.length pre) |})
    cmj dflt (nows (List.length pre)) dp q lrt bs ts = Some (cm', Raise e) ->
  process_all_queries fuel keys (Ok tt) (Ok tt) envs cfg dbs history
    fromisoformat new_query dflt nows dp ts now cm force lookback lrt
  = Some (Raise e).
Proof.
  intros Hl Hb Hq Hpre Hfail. unfold process_all_queries. rewrite Hl, Hb, Hq.
  now rewrite (LoopOverQueries.query_loop_stops fuel keys envs cfg dbs dflt nows dp lrt
                 bs ts e pre 0%nat cm1 nothing_done cmj donej q post cm' Hpre Hfail).
Qed.

Lemma failing_query_ends_the_run_witness :
  run_over (fun _ => Sample.unreachable_db) (manager None)
  = Some (Raise (OtherError "connection refused")).
Proof.
  apply (failing_query_ends_the_run 3 column_names (fun _ => Sample.sink) None
           (fun _ => Sample.unreachable_db) (database (Sample.history Sample.new_year))
           Sample.no_iso items (Some "main_db") (fun _ => "2024-03-01 00:00:00") "data"
           "20240301/000000" Sample.a_moment (Some (manager None)) false 0
           "2024-01-01 00:00:00"
           (fst (load_queries_config items (Some (manager None))))
           (fst (load_queries_config items (Some (manager None))))
           (fst (load_queries_config items (Some (manager None))))
           [Sample.full_load] [] [] Sample.full_load two_settings 2 nothing_done
           (OtherError "connection refused")).
  - reflexivity.
  - reflexivity.
  - reflexivity.
  - reflexivity.
  - vm_compute. reflexivity.
Defined.

(** X18 (the storage settings; get_gcs_config).  A key of the result
    holds the value of its STORAGE entry, and only a value other than
    None: a missing or empty entry leaves the key out of the result. *)
Theorem gcs_config_leaves_out_what_is_not_set (self : Manager) (k : string) (v : value) :
  get_gcs_config self !! k = Some v <->
  v <> VNone
  /\ exists source,
       (k, source) ∈ [("bucket_name", "TARGET_BUCKET"); ("metadata_path", "METADATA_PATH");
                      ("metadata_name", "METADATA_NAME"); ("data_path", "DATA_PATH");
                      ("config_path", "CONFIG_PATH"); ("config_name", "CONFIG_NAME")]
       /\ default ∅ (STORAGE (_raw_config self)) !! source = Some v.
Proof.
  unfold get_gcs_config. set (st := default ∅ (STORAGE (_raw_config self))).
  rewrite map_lookup_filter_Some. cbn [snd].
  rewrite !lookup_insert_Some, lookup_empty. unfold get.
  split.
  - intros [H Hv]. split; [exact Hv|].
    destruct H as [[<- <-]|[_ [[<- <-]|[_ [[<- <-]|[_ [[<- <-]|[_ [[<- <-]|[_ [[<- <-]|[_ [=]]]]]]]]]]]]];
      match goal with
      | Hv : default VNone (st !! ?s) <> VNone |- _ =>
          exists s; split; [set_solver|]; destruct (st !! s); [reflexivity|contradiction]
      end.
  - intros [Hv (s & Hin & Hs)]. split; [|exact Hv].
    rewrite !elem_of_cons, elem_of_nil in Hin.
    destruct Hin as [[= -> ->]|[[= -> ->]|[[= -> ->]|[[= -> ->]|[[= -> ->]|[[= -> ->]|[]]]]]]];
      rewrite Hs; cbn [default from_option id];
      repeat (first [left; split; reflexivity | right; split; [discriminate|]]).
Qed.

(** X19 (the configuration is read from the bucket once;
    _load_gcs_config with the three getters).  After a load that
    succeeded, a further load and each getter answer from the cache: the
    manager is left as it is, so load_config_from_gcs is not called
    again, and the answers are those of the configuration that was
    read. *)
Theorem configuration_is_loaded_once
    (new_query : gmap string value -> outcome QueryConfig)
    (self self' : Manager) (c : GcsConfig) :
  _load_gcs_config self = (self', Ok c) ->
  _load_gcs_config self' = (self', Ok c)
  /\ get_settings_config self' = (self', Ok (default no_settings (SETTINGS c)))
  /\ get_queries_config new_query self'
     = (self', construct new_query (default [] (QUERIES c)))
  /\ fst (get_systemdate_config self') = self'
  /\ (loads self' <= S (loads self))%nat.
Proof.
  intros H.
  assert (Hc : _load_gcs_config self' = (self', Ok c)).
  { revert H. unfold _load_gcs_config.
    destruct (gcs_manager self) as [load|] eqn:Hg; [|discriminate].
    destruct (_gcs_config self) as [c0|] eqn:Hc.
    - intros [= <- <-]. now rewrite Hg, Hc.
    - destruct (load (loads self)); [|discriminate]. intros [= <- <-].
      reflexivity. }
  split; [exact Hc|].
  unfold get_settings_config, get_queries_config, get_systemdate_config. rewrite Hc.
  repeat split.
  - now destruct (negb _).
  - revert H. unfold _load_gcs_config. destruct (gcs_manager self) as [load|]; [|discriminate].
    destruct (_gcs_config self); [intros [= <- _]; lia|].
    destruct (load _); [|discriminate]. intros [= <- _]. cbn. lia.
Qed.

Lemma configuration_is_loaded_once_witness :
  let loaded := fst (_load_gcs_config (manager None)) in
  _load_gcs_config loaded = (loaded, Ok (stored None))
  /\ get_settings_config loaded = (loaded, Ok two_settings)
  /\ get_queries_config items loaded = (loaded, Ok [Sample.full_load])
  /\ fst (get_systemdate_config loaded) = loaded
  /\ (loads loaded <= 1)%nat.
Proof.
  exact (configuration_is_loaded_once items (manager None)
           (fst (_load_gcs_config (manager None))) (stored None) eq_refl).
Defined.


(** X21 (names and configurations of databases; get_database_config and
    get_all_database_names).  The configuration of a database can be
    read exactly when its name is among the names that are listed;
    otherwise the call raises.  A configuration that is read always has
    a type, which is mssql when the entry does not give one. *)
Theorem listed_databases_are_the_configured_ones (self : Manager) (database_name : string) :
  ((exists conf, get_database_config self database_name = Ok conf)
   <-> database_name ∈ get_all_database_names self)
  /\ (forall conf, get_database_config self database_name = Ok conf ->
        exists entry,
          item (default [] (DATABASES (_raw_config self))) database_name = Some entry
          /\ conf !! "db_type" = Some (default (VStr "mssql") (entry !! "TYPE"))
          /\ dom conf = list_to_set ["db_user"; "db_pass"; "db_name"; "db_host";
                                     "db_port"; "db_type"]).
Proof.
  unfold get_database_config, get_all_database_names.
  set (dbs := default [] (DATABASES (_raw_config self))).
  pose proof (ManagerFacts.item_names dbs database_name) as Hi.
  destruct (item dbs database_name) as [entry|].
  - split.
    + split; [intros _; apply Hi; eauto|eauto].
    + intros conf [= <-]. exists entry. split; [reflexivity|]. split.
      * now rewrite !lookup_insert_ne, lookup_insert_eq by discriminate.
      * rewrite !dom_insert_L, dom_empty_L. cbn. set_solver.
  - split.
    + split; [intros [? [=]]|]. intros H. apply Hi in H as [? [=]].
    + discriminate.
Qed.

(** X22 (the two detectors of a WITH clause; _has_with_clause and
    _analyze_with_structure).  The pattern of _has_with_clause and the
    pattern that the analysis counts differ by a capture group only: the
    two functions agree on every text. *)
Theorem with_detectors_agree (sql : string) :
  _has_with_clause sql = has_with (_analyze_with_structure sql).
Proof.
  unfold _has_with_clause, _analyze_with_structure.
  pose proof (AnalysisFacts.with_found sql) as H.
  destruct (Re.finditer Pat.IS Pat.with_pattern sql) as [|m ms].
  - destruct (Re.search _ _ _); [|reflexivity]. destruct H as [_ H]. now specialize (H eq_refl).
  - destruct (Re.search _ Pat.has_with_pattern _).
    + destruct (_ <? _)%nat.
      * now destruct (List.last _ _).
      * destruct (Re.search _ Pat.single_cte_pattern _); [reflexivity|].
        now destruct (Re.search _ Pat.flexible_cte_pattern _).
    + destruct H as [H _]. now specialize (H eq_refl).
Qed.

(** X23 (what the analysis keeps true; _analyze_with_structure).
    Without a WITH keyword the result is the empty analysis; with one,
    the count is positive.  A query is called complex only when at least
    two WITH keywords were counted and a CTE was read; with exactly one
    WITH keyword it is never complex and has at most one name, since
    the looser pattern with comma-separated CTEs is tried only where
    the pattern of a single CTE has failed, and there it fails too. *)
Theorem analysis_is_coherent (sql : string) :
  let a := _analyze_with_structure sql in
  (has_with a = false -> a = no_analysis)
  /\ (has_with a = true <-> (1 <= cte_count a)%nat)
  /\ (is_complex a = true -> (2 <= cte_count a)%nat /\ cte_names a <> [])
  /\ (cte_count a = 1%nat ->
      is_complex a = false /\ (List.length (cte_names a) <= 1)%nat).
Proof.
  cbv zeta. unfold _analyze_with_structure.
  destruct (Re.finditer Pat.IS Pat.with_pattern sql) as [|m ms].
  { cbn. repeat split; try easy; lia. }
  cbn [List.length]. destruct ms as [|m' ms]; cbn [List.length Nat.ltb Nat.leb].
  - pose proof (AnalysisFacts.flexible_is_dead sql) as Hd.
    destruct (Re.search _ Pat.single_cte_pattern _).
    + cbn. repeat split; try easy; lia.
    + rewrite (Hd eq_refl). cbn. repeat split; try easy; lia.
  - destruct (Re.finditer Pat.IS Pat.cte_pattern sql) as [|c cs] eqn:E.
    + cbn. repeat split; try easy; lia.
    + assert (Hl : exists l, List.last (List.map Some (c :: cs)) None = Some l).
      { clear. revert c. induction cs as [|c' cs IH]; intros c; [now exists c|].
        destruct (IH c') as [l Hl]. exists l. exact Hl. }
      destruct Hl as [l ->]. cbn. repeat split; try easy; lia.
Qed.


